(** * mediaconv: the batch conversion pipeline of [main.py]

    A shallow embedding of [main.py] and the properties of its pipeline:
    filename sanitizing ([prepare_files]), validation ([validate_files]),
    inspection ([inspect_files], [inspect_converted_files]), output path
    allocation ([get_output_file_path]), transcoding ([convert_video]) and
    the top-level script.

    Conventions of the model.
    - Python [str] is [string]; a character is one byte.
    - The host is POSIX: [os.sep] is "/", and [os.rename] replaces an
      existing regular file.
    - A directory is a finite map from entry names to entries, so
      [os.path.exists (os.path.join FOLDER name)] reads as a lookup of
      [name] in the map of [FOLDER].
    - External programs (ffmpeg, ffprobe), the shell, the clock and the
      order in which [os.listdir] enumerates a directory are given by an
      [engine] record; every launched command line is appended to a trace.
    - The output that [subprocess] captures with [text=True] is either
      text or bytes that do not decode, for which the call raises
      [UnicodeDecodeError].
    - Python exceptions are an outcome of the [M] monad; an exception that
      no [except] clause catches leaves the function that raised it. *)

From Stdlib Require Import ZArith Ascii String List Lia SpecFloat Permutation.
From stdpp Require Import base option list sorting gmap strings pretty.

Open Scope string_scope.
Set Warnings "-register-all".

(** ** Python string primitives *)

Module PyStr.

(** [any(p(c) for c in s)] *)
Fixpoint any (p : ascii -> bool) (s : string) : bool :=
  match s with
  | EmptyString => false
  | String c s' => p c || any p s'
  end.

(** [all(p(c) for c in s)] *)
Fixpoint all (p : ascii -> bool) (s : string) : bool :=
  match s with
  | EmptyString => true
  | String c s' => p c && all p s'
  end.

(** [c in s] for a single character [c] *)
Definition mem (c : ascii) (s : string) : bool := any (Ascii.eqb c) s.

(** keep the characters on which [p] holds *)
Fixpoint filter (p : ascii -> bool) (s : string) : string :=
  match s with
  | EmptyString => EmptyString
  | String c s' => if p c then String c (filter p s') else filter p s'
  end.

Fixpoint map (f : ascii -> ascii) (s : string) : string :=
  match s with
  | EmptyString => EmptyString
  | String c s' => String (f c) (map f s')
  end.

(** [s.replace(a, b)] for single characters [a] and [b] *)
Definition replace (a b : ascii) (s : string) : string :=
  map (fun c => if Ascii.eqb c a then b else c) s.

(** [s[:n]] and [s[n:]] for [0 <= n] *)
Fixpoint take (n : nat) (s : string) : string :=
  match n, s with
  | S n', String c s' => String c (take n' s')
  | _, _ => EmptyString
  end.

Fixpoint drop (n : nat) (s : string) : string :=
  match n, s with
  | S n', String c s' => drop n' s'
  | _, _ => s
  end.

(** [s.rfind(c)]: the last index of [c] in [s], or [-1] *)
Fixpoint rfind_from (i : Z) (c : ascii) (s : string) : Z :=
  match s with
  | EmptyString => (-1)%Z
  | String a s' =>
      let r := rfind_from (i + 1) c s' in
      if (0 <=? r)%Z then r else if Ascii.eqb a c then i else (-1)%Z
  end.

Definition rfind (c : ascii) (s : string) : Z := rfind_from 0 c s.

(** [s.startswith(t)] *)
Fixpoint startswith (t s : string) : bool :=
  match t, s with
  | EmptyString, _ => true
  | String a t', String b s' => Ascii.eqb a b && startswith t' s'
  | String _ _, EmptyString => false
  end.

(** [t in s]: [t] occurs in [s] as a contiguous substring *)
Fixpoint contains (t s : string) : bool :=
  startswith t s ||
  match s with
  | EmptyString => false
  | String _ s' => contains t s'
  end.

Definition between (lo hi c : ascii) : bool :=
  (Ascii.leb lo c && Ascii.leb c hi)%bool.

(** [c.lower()] on the ASCII letters *)
Definition lower_char (c : ascii) : ascii :=
  if between "A" "Z" c then ascii_of_nat (nat_of_ascii c + 32) else c.

Definition lower (s : string) : string := map lower_char s.

(** the characters [str.strip()] removes: TAB, LF, VT, FF, CR, FS, GS, RS,
    US and the space *)
Definition isspace (c : ascii) : bool :=
  (between (ascii_of_nat 9) (ascii_of_nat 13) c
   || between (ascii_of_nat 28) (ascii_of_nat 32) c)%bool.

Fixpoint lstrip (s : string) : string :=
  match s with
  | EmptyString => EmptyString
  | String c s' => if isspace c then lstrip s' else s
  end.

(** [rstrip] keeps a character when it is not a space or when something
    is left after it *)
Fixpoint rstrip (s : string) : string :=
  match s with
  | EmptyString => EmptyString
  | String c s' =>
      match rstrip s' with
      | EmptyString => if isspace c then EmptyString else String c EmptyString
      | r => String c r
      end
  end.

Definition strip (s : string) : string := rstrip (lstrip s).

Definition isdigit (c : ascii) : bool := between "0" "9" c.

End PyStr.

(** ** [os.path] on a POSIX host *)

(** [posixpath.join(a, b)] *)
Definition os_path_join (a b : string) : string :=
  if PyStr.startswith "/" b then b
  else if (String.eqb a "" || PyStr.startswith "/" (String.rev a))%bool
       then a ++ b
       else a ++ "/" ++ b.

(** [genericpath._splitext(p, "/", None, ".")], which is
    [os.path.splitext]: the extension starts at the last dot of the last
    path component, unless that component has nothing but dots before it. *)
Definition splitext (p : string) : string * string :=
  let sepIndex := PyStr.rfind "/" p in
  let dotIndex := PyStr.rfind "." p in
  if (sepIndex <? dotIndex)%Z then
    (* skip all leading dots *)
    let filenameIndex := Z.to_nat (sepIndex + 1) in
    let leading :=
      PyStr.take (Z.to_nat dotIndex - filenameIndex) (PyStr.drop filenameIndex p) in
    if PyStr.all (Ascii.eqb ".") leading
    then (p, "")
    else (PyStr.take (Z.to_nat dotIndex) p, PyStr.drop (Z.to_nat dotIndex) p)
  else (p, "").

(** ** Constants of the script *)

Definition CONVERT_MEDIA_FOLDER : string := "convert_media".
Definition CONVERTED_MEDIA_FOLDER : string := "converted_media".
Definition LOGGING_FOLDER : string := "logging".
Definition FFMPEG : string := "ffmpeg".
Definition FFPROBE : string := "ffprobe".

(** the double quote character, and a string made of it *)
Definition dquote : ascii := ascii_of_nat 34.
Definition q : string := String dquote "".

(** ** Directories *)

(** An entry of a directory: a regular file with its content, or a
    subdirectory (which may be empty). *)
Inductive entry :=
| File (content : string)
| Dir (empty : bool).

Global Instance entry_eq_dec : EqDecision entry.
Proof. solve_decision. Defined.

Abbreviation folder := (gmap string entry).

(** [os.path.join(FOLDER, name)] spells FOLDER itself (or its parent) when
    [name] is empty or a dot name; such a name is never an entry. *)
Definition names_directory (name : string) : bool :=
  bool_decide (name ∈ [""; "."; ".."]).

(** [os.path.exists(os.path.join(FOLDER, name))] *)
Definition path_exists (d : folder) (name : string) : bool :=
  names_directory name || bool_decide (is_Some (d !! name)).

(** [os.path.isfile(os.path.join(FOLDER, name))] *)
Definition path_isfile (d : folder) (name : string) : bool :=
  match d !! name with
  | Some (File _) => true
  | _ => false
  end.

(** [os.rename(os.path.join(FOLDER, src), os.path.join(FOLDER, dst))];
    [None] stands for the [OSError] it raises.  A regular file replaces a
    regular file of the destination name and cannot replace a directory. *)
Definition os_rename (d : folder) (src dst : string) : option folder :=
  match d !! src with
  | None => None
  | Some (File c) =>
      if names_directory dst then None
      else match d !! dst with
           | Some (Dir _) => None
           | _ => Some (<[dst := File c]> (delete src d))
           end
  | Some (Dir e) =>
      if names_directory dst then None
      else match d !! dst with
           | Some (File _) => None
           | Some (Dir false) => None
           | _ => Some (<[dst := Dir e]> (delete src d))
           end
  end.

(** ** Values read from JSON *)

(** What [json.loads] builds: [None], [bool], [int], [float], [str],
    [list] and [dict] (with its keys in insertion order). *)
Inductive pyval :=
| PNone
| PBool (b : bool)
| PInt (z : Z)
| PFloat (f : spec_float)
| PStr (s : string)
| PList (l : list pyval)
| PDict (items : list (string * pyval)).

(** ** Exceptions, the log and the state of a run *)

Inductive command :=
| Argv (args : list string)   (* [subprocess] with an argument list *)
| Shell (line : string).      (* [subprocess] with [shell=True] *)

Inductive exn :=
| CalledProcessError (cmd : command) (returncode : Z) (output stderr : string)
| OSError
| JSONDecodeError
| KeyError (key : string)
| TypeError
| ValueError
| OverflowError
| ZeroDivisionError
| UnicodeDecodeError.

(** A message is kept as the pieces of its f-string: literal text,
    [str(v)] of a JSON value and [str(e)] of an exception. *)
Inductive piece :=
| Lit (s : string)
| StrOf (v : pyval)
| StrOfExn (e : exn).

Inductive level := INFO | ERROR.

Record record := { levelname : level; message : list piece }.

Record world := {
  convert_media : folder;        (* the entries of convert_media/ *)
  converted_media : folder;      (* the entries of converted_media/ *)
  handlers_ready : bool;         (* [setup_logging] has run *)
  log : list record;             (* the records written to convertlog.log *)
  stderr : list record;          (* the records of the default handler *)
  stdout : list (list piece);    (* what [print] wrote *)
  trace : list command           (* the commands launched, oldest first *)
}.

Definition set_convert_media (d : folder) (w : world) : world :=
  {| convert_media := d; converted_media := converted_media w;
     handlers_ready := handlers_ready w; log := log w; stderr := stderr w;
     stdout := stdout w; trace := trace w |}.

Definition set_converted_media (d : folder) (w : world) : world :=
  {| convert_media := convert_media w; converted_media := d;
     handlers_ready := handlers_ready w; log := log w; stderr := stderr w;
     stdout := stdout w; trace := trace w |}.

Definition set_handlers_ready (b : bool) (w : world) : world :=
  {| convert_media := convert_media w; converted_media := converted_media w;
     handlers_ready := b; log := log w; stderr := stderr w;
     stdout := stdout w; trace := trace w |}.

Definition add_log (r : record) (w : world) : world :=
  {| convert_media := convert_media w; converted_media := converted_media w;
     handlers_ready := handlers_ready w; log := log w ++ [r];
     stderr := stderr w; stdout := stdout w; trace := trace w |}.

Definition add_stderr (r : record) (w : world) : world :=
  {| convert_media := convert_media w; converted_media := converted_media w;
     handlers_ready := handlers_ready w; log := log w;
     stderr := stderr w ++ [r]; stdout := stdout w; trace := trace w |}.

Definition add_stdout (m : list piece) (w : world) : world :=
  {| convert_media := convert_media w; converted_media := converted_media w;
     handlers_ready := handlers_ready w; log := log w; stderr := stderr w;
     stdout := stdout w ++ [m]; trace := trace w |}.

Definition add_trace (c : command) (w : world) : world :=
  {| convert_media := convert_media w; converted_media := converted_media w;
     handlers_ready := handlers_ready w; log := log w; stderr := stderr w;
     stdout := stdout w; trace := trace w ++ [c] |}.

(** How a call ends: it returns, an exception leaves it, [sys.exit] was
    called, or a [while] loop of the model ran out of fuel. *)
Inductive outcome (A : Type) :=
| Ok (a : A)
| Raise (e : exn)
| SysExit (code : Z)
| OutOfFuel.
Arguments Ok {A} a.
Arguments Raise {A} e.
Arguments SysExit {A} code.
Arguments OutOfFuel {A}.

Definition M (A : Type) : Type := world -> outcome A * world.

Definition ret {A} (a : A) : M A := fun w => (Ok a, w).

Definition bind {A B} (m : M A) (k : A -> M B) : M B :=
  fun w =>
    match m w with
    | (Ok a, w') => k a w'
    | (Raise e, w') => (Raise e, w')
    | (SysExit c, w') => (SysExit c, w')
    | (OutOfFuel, w') => (OutOfFuel, w')
    end.

Definition raise {A} (e : exn) : M A := fun w => (Raise e, w).
Definition sys_exit {A} (code : Z) : M A := fun w => (SysExit code, w).
Definition out_of_fuel {A} : M A := fun w => (OutOfFuel, w).
Definition get : M world := fun w => (Ok w, w).
Definition modify (f : world -> world) : M unit := fun w => (Ok tt, f w).

(** [try: m except <the exceptions handler accepts>: ...] *)
Definition try_except {A} (m : M A) (handler : exn -> option (M A)) : M A :=
  fun w =>
    match m w with
    | (Raise e, w') =>
        match handler e with
        | Some h => h w'
        | None => (Raise e, w')
        end
    | r => r
    end.

Notation "'let!' x ':=' m 'in' k" := (bind m (fun x => k))
  (at level 10, x name, m at level 100, k at level 200).
Notation "m '>>' k" := (bind m (fun _ => k))
  (at level 90, right associativity).

(** [for x in l: body(x)] *)
Fixpoint for_each {A} (l : list A) (body : A -> M unit) : M unit :=
  match l with
  | [] => ret tt
  | x :: l' => body x >> for_each l' body
  end.

(** The module-level [logging.info] and [logging.error].  Before
    [setup_logging] the root logger has the default handler and level
    WARNING: an INFO record is dropped and an ERROR record goes to the
    standard error stream. *)
Definition logging_info (m : list piece) : M unit :=
  fun w =>
    if handlers_ready w
    then (Ok tt, add_log {| levelname := INFO; message := m |} w)
    else (Ok tt, w).

Definition logging_error (m : list piece) : M unit :=
  fun w =>
    if handlers_ready w
    then (Ok tt, add_log {| levelname := ERROR; message := m |} w)
    else (Ok tt, add_stderr {| levelname := ERROR; message := m |} w).

Definition print (m : list piece) : M unit := modify (add_stdout m).

(** ** The environment of a run *)

(** What [subprocess] collects from a pipe that it reads with
    [text=True]: the text, or bytes that the codec of the locale rejects.
    For these the call raises [UnicodeDecodeError] when it collects the
    output, whatever the exit status is. *)
Inductive captured (A : Type) :=
| Decoded (a : A)
| Undecodable.
Arguments Decoded {A} a.
Arguments Undecodable {A}.

(** What [subprocess.run(..., capture_output=True, text=True)] returns. *)
Record completed := {
  returncode : Z;
  stdout_text : string;
  stderr_text : string
}.

(** The output of a JSON probe, by what [json.loads] makes of it: either
    text that it rejects, or the text of a document and the value it
    builds from it. *)
Inductive json_text :=
| Unparsable (raw : string)
| Document (raw : string) (v : pyval).

Definition text_of (t : json_text) : string :=
  match t with
  | Unparsable raw => raw
  | Document raw _ => raw
  end.

(** What one ffmpeg run did: its exit status, what it wrote to its two
    streams, and the content it left at the output path, if any. *)
Record transcoded := {
  t_returncode : Z;
  t_stdout : captured string;
  t_stderr : captured string;
  t_written : option string
}.

Record engine := {
  (** [ffmpeg -version], whose banner is text *)
  ffmpeg_version : completed;
  (** the stream probe of [validate_files], by input path: exit status and
      the merged output *)
  ffprobe_streams : string -> Z * captured string;
  (** the format probe of the inspectors, by path: exit status and the
      merged output *)
  ffprobe_format : string -> Z * captured json_text;
  (** what [/bin/sh -c] does with a line in which it expands something:
      by the line and the entries of convert_media/ and converted_media/,
      the exit status, the merged output and the entries it leaves *)
  sh : string -> folder * folder -> (Z * captured json_text) * (folder * folder);
  (** the transcode, by input and output path *)
  ffmpeg : string -> string -> transcoded;
  (** the order in which [os.listdir] enumerates a directory *)
  os_listdir : folder -> list string;
  (** [datetime.now().strftime(...)] and [str(uuid.uuid4())] *)
  now : string;
  uuid4 : string
}.

(** [os.listdir] returns every entry once, in some order. *)
Definition listdir_ok (E : engine) : Prop :=
  forall d : folder, os_listdir E d ≡ₚ (map_to_list d).*1.

(** ** [prepare_files]: the filename sanitizer *)

(** the eleven characters of the raw string that [prepare_files] tests
    for: [~ \ / * ? < > | :], the double quote and the space *)
Definition unsafe_chars : string := "~\/*?<>|:" ++ String dquote " ".

(** [any(char in <that raw string> for char in file)] *)
Definition has_unsafe_char (file : string) : bool :=
  PyStr.any (fun char => PyStr.mem char unsafe_chars) file.

(** the class [[a-zA-Z0-9_ .]] *)
Definition kept_char (c : ascii) : bool :=
  (PyStr.between "a" "z" c || PyStr.between "A" "Z" c || PyStr.between "0" "9" c
   || Ascii.eqb c "_" || Ascii.eqb c " " || Ascii.eqb c ".")%bool.

(** [re.sub(r"[^a-zA-Z0-9_ .]", "", file).replace(" ", "_")] *)
Definition sanitized (file : string) : string :=
  PyStr.replace " " "_" (PyStr.filter kept_char file).

(** [f"{file_prefix}_{counter}{file_extension}"] *)
Definition numbered (file_prefix : string) (counter : nat) (file_extension : string)
  : string :=
  file_prefix ++ "_" ++ pretty counter ++ file_extension.

(** The [while] loop of [prepare_files]: as long as the numbered name
    exists, it becomes the new name and the counter moves on. *)
Fixpoint counter_loop (fuel : nat) (d : folder) (file_prefix file_extension : string)
    (new_file_name : string) (counter : nat) : option string :=
  match fuel with
  | O => None
  | S fuel' =>
      if path_exists d (numbered file_prefix counter file_extension)
      then counter_loop fuel' d file_prefix file_extension
             (numbered file_prefix counter file_extension) (S counter)
      else Some new_file_name
  end.

(** The value of [new_file_name] when the loop is left. *)
Definition new_file_name (fuel : nat) (d : folder) (file : string) : option string :=
  let name := sanitized file in
  let '(file_prefix, file_extension) := splitext name in
  counter_loop fuel d file_prefix file_extension name 1.

(** [os.rename] inside convert_media/ *)
Definition rename_in_convert_media (src dst : string) : M unit :=
  fun w =>
    match os_rename (convert_media w) src dst with
    | Some d' => (Ok tt, set_convert_media d' w)
    | None => (Raise OSError, w)
    end.

(** The body of the [for] loop of [prepare_files]. *)
Definition prepare_file (file : string) : M unit :=
  if has_unsafe_char file then
    let! w := get in
    match new_file_name (S (size (convert_media w))) (convert_media w) file with
    | None => out_of_fuel
    | Some new_name =>
        if bool_decide (file ≠ new_name) then
          rename_in_convert_media file new_name >>
          logging_info [Lit "Renamed file: "; Lit q; Lit file; Lit q; Lit " to ";
                        Lit q; Lit new_name; Lit q]
        else ret tt
    end
  else ret tt.

Definition prepare_files (E : engine) : M unit :=
  logging_info [Lit "Checking filenames for non-standard characters:"] >>
  let! w := get in
  let files_in_convert :=
    List.filter (path_isfile (convert_media w)) (os_listdir E (convert_media w)) in
  for_each files_in_convert prepare_file >>
  logging_info [Lit "Filenames prepared for processing."].

(** ** [get_output_file_path]: the path allocator *)

(** [os.path.join(convert_folder, f"{file_prefix}_converted_{counter}.mp4")],
    as the name of the entry *)
Definition converted_numbered (file_prefix : string) (counter : nat) : string :=
  file_prefix ++ "_converted_" ++ pretty counter ++ ".mp4".

(** The [while] loop of [get_output_file_path], on the name of the entry
    of converted_media/ that [output_file_path] denotes. *)
Fixpoint output_loop (fuel : nat) (d : folder) (file_prefix : string)
    (output_name : string) (counter : nat) : option string :=
  match fuel with
  | O => None
  | S fuel' =>
      if path_exists d output_name
      then output_loop fuel' d file_prefix
             (converted_numbered file_prefix counter) (S counter)
      else Some output_name
  end.

(** The entry of converted_media/ that the returned path denotes. *)
Definition get_output_file_name (fuel : nat) (d : folder) (file : string)
  : option string :=
  let '(file_prefix, file_extension) := splitext file in
  output_loop fuel d file_prefix (file_prefix ++ "_converted.mp4") 1.

Definition get_output_file_path (fuel : nat) (d : folder) (file : string)
  : option string :=
  os_path_join CONVERTED_MEDIA_FOLDER <$> get_output_file_name fuel d file.

(** A listing in the order of the names. *)
Definition listdir_sorted (d : folder) : list string :=
  merge_sort String.le (map_to_list d).*1.

(** ** Python [float]: IEEE 754 binary64 *)

(** Sequencing of computations that may raise, outside the state. *)
Definition obind {A B} (o : outcome A) (k : A -> outcome B) : outcome B :=
  match o with
  | Ok a => k a
  | Raise e => Raise e
  | SysExit c => SysExit c
  | OutOfFuel => OutOfFuel
  end.

Notation "'let?' x ':=' o 'in' k" := (obind o (fun x => k))
  (at level 10, x name, o at level 100, k at level 200).

Definition lift {A} (o : outcome A) : M A := fun w => (o, w).

Module F64.

Definition prec : Z := 53.
Definition emax : Z := 1024.

Definition of_Z (z : Z) : spec_float := binary_normalize prec emax z 0 false.
Definition add : spec_float -> spec_float -> spec_float := SFadd prec emax.
Definition sub : spec_float -> spec_float -> spec_float := SFsub prec emax.
Definition div : spec_float -> spec_float -> spec_float := SFdiv prec emax.

Definition is_zero (x : spec_float) : bool :=
  match x with
  | S754_zero _ => true
  | _ => false
  end.

(** [x < 0.0] *)
Definition negative (x : spec_float) : bool := SFltb x (S754_zero false).

(** [copysign(0.0, y)] *)
Definition zero_like (y : spec_float) : spec_float :=
  match y with
  | S754_zero s | S754_infinity s | S754_finite s _ _ => S754_zero s
  | S754_nan => S754_zero false
  end.

(** C [fmod(x, y)]: the remainder of the truncated division, which is
    exact and has the sign of [x]. *)
Definition fmod (x y : spec_float) : spec_float :=
  match x, y with
  | S754_nan, _ | _, S754_nan => S754_nan
  | S754_infinity _, _ => S754_nan
  | _, S754_zero _ => S754_nan
  | S754_zero _, _ => x
  | S754_finite _ _ _, S754_infinity _ => x
  | S754_finite sx mx ex, S754_finite _ my ey =>
      let e := Z.min ex ey in
      let X := (Zpos mx * 2 ^ (ex - e))%Z in
      let Y := (Zpos my * 2 ^ (ey - e))%Z in
      binary_normalize prec emax (cond_Zopp sx (X mod Y)) e sx
  end.

(** C [floor(x)] *)
Definition floor (x : spec_float) : spec_float :=
  match x with
  | S754_finite s m e =>
      if (0 <=? e)%Z then x
      else binary_normalize prec emax (cond_Zopp s (Zpos m) / 2 ^ (- e))%Z 0 s
  | _ => x
  end.

(** [vx % wx], CPython's [float_rem] *)
Definition rem (vx wx : spec_float) : outcome spec_float :=
  if is_zero wx then Raise ZeroDivisionError
  else
    let mod_ := fmod vx wx in
    if negb (is_zero mod_) then
      (* ensure the remainder has the same sign as the denominator *)
      if xorb (negative wx) (negative mod_) then Ok (add mod_ wx) else Ok mod_
    else Ok (zero_like wx).

(** [vx // wx], CPython's [float_floor_div] *)
Definition floordiv (vx wx : spec_float) : outcome spec_float :=
  if is_zero wx then Raise ZeroDivisionError
  else
    let mod_ := fmod vx wx in
    let div_ := div (sub vx mod_) wx in
    let div_ :=
      if (negb (is_zero mod_) && xorb (negative wx) (negative mod_))%bool
      then sub div_ (of_Z 1) else div_ in
    (* snap quotient to nearest integral value *)
    if negb (is_zero div_) then
      let fl := floor div_ in
      if SFltb (div (of_Z 1) (of_Z 2)) (sub div_ fl)
      then Ok (add fl (of_Z 1)) else Ok fl
    else Ok (zero_like (div vx wx)).

(** [vx / wx] *)
Definition truediv (vx wx : spec_float) : outcome spec_float :=
  if is_zero wx then Raise ZeroDivisionError else Ok (div vx wx).

(** [int(x)]: truncation towards zero *)
Definition to_int (x : spec_float) : outcome Z :=
  match x with
  | S754_nan => Raise ValueError
  | S754_infinity _ => Raise OverflowError
  | S754_zero _ => Ok 0%Z
  | S754_finite s m e =>
      Ok (cond_Zopp s (if (0 <=? e)%Z then Zpos m * 2 ^ e
                       else Zpos m / 2 ^ (- e)))%Z
  end.

(** [float(n)] for an [int] *)
Definition of_int (n : Z) : outcome spec_float :=
  match of_Z n with
  | S754_infinity _ => Raise OverflowError
  | f => Ok f
  end.

End F64.

(** ** String formatting *)

(** [s.rjust(width, "0")] *)
Definition zfill (width : nat) (s : string) : string :=
  String.concat "" (replicate (width - String.length s) "0") ++ s.

(** [format(n, "02")] for an [int]: sign first, then zeros up to width 2 *)
Definition format_02 (n : Z) : string :=
  if (n <? 0)%Z then "-" ++ zfill 1 (pretty (Z.abs n))
  else zfill 2 (pretty n).

(** The integer nearest to [num / den], ties to even, for [0 <= num] and
    [0 < den]. *)
Definition round_half_even (num den : Z) : Z :=
  let q_ := (num / den)%Z in
  let r := (num mod den)%Z in
  if (2 * r <? den)%Z then q_
  else if (den <? 2 * r)%Z then (q_ + 1)%Z
  else if Z.even q_ then q_ else (q_ + 1)%Z.

(** [format(x, ".2f")] for a [float]: the decimal expansion of the exact
    value, correctly rounded to two places. *)
Definition format_2f (x : spec_float) : string :=
  match x with
  | S754_nan => "nan"
  | S754_infinity s => if s then "-inf" else "inf"
  | S754_zero s => if s then "-0.00" else "0.00"
  | S754_finite s m e =>
      let hundredths :=
        if (0 <=? e)%Z then (Zpos m * 2 ^ e * 100)%Z
        else round_half_even (Zpos m * 100) (2 ^ (- e)) in
      (if s then "-" else "")
      ++ pretty (hundredths / 100)%Z ++ "." ++ zfill 2 (pretty (hundredths mod 100)%Z)
  end.

(** Lines 223-228 and 374-379: the duration as [HH:MM:SS.ss]. *)
Definition format_duration (duration_seconds : spec_float) : outcome string :=
  let? h := F64.floordiv duration_seconds (F64.of_Z 3600) in
  let? hours := F64.to_int h in
  let? r := F64.rem duration_seconds (F64.of_Z 3600) in
  let? m := F64.floordiv r (F64.of_Z 60) in
  let? minutes := F64.to_int m in
  let? seconds := F64.rem duration_seconds (F64.of_Z 60) in
  Ok (format_02 hours ++ ":" ++ format_02 minutes ++ ":" ++ format_2f seconds).

(** ** [float(s)] for a [str] *)

(** Underscores may only stand between two digits; they are removed
    before the text is read. [None] is the [ValueError]. *)
Fixpoint remove_underscores (prev : ascii) (s : string) : option string :=
  match s with
  | EmptyString => if Ascii.eqb prev "_" then None else Some EmptyString
  | String c s' =>
      if Ascii.eqb c "_" then
        if PyStr.isdigit prev then remove_underscores c s' else None
      else if (Ascii.eqb prev "_" && negb (PyStr.isdigit c))%bool then None
      else String c <$> remove_underscores c s'
  end.

(** the longest prefix of digits, and what follows it *)
Fixpoint span_digits (s : string) : string * string :=
  match s with
  | EmptyString => (EmptyString, EmptyString)
  | String c s' =>
      if PyStr.isdigit c
      then let '(ds, r) := span_digits s' in (String c ds, r)
      else (EmptyString, s)
  end.

Fixpoint int_of_digits (acc : Z) (s : string) : Z :=
  match s with
  | EmptyString => acc
  | String c s' => int_of_digits (10 * acc + (Z.of_nat (nat_of_ascii c) - 48)) s'
  end.

Definition split_sign (s : string) : bool * string :=
  match s with
  | String c r =>
      if Ascii.eqb c "-" then (true, r)
      else if Ascii.eqb c "+" then (false, r)
      else (false, s)
  | EmptyString => (false, s)
  end.

(** the exponent part: nothing, or [e] or [E], an optional sign and at
    least one digit, up to the end of the text *)
Definition parse_exponent (s : string) : option Z :=
  match s with
  | EmptyString => Some 0%Z
  | String c r =>
      if (Ascii.eqb c "e" || Ascii.eqb c "E")%bool then
        let '(neg, r1) := split_sign r in
        let '(ds, r2) := span_digits r1 in
        if (String.eqb ds "" || negb (String.eqb r2 ""))%bool then None
        else Some (cond_Zopp neg (int_of_digits 0 ds))
      else None
  end.

(** the binary64 number nearest to [(-1)^neg * n * 10^e10] *)
Definition decimal_to_float (neg : bool) (n e10 : Z) : spec_float :=
  match n with
  | Zpos p =>
      F64.div (S754_finite neg (Z.to_pos (Zpos p * 10 ^ Z.max e10 0)) 0)
              (S754_finite false (Z.to_pos (10 ^ Z.max (- e10) 0)) 0)
  | _ => S754_zero neg
  end.

(** digits, an optional point and digits (a digit on one side at least),
    and an optional exponent *)
Definition parse_number (neg : bool) (s : string) : option spec_float :=
  let '(ip, r1) := span_digits s in
  let '(fp, r2) :=
    match r1 with
    | String c r => if Ascii.eqb c "." then span_digits r else (EmptyString, r1)
    | EmptyString => (EmptyString, r1)
    end in
  if (String.eqb ip "" && String.eqb fp "")%bool then None
  else
    e ← parse_exponent r2;
    Some (decimal_to_float neg (int_of_digits 0 (ip ++ fp))
                           (e - Z.of_nat (String.length fp))).

Definition float_of_str (s : string) : outcome spec_float :=
  match (if PyStr.mem "_" s then remove_underscores "000" s else Some s) with
  | None => Raise ValueError
  | Some s1 =>
      let '(neg, body) := split_sign (PyStr.strip s1) in
      let l := PyStr.lower body in
      if (String.eqb l "inf" || String.eqb l "infinity")%bool then Ok (S754_infinity neg)
      else if String.eqb l "nan" then Ok S754_nan
      else match parse_number neg body with
           | Some f => Ok f
           | None => Raise ValueError
           end
  end.

(** ** Operations on JSON values *)

Fixpoint assoc (key : string) (items : list (string * pyval)) : option pyval :=
  match items with
  | [] => None
  | (k, v) :: items' => if String.eqb k key then Some v else assoc key items'
  end.

(** [v[key]] for a [str] key *)
Definition getitem (v : pyval) (key : string) : outcome pyval :=
  match v with
  | PDict items =>
      match assoc key items with
      | Some x => Ok x
      | None => Raise (KeyError key)
      end
  | _ => Raise TypeError
  end.

(** [float(v)] *)
Definition py_float (v : pyval) : outcome spec_float :=
  match v with
  | PFloat f => Ok f
  | PInt z => F64.of_int z
  | PBool b => Ok (F64.of_Z (if b then 1 else 0))
  | PStr s => float_of_str s
  | PNone | PList _ | PDict _ => Raise TypeError
  end.

Fixpoint chars (s : string) : list pyval :=
  match s with
  | EmptyString => []
  | String c s' => PStr (String c EmptyString) :: chars s'
  end.

(** the values [for x in v] goes through *)
Definition iterate (v : pyval) : outcome (list pyval) :=
  match v with
  | PList l => Ok l
  | PDict items => Ok (List.map (fun kv => PStr kv.1) items)
  | PStr s => Ok (chars s)
  | _ => Raise TypeError
  end.

(** [v == s] for a [str] literal [s] *)
Definition eq_str (v : pyval) (s : string) : bool :=
  match v with
  | PStr s' => String.eqb s' s
  | _ => false
  end.

(** [key in v] for a [str] key *)
Definition contains_key (key : string) (v : pyval) : outcome bool :=
  match v with
  | PDict items => Ok (match assoc key items with Some _ => true | None => false end)
  | PList l => Ok (existsb (fun x => eq_str x key) l)
  | PStr s => Ok (PyStr.contains key s)
  | _ => Raise TypeError
  end.

Definition json_loads (t : json_text) : outcome pyval :=
  match t with
  | Unparsable _ => Raise JSONDecodeError
  | Document _ v => Ok v
  end.

(** ** Launching external programs *)

(** [subprocess.check_output(cmd, stderr=subprocess.STDOUT, text=True)]
    for a command whose exit status and merged output are [r]: the output
    is decoded when it is collected, before the exit status is looked
    at.  [text] gives the characters of the output. *)
Definition check_output {A} (text : A -> string) (cmd : command) (r : Z * captured A)
  : M A :=
  fun w =>
    match r.2 with
    | Undecodable => (Raise UnicodeDecodeError, add_trace cmd w)
    | Decoded output =>
        if (r.1 =? 0)%Z then (Ok output, add_trace cmd w)
        else (Raise (CalledProcessError cmd r.1 (text output) ""), add_trace cmd w)
    end.

(** [subprocess.run(cmd, capture_output=True, text=True, check=True)]
    for a command whose two streams are text *)
Definition run_checked (cmd : command) (r : completed) : M completed :=
  fun w =>
    if (returncode r =? 0)%Z then (Ok r, add_trace cmd w)
    else (Raise (CalledProcessError cmd (returncode r) (stdout_text r) (stderr_text r)),
          add_trace cmd w).

(** ** [check_ffmpeg], [setup_directories], [setup_logging],
       [generate_batch_id] *)

Definition check_ffmpeg (E : engine) : M bool :=
  try_except
    (let! result := run_checked (Argv ["ffmpeg"; "-version"]) (ffmpeg_version E) in
     logging_info [Lit "FFmpeg version: "; Lit (PyStr.strip (stdout_text result))] >>
     ret true)
    (fun e =>
       match e with
       | CalledProcessError _ _ _ err =>
           Some (logging_error
                   [Lit "Error: FFmpeg is not installed or not in the system PATH."] >>
                 logging_error [Lit "Command output (stderr): "; Lit (PyStr.strip err)] >>
                 print [Lit "Error: FFmpeg is not installed or not in the system PATH."] >>
                 print [Lit "Command output (stderr): "; Lit (PyStr.strip err)] >>
                 sys_exit 1)
       | _ => None
       end).

(** The three directories are part of every [world], so [os.path.exists]
    holds of each of them and nothing is created. *)
Definition setup_directories : M unit := ret tt.

Definition setup_logging (log_directory : string) : M string :=
  let log_file_path := os_path_join log_directory "convertlog.log" in
  modify (set_handlers_ready true) >>
  logging_info [Lit "Logging initiated."] >>
  ret log_file_path.

Definition generate_batch_id (E : engine) : M string :=
  let timestamp := now E in
  let unique_id := PyStr.take 8 (uuid4 E) in
  let batch_id := timestamp ++ "_" ++ unique_id in
  logging_info [Lit "Begin processing conversion batch ID: "; Lit batch_id] >>
  ret batch_id.

(** ** [validate_files] *)

Definition ffprobe_command (input_file_path : string) : list string :=
  [FFPROBE; "-hide_banner"; "-v"; "error"; "-select_streams"; "v:0";
   "-show_entries"; "stream=codec_type"; "-of"; "csv=p=0"; input_file_path].

(** The body of the loop, with [valid_video_files] passed along. *)
Definition validate_file (E : engine) (valid_video_files : list string) (file : string)
  : M (list string) :=
  let input_file_path := os_path_join CONVERT_MEDIA_FOLDER file in
  try_except
    (let! ffprobe_output :=
       check_output id (Argv (ffprobe_command input_file_path))
                    (ffprobe_streams E input_file_path) in
     if PyStr.contains "video" (PyStr.lower ffprobe_output) then
       ret (valid_video_files ++ [file])%list
     else
       logging_error [Lit "File "; Lit q; Lit file; Lit q;
                      Lit " does not contain a valid video stream."] >>
       logging_error [Lit "ffprobe output for "; Lit file; Lit ": ";
                      Lit (PyStr.strip ffprobe_output)] >>
       ret valid_video_files)
    (fun e =>
       match e with
       | CalledProcessError _ _ output _ =>
           (* ffprobe command failed *)
           Some (logging_error
                   [Lit "Error in function `validate_files` running ffprobe for file ";
                    Lit q; Lit file; Lit q; Lit "."] >>
                 logging_error [Lit "Returned from ffprobe: "; Lit (PyStr.strip output)] >>
                 ret valid_video_files)
       | _ => None
       end).

Fixpoint validate_loop (E : engine) (valid_video_files : list string) (files : list string)
  : M (list string) :=
  match files with
  | [] => ret valid_video_files
  | file :: files' =>
      let! valid_video_files := validate_file E valid_video_files file in
      validate_loop E valid_video_files files'
  end.

(** [files] is the global list that the script sets before the call. *)
Definition validate_files (E : engine) (files : list string) : M (list string) :=
  validate_loop E [] files.

(** ** [inspect_files] and [inspect_converted_files] *)

(** the shell line of the format probe *)
Definition ffprobe_format_command (file_path : string) : string :=
  FFPROBE ++ " -hide_banner -v error -show_entries format=duration,bit_rate,size -show_entries stream=codec_type,width,height,display_aspect_ratio,codec_name -of json "
  ++ q ++ file_path ++ q.

(** The body of [for stream in data["streams"]]. *)
Definition report_stream (stream : pyval) : M unit :=
  let! codec_type := lift (getitem stream "codec_type") in
  if eq_str codec_type "video" then
    let! has_codec := lift (contains_key "codec_name" stream) in
    (if has_codec then
       let! codec_name := lift (getitem stream "codec_name") in
       logging_info [Lit "Video Codec: "; StrOf codec_name]
     else ret tt) >>
    let! width := lift (getitem stream "width") in
    let! height := lift (getitem stream "height") in
    logging_info [Lit "Resolution: "; StrOf width; Lit "x"; StrOf height] >>
    let! has_dar := lift (contains_key "display_aspect_ratio" stream) in
    if has_dar then
      let! dar := lift (getitem stream "display_aspect_ratio") in
      logging_info [Lit "Display Aspect Ratio: "; StrOf dar]
    else logging_info [Lit "Display Aspect Ratio: Not available"]
  else
    let! codec_type := lift (getitem stream "codec_type") in
    if eq_str codec_type "audio" then logging_info [Lit "Audio: Present"]
    else ret tt.

(** The three formatted values that both inspectors compute from the
    parsed output: size, duration and bitrate, evaluated in the order of
    the source (duration, bitrate, size). *)
Definition format_report (data : pyval) : outcome (string * string * string) :=
  (* Format Duration as HH:MM:SS.ss *)
  let? format := getitem data "format" in
  let? duration := getitem format "duration" in
  let? duration_seconds := py_float duration in
  let? formatted_duration := format_duration duration_seconds in
  (* Format Bitrate in kb/s *)
  let? format := getitem data "format" in
  let? bit_rate := getitem format "bit_rate" in
  let? bit_rate := py_float bit_rate in
  let? kbps := F64.truediv bit_rate (F64.of_Z 1000) in
  let formatted_bitrate := format_2f kbps ++ " kb/s" in
  (* Format Size in MB *)
  let? format := getitem data "format" in
  let? size_ := getitem format "size" in
  let? size_ := py_float size_ in
  let? mb := F64.truediv size_ (F64.of_Z (1024 * 1024)) in
  let formatted_size_mb := format_2f mb ++ " MB" in
  Ok (formatted_size_mb, formatted_duration, formatted_bitrate).

(** What follows [check_output] inside the [try] of both inspectors; the
    two copies differ in the heading of the first record. *)
Definition report (heading : string) (file : string) (result : json_text) : M unit :=
  let! data := lift (json_loads result) in
  let! formatted := lift (format_report data) in
  logging_info [Lit heading; Lit file] >>
  logging_info [Lit "Size: "; Lit formatted.1.1] >>
  logging_info [Lit "Duration: "; Lit formatted.1.2] >>
  logging_info [Lit "Bitrate: "; Lit formatted.2] >>
  let! streams := lift (let? streams := getitem data "streams" in iterate streams) in
  for_each streams report_stream.

(** The characters that [/bin/sh] does not take literally inside double
    quotes: the dollar sign, the backquote, the backslash and the double
    quote. *)
Definition shell_special : string := "$`\" ++ String dquote "".

(** No character of [s] is special inside double quotes. *)
Definition shell_literal (s : string) : bool :=
  negb (PyStr.any (fun c => PyStr.mem c shell_special) s).

(** What running the line [ffprobe_format_command file_path] with
    [shell=True] does.  The path stands between double quotes: if all its
    characters are literal there, the shell passes it to ffprobe as it is,
    and ffprobe only reads; if not, the shell expands the line (variables,
    command substitutions, the end of the quoted word), which is left to
    the engine and may change both folders. *)
Definition run_shell (E : engine) (file_path : string) : M (Z * captured json_text) :=
  fun w =>
    if shell_literal file_path then (Ok (ffprobe_format E file_path), w)
    else
      let r := sh E (ffprobe_format_command file_path)
                    (convert_media w, converted_media w) in
      (Ok r.1, set_convert_media r.2.1 (set_converted_media r.2.2 w)).

(** The body of the [for] loop of an inspector over the files of
    [folder]: only [CalledProcessError] is caught. *)
Definition inspect_file (E : engine) (folder_name heading where_ : string) (file : string)
  : M unit :=
  let file_path := os_path_join folder_name file in
  let cmd := Shell (ffprobe_format_command file_path) in
  try_except
    (let! r := run_shell E file_path in
     let! result := check_output text_of cmd r in
     report heading file result)
    (fun e =>
       match e with
       | CalledProcessError _ _ _ _ =>
           (* ffprobe command failed *)
           Some (logging_error [Lit "Error in `"; Lit where_;
                                Lit "` function running ffprobe for file ";
                                Lit q; Lit file; Lit q; Lit ": "; StrOfExn e])
       | _ => None
       end).

Definition inspect_files (E : engine) (valid_video_files : list string) : M unit :=
  let convert_folder := CONVERT_MEDIA_FOLDER in
  match valid_video_files with
  | [] => logging_info [Lit "No valid video files found in the convert_media folder."]
  | _ =>
      logging_info [Lit "Inspecting validated files:"] >>
      for_each valid_video_files
        (inspect_file E convert_folder "File: " "inspect_file") >>
      logging_info [Lit "File inspection completed."]
  end.

Definition inspect_converted_files (E : engine) : M unit :=
  let convert_folder := CONVERTED_MEDIA_FOLDER in
  let! w := get in
  let converted_files :=
    List.filter (path_isfile (converted_media w)) (os_listdir E (converted_media w)) in
  match converted_files with
  | [] => logging_info [Lit "No converted video files found in the converted_media folder."]
  | _ =>
      logging_info [Lit "Inspecting converted files:"] >>
      for_each converted_files
        (inspect_file E convert_folder "Converted File: " "inspect_converted_files") >>
      logging_info [Lit "Converted file inspection completed."]
  end.

(** ** [convert_video] *)

Definition ffmpeg_command (file_path output_file : string) : list string :=
  [FFMPEG; "-hide_banner"; "-i"; file_path; "-c:v"; "libx264"; "-preset"; "medium";
   "-crf"; "23"; "-vf"; "format=yuv420p"; "-vf"; "scale=-2:720"; "-c:a"; "aac";
   "-q:a"; "100"; "-movflags"; "faststart"; output_file].

(** [subprocess.run(ffmpeg_command, capture_output=True, text=True)]: the
    run is recorded, and what ffmpeg wrote becomes the entry [output_name]
    of converted_media/; then the two streams are decoded. *)
Definition run_ffmpeg (E : engine) (file_path output_file output_name : string)
  : M completed :=
  fun w =>
    let result := ffmpeg E file_path output_file in
    let w' := add_trace (Argv (ffmpeg_command file_path output_file)) w in
    let w'' :=
      match t_written result with
      | Some content =>
          set_converted_media (<[output_name := File content]> (converted_media w')) w'
      | None => w'
      end in
    match t_stdout result, t_stderr result with
    | Decoded out, Decoded err =>
        (Ok {| returncode := t_returncode result; stdout_text := out; stderr_text := err |},
         w'')
    | _, _ => (Raise UnicodeDecodeError, w'')
    end.

Definition convert_video (E : engine) (file : string) : M unit :=
  logging_info [Lit "Start file conversion for file "; Lit file; Lit "."] >>
  try_except
    (let file_path := os_path_join CONVERT_MEDIA_FOLDER file in
     let! w := get in
     match get_output_file_name (S (size (converted_media w))) (converted_media w) file with
     | None => out_of_fuel
     | Some output_name =>
         let output_file := os_path_join CONVERTED_MEDIA_FOLDER output_name in
         (* Execute ffmpeg command and capture output *)
         let! result := run_ffmpeg E file_path output_file output_name in
         (* Log only essential information *)
         if (returncode result =? 0)%Z then
           logging_info [Lit "Conversion complete for file: "; Lit file; Lit "."]
         else
           logging_error [Lit "Error converting file "; Lit q; Lit file; Lit q; Lit ": ";
                          Lit (PyStr.strip (stderr_text result)); Lit "."]
     end)
    (fun e =>
       match e with
       | CalledProcessError _ _ _ _ =>
           Some (logging_error [Lit "Error converting file "; Lit q; Lit file; Lit q;
                                Lit ": "; StrOfExn e; Lit "."])
       | _ => None
       end).

(** ** The script *)

Definition newline : string := String (ascii_of_nat 10) EmptyString.

(** What the script does once [validate_files] has returned. *)
Definition after_validation (E : engine) (batch_id : string)
    (valid_video_files : list string) : M unit :=
  match valid_video_files with
  | _ :: _ =>
      inspect_files E valid_video_files >>
      for_each valid_video_files (convert_video E) >>
      inspect_converted_files E
  | [] => ret tt
  end >>
  logging_info [Lit "Processing complete for batch ID "; Lit batch_id; Lit "."; Lit newline].

Definition main (E : engine) : M unit :=
  check_ffmpeg E >>
  setup_directories >>
  let! log_file_path := setup_logging LOGGING_FOLDER in
  let! batch_id := generate_batch_id E in
  prepare_files E >>
  let! w := get in
  let files :=
    List.filter (path_isfile (convert_media w)) (os_listdir E (convert_media w)) in
  let! valid_video_files := validate_files E files in
  after_validation E batch_id valid_video_files.

(** ** Worlds and engines for examples *)

(** A world with the given two directories, before the script starts. *)
Definition initial_world (input output : folder) : world :=
  {| convert_media := input; converted_media := output; handlers_ready := false;
     log := []; stderr := []; stdout := []; trace := [] |}.

(** The same, with logging set up. *)
Definition logging_world (input output : folder) : world :=
  set_handlers_ready true (initial_world input output).

(** the JSON document of a 3725.4 second clip with a video and an audio
    stream *)
Definition clip_document : pyval :=
  PDict [("streams",
          PList [PDict [("codec_name", PStr "h264"); ("codec_type", PStr "video");
                        ("width", PInt 1280); ("height", PInt 720);
                        ("display_aspect_ratio", PStr "16:9")];
                 PDict [("codec_name", PStr "aac"); ("codec_type", PStr "audio")]]);
         ("format",
          PDict [("duration", PStr "3725.400000"); ("size", PStr "1048576");
                 ("bit_rate", PStr "128000")])].

(** An engine whose programs succeed on every file. *)
Definition good_engine : engine :=
  {| ffmpeg_version :=
       {| returncode := 0; stdout_text := "ffmpeg version 6.0"; stderr_text := "" |};
     ffprobe_streams := fun _ => (0%Z, Decoded "video");
     ffprobe_format := fun _ => (0%Z, Decoded (Document "{...}" clip_document));
     sh := fun _ dirs => ((2%Z, Decoded (Unparsable "sh: syntax error")), dirs);
     ffmpeg := fun _ _ =>
       {| t_returncode := 0; t_stdout := Decoded ""; t_stderr := Decoded "";
          t_written := Some "mp4" |};
     os_listdir := listdir_sorted;
     now := "20240101_120000";
     uuid4 := "0f8fad5b-d9cb-469f-a165-70867728950e" |}.

(** An engine like [good_engine] but for the three programs. *)
Definition engine_with (streams : string -> Z * captured string)
    (format : string -> Z * captured json_text)
    (transcode : string -> string -> transcoded) : engine :=
  {| ffmpeg_version := ffmpeg_version good_engine;
     ffprobe_streams := streams;
     ffprobe_format := format;
     sh := sh good_engine;
     ffmpeg := transcode;
     os_listdir := listdir_sorted;
     now := now good_engine;
     uuid4 := uuid4 good_engine |}.

(** ** Character classes of the specification *)

(** the class [[A-Za-z0-9_.]] of a sanitized name *)
Definition safe_char (c : ascii) : bool :=
  (PyStr.between "a" "z" c || PyStr.between "A" "Z" c || PyStr.between "0" "9" c
   || Ascii.eqb c "_" || Ascii.eqb c ".")%bool.

(** The name of the entry that [get_output_file_path] tries at step [k]:
    the plain name first, then the numbered ones. *)
Definition output_candidate (file_prefix : string) (k : nat) : string :=
  match k with
  | O => file_prefix ++ "_converted.mp4"
  | S _ => converted_numbered file_prefix k
  end.

(** ** Directories for examples *)

(** a name that sanitizes to the name of another file *)
Definition clash_on_disk : folder :=
  {[ "a b.mov" := File "first"; "a_b.mov" := File "second" ]}.

(** two names that sanitize to the same name *)
Definition clash_in_pass : folder :=
  {[ "a b.mov" := File "first"; "a b?.mov" := File "second" ]}.

(** a name with a character outside the class that is not one of the
    eleven unsafe ones *)
Definition hash_name : folder := {[ "a#b.mov" := File "x" ]}.

(** a name of which only the extension is left *)
Definition dot_name : folder := {[ "???.mov" := File "v" ]}.

(** a name that sanitizes to the name of a directory, and a file after it *)
Definition blocked : folder :=
  {[ "a b" := File "x"; "a_b" := Dir true; "c d" := File "y" ]}.

(** the output of an earlier run *)
Definition taken_output : folder := {[ "clip_converted.mp4" := File "old" ]}.

(** ** What the validator keeps, and what a trace says *)

(** The stream probe of [file] exits with 0 and its output mentions
    [video]. *)
Definition has_video (E : engine) (file : string) : bool :=
  let r := ffprobe_streams E (os_path_join CONVERT_MEDIA_FOLDER file) in
  match r.2 with
  | Decoded output => ((r.1 =? 0)%Z && PyStr.contains "video" (PyStr.lower output))%bool
  | Undecodable => false
  end.

(** The output of the stream probe of [file] is text. *)
Definition streams_decode (E : engine) (file : string) : bool :=
  match (ffprobe_streams E (os_path_join CONVERT_MEDIA_FOLDER file)).2 with
  | Decoded _ => true
  | Undecodable => false
  end.


(** The records that [validate_files] writes about [file]. *)
Definition validation_records (E : engine) (file : string) : list record :=
  let r := ffprobe_streams E (os_path_join CONVERT_MEDIA_FOLDER file) in
  match r.2 with
  | Undecodable => []
  | Decoded output =>
      if (r.1 =? 0)%Z then
        if PyStr.contains "video" (PyStr.lower output) then []
        else [ {| levelname := ERROR;
                  message := [Lit "File "; Lit q; Lit file; Lit q;
                              Lit " does not contain a valid video stream."] |};
               {| levelname := ERROR;
                  message := [Lit "ffprobe output for "; Lit file; Lit ": ";
                              Lit (PyStr.strip output)] |} ]
      else [ {| levelname := ERROR;
                message := [Lit "Error in function `validate_files` running ffprobe for file ";
                            Lit q; Lit file; Lit q; Lit "."] |};
             {| levelname := ERROR;
                message := [Lit "Returned from ffprobe: "; Lit (PyStr.strip output)] |} ]
  end.

(** The state with more records and more commands. *)
Definition extend (recs : list record) (cmds : list command) (w : world) : world :=
  {| convert_media := convert_media w; converted_media := converted_media w;
     handlers_ready := handlers_ready w; log := (log w ++ recs)%list;
     stderr := stderr w; stdout := stdout w; trace := (trace w ++ cmds)%list |}.

(** [w'] is a later state of the run of [w]: its log and its trace
    continue those of [w]. *)
Definition grows (w w' : world) : Prop :=
  handlers_ready w' = handlers_ready w /\
  (exists recs : list record, log w' = (log w ++ recs)%list) /\
  (exists cmds : list command, trace w' = (trace w ++ cmds)%list).

(** Every run of [m] only adds to the log and to the trace. *)
Definition Grows {A} (m : M A) : Prop :=
  forall w r w', m w = (r, w') -> grows w w'.

(** the input path of a transcode command *)
Definition transcode_input (c : command) : option string :=
  match c with
  | Argv (prog :: _ :: _ :: file_path :: _) =>
      if String.eqb prog FFMPEG then Some file_path else None
  | _ => None
  end.

(** ** Engines for examples *)



(** The format probe of [a.mp4] exits with 0 and prints no JSON. *)
Definition garbled_engine : engine :=
  engine_with
    (ffprobe_streams good_engine)
    (fun path => if String.eqb path "convert_media/a.mp4"
                 then (0%Z, Decoded (Unparsable "not json"))
                 else ffprobe_format good_engine path)
    (ffmpeg good_engine).

(** The format probe of [a.mp4] exits with 0 and its document has no
    [format] field. *)
Definition fieldless_engine : engine :=
  engine_with
    (ffprobe_streams good_engine)
    (fun path => if String.eqb path "convert_media/a.mp4"
                 then (0%Z, Decoded (Document "{}" (PDict [])))
                 else ffprobe_format good_engine path)
    (ffmpeg good_engine).

Definition two_clips : folder := {[ "a.mp4" := File "a"; "b.mp4" := File "b" ]}.

(** the binary64 number nearest to 3725.4 *)
Definition seconds_3725_4 : spec_float := S754_finite false 8192241236233421 (-41).

(** an output folder with the file of an earlier run and one of this run *)
Definition old_and_new : folder :=
  {[ "old_converted.mp4" := File "o"; "new_converted.mp4" := File "n" ]}.

(** a name with a space and a question mark *)
Definition spaced_name : folder := {[ "My Clip?.mov" := File "m" ]}.

(** ** What a run leaves alone *)

(** Both folders are the same in [w] and [w']. *)
Definition same_folders (w w' : world) : Prop :=
  convert_media w' = convert_media w /\ converted_media w' = converted_media w.

(** No run of [m] changes either folder. *)
Definition Keeps {A} (m : M A) : Prop :=
  forall w r w', m w = (r, w') -> same_folders w w'.

(** a number, as opposed to [nan] and the infinities *)
Definition is_finite (f : spec_float) : bool :=
  match f with
  | S754_zero _ | S754_finite _ _ _ => true
  | S754_infinity _ | S754_nan => false
  end.

(** An engine whose [ffmpeg -version] exits with status 1. *)
Definition no_ffmpeg_engine : engine :=
  {| ffmpeg_version :=
       {| returncode := 1; stdout_text := ""; stderr_text := "ffmpeg: not found
" |};
     ffprobe_streams := ffprobe_streams good_engine;
     ffprobe_format := ffprobe_format good_engine;
     sh := sh good_engine;
     ffmpeg := ffmpeg good_engine;
     os_listdir := listdir_sorted;
     now := now good_engine;
     uuid4 := uuid4 good_engine |}.

(** two sources with one stem *)
Definition same_stem : folder := {[ "a.avi" := File "1"; "a.mov" := File "2" ]}.

(** a sanitized name and its first two numbered names *)
Definition numbered_taken : folder :=
  {[ "a b.mov" := File "new"; "a_b.mov" := File "0"; "a_b_1.mov" := File "1";
     "a_b_2.mov" := File "2" ]}.

(** an output folder with nothing but a subdirectory *)
Definition only_subdir : folder := {[ "thumbs" := Dir true ]}.

(** a document whose duration was not determined *)
Definition no_duration_document : pyval :=
  PDict [("streams", PList []);
         ("format", PDict [("duration", PStr "N/A"); ("size", PStr "1048576");
                           ("bit_rate", PStr "128000")])].

(** The format probe of every file exits with 0 and reports [N/A] as
    the duration. *)
Definition no_duration_engine : engine :=
  engine_with (ffprobe_streams good_engine)
              (fun _ => (0%Z, Decoded (Document "{...}" no_duration_document)))
              (ffmpeg good_engine).

(** a video stream without codec name and aspect ratio *)
Definition bare_video_stream : pyval :=
  PDict [("codec_type", PStr "video"); ("width", PInt 640); ("height", PInt 480)].

(** The stream probe of [song.mp3] exits with 0 and prints nothing, as
    for a file without a video stream. *)
Definition audio_only_engine : engine :=
  engine_with
    (fun path => if String.eqb path "convert_media/song.mp3" then (0%Z, Decoded "")
                 else (0%Z, Decoded "video"))
    (ffprobe_format good_engine)
    (ffmpeg good_engine).

(** Nothing that [w] has in converted_media/ is missing or different in
    [w'], and every regular file of convert_media/ in [w'] has the
    content of a regular file of convert_media/ in [w]. *)
Definition careful (w w' : world) : Prop :=
  converted_media w ⊆ converted_media w' /\
  forall name content,
    convert_media w' !! name = Some (File content) ->
    exists name0, convert_media w !! name0 = Some (File content).

(** Every run of [m] is careful. *)
Definition Careful {A} (m : M A) : Prop :=
  forall w r w', m w = (r, w') -> careful w w'.

(** ** Exceptions that no child process raised *)

(** [e] is not the [CalledProcessError] of a child that failed. *)
Definition not_process_error (e : exn) : Prop :=
  match e with
  | CalledProcessError _ _ _ _ => False
  | _ => True
  end.

(** A value whose evaluation does not raise [CalledProcessError]. *)
Definition quiet {A} (o : outcome A) : Prop :=
  forall e, o = Raise e -> not_process_error e.

(** A computation that does not raise [CalledProcessError]. *)
Definition Quiet {A} (m : M A) : Prop :=
  forall w e w', m w = (Raise e, w') -> not_process_error e.

(** The four records with which the report of a file starts. *)
Definition report_header (heading file : string) (formatted : string * string * string)
  : list record :=
  [ {| levelname := INFO; message := [Lit heading; Lit file] |};
    {| levelname := INFO; message := [Lit "Size: "; Lit formatted.1.1] |};
    {| levelname := INFO; message := [Lit "Duration: "; Lit formatted.1.2] |};
    {| levelname := INFO; message := [Lit "Bitrate: "; Lit formatted.2] |} ].

(** The record of an inspector about a probe that failed. *)
Definition probe_error (where_ file : string) (e : exn) : record :=
  {| levelname := ERROR;
     message := [Lit "Error in `"; Lit where_; Lit "` function running ffprobe for file ";
                 Lit q; Lit file; Lit q; Lit ": "; StrOfExn e] |}.

(** ** Names that the shell takes literally *)

(** The name of every regular file of both folders is literal inside
    double quotes. *)
Definition tidy (w : world) : Prop :=
  forall name content,
    convert_media w !! name = Some (File content) \/
    converted_media w !! name = Some (File content) ->
    shell_literal name = true.

(** From a tidy state, every run of [m] is careful and ends in a tidy
    state. *)
Definition Steady {A} (m : M A) : Prop :=
  forall w r w', tidy w -> m w = (r, w') -> careful w w' /\ tidy w'.

(** ** More engines for examples *)


(** The format probe of [new_converted.mp4] exits with 0 and reports the
    duration [N/A]. *)
Definition stray_engine : engine :=
  engine_with
    (ffprobe_streams good_engine)
    (fun path => if String.eqb path "converted_media/new_converted.mp4"
                 then (0%Z, Decoded (Document "{...}" no_duration_document))
                 else ffprobe_format good_engine path)
    (ffmpeg good_engine).

(** A shell in which every command substitution removes converted_media/. *)
Definition rogue_shell_engine : engine :=
  {| ffmpeg_version := ffmpeg_version good_engine;
     ffprobe_streams := ffprobe_streams good_engine;
     ffprobe_format := ffprobe_format good_engine;
     sh := fun _ dirs => ((1%Z, Decoded (Unparsable "No such file or directory")),
                          (dirs.1, ∅));
     ffmpeg := ffmpeg good_engine;
     os_listdir := listdir_sorted;
     now := now good_engine;
     uuid4 := uuid4 good_engine |}.

(** a name with a command substitution and none of the eleven unsafe
    characters *)
Definition dollar_name : folder := {[ "$(rm${IFS}-r${IFS}converted_media).mp4" := File "x" ]}.

(** A computation that launches no command. *)
Definition Silent {A} (m : M A) : Prop :=
  forall w r w', m w = (r, w') -> trace w' = trace w.

(** * Properties *)

(** ** The primitives on examples *)

Example unsafe_chars_length : String.length unsafe_chars = 11.
Proof. reflexivity. Qed.

Example splitext_plain : splitext "clip.mov" = ("clip", ".mov").
Proof. reflexivity. Qed.

Example splitext_dotfile : splitext ".mov" = (".mov", "").
Proof. reflexivity. Qed.

Example splitext_two_dots : splitext "a.tar.gz" = ("a.tar", ".gz").
Proof. reflexivity. Qed.

Example splitext_hidden_ext : splitext "..a.b" = ("..a", ".b").
Proof. reflexivity. Qed.

Example splitext_none : splitext "README" = ("README", "").
Proof. reflexivity. Qed.

Example join_folder : os_path_join CONVERT_MEDIA_FOLDER "a.mov" = "convert_media/a.mov".
Proof. reflexivity. Qed.

Example strip_both : PyStr.strip "  a b  " = "a b".
Proof. reflexivity. Qed.

Example sanitized_spaces : sanitized "My Clip (1)?.mov" = "My_Clip_1.mov".
Proof. reflexivity. Qed.

Example format_02_pads : format_02 5 = "05" /\ format_02 123 = "123" /\ format_02 (-5) = "-5".
Proof. repeat split; vm_compute; reflexivity. Qed.

Example format_2f_rounds :
  format_2f (F64.div (F64.of_Z 1) (F64.of_Z 8)) = "0.12" /\
  format_2f (F64.div (F64.of_Z 2675) (F64.of_Z 1000)) = "2.67" /\
  format_2f (F64.of_Z 128) = "128.00".
Proof. repeat split; vm_compute; reflexivity. Qed.

Example float_of_str_forms :
  float_of_str " 1e3 " = Ok (F64.of_Z 1000) /\
  float_of_str "1_0.5" = Ok (F64.div (F64.of_Z 21) (F64.of_Z 2)) /\
  float_of_str "-Infinity" = Ok (S754_infinity true) /\
  float_of_str "N/A" = Raise ValueError /\
  float_of_str "1e" = Raise ValueError.
Proof. repeat split; vm_compute; reflexivity. Qed.

Example python_floor_division :
  F64.floordiv (F64.of_Z (-5)) (F64.of_Z 3) = Ok (F64.of_Z (-2)) /\
  F64.rem (F64.of_Z (-5)) (F64.of_Z 3) = Ok (F64.of_Z 1).
Proof. repeat split; vm_compute; reflexivity. Qed.


(** * Facts about strings *)

Section string_facts.

Lemma string_app_cons (x : ascii) (a b : string) :
  String x a ++ b = String x (a ++ b).
Proof. reflexivity. Qed.

Lemma string_app_nil_l (b : string) : EmptyString ++ b = b.
Proof. reflexivity. Qed.

Lemma string_app_nil_r (a : string) : a ++ EmptyString = a.
Proof. induction a as [|x a IH]; [done|]. by rewrite string_app_cons, IH. Qed.

Lemma string_app_assoc (a b c : string) : (a ++ b) ++ c = a ++ (b ++ c).
Proof.
  induction a as [|x a IH]; [done|]. by rewrite !string_app_cons, IH.
Qed.

Lemma string_length_app (a b : string) :
  String.length (a ++ b) = String.length a + String.length b.
Proof.
  induction a as [|x a IH]; [done|]. rewrite string_app_cons. simpl. by rewrite IH.
Qed.

Lemma string_app_inv_tail (a b e : string) : a ++ e = b ++ e -> a = b.
Proof.
  revert b; induction a as [|x a IH]; intros [|y b] H;
    rewrite ?string_app_cons, ?string_app_nil_l in H.
  - done.
  - apply (f_equal String.length) in H. simpl in H.
    rewrite string_length_app in H. lia.
  - apply (f_equal String.length) in H. simpl in H.
    rewrite string_length_app in H. lia.
  - injection H as -> H. f_equal. by apply IH.
Qed.

Lemma take_drop (n : nat) (s : string) : PyStr.take n s ++ PyStr.drop n s = s.
Proof.
  revert s; induction n as [|n IH]; intros [|c s]; simpl; try done.
  by rewrite string_app_cons, IH.
Qed.

Lemma all_app (p : ascii -> bool) (a b : string) :
  PyStr.all p (a ++ b) = (PyStr.all p a && PyStr.all p b)%bool.
Proof.
  induction a as [|x a IH]; [done|].
  rewrite string_app_cons. simpl. rewrite IH. by destruct (p x).
Qed.

Lemma any_app (p : ascii -> bool) (a b : string) :
  PyStr.any p (a ++ b) = (PyStr.any p a || PyStr.any p b)%bool.
Proof.
  induction a as [|x a IH]; [done|].
  rewrite string_app_cons. simpl. rewrite IH. by destruct (p x).
Qed.

Lemma all_weaken (p r : ascii -> bool) (s : string) :
  (forall c, p c = true -> r c = true) ->
  PyStr.all p s = true -> PyStr.all r s = true.
Proof.
  intros Hpr. induction s as [|c s IH]; simpl; [done|].
  intros [Hc Hs]%andb_true_iff. rewrite (Hpr _ Hc). simpl. auto.
Qed.

Lemma all_any_false (p r : ascii -> bool) (s : string) :
  (forall c, p c = true -> r c = false) ->
  PyStr.all p s = true -> PyStr.any r s = false.
Proof.
  intros Hpr. induction s as [|c s IH]; simpl; [done|].
  intros [Hc Hs]%andb_true_iff. rewrite (Hpr _ Hc). simpl. auto.
Qed.

Lemma splitext_app (p : string) : (splitext p).1 ++ (splitext p).2 = p.
Proof.
  unfold splitext.
  destruct (PyStr.rfind "/" p <? PyStr.rfind "." p)%Z; simpl.
  - destruct (PyStr.all _ _); simpl.
    + apply string_app_nil_r.
    + apply take_drop.
  - apply string_app_nil_r.
Qed.

Lemma splitext_all (f : ascii -> bool) (p : string) :
  PyStr.all f p = true ->
  PyStr.all f (splitext p).1 = true /\ PyStr.all f (splitext p).2 = true.
Proof.
  intros H. rewrite <- (splitext_app p), all_app in H.
  by apply andb_true_iff in H.
Qed.

End string_facts.

(** * Decimal numerals *)

Lemma pretty_N_char_digit (x : N) : PyStr.isdigit (pretty_N_char x) = true.
Proof. unfold pretty_N_char. repeat case_match; reflexivity. Qed.

Lemma pretty_N_go_digits (x : N) (s : string) :
  PyStr.all PyStr.isdigit s = true ->
  PyStr.all PyStr.isdigit (pretty_N_go x s) = true.
Proof.
  revert s. induction (N.lt_wf_0 x) as [x _ IH]; intros s Hs.
  destruct (decide (x = 0)%N) as [->|Hx].
  - by rewrite pretty_N_go_0.
  - rewrite pretty_N_go_step by lia. apply IH.
    + apply N.div_lt; lia.
    + simpl. by rewrite pretty_N_char_digit.
Qed.

Lemma pretty_nat_digits (n : nat) : PyStr.all PyStr.isdigit (pretty n) = true.
Proof.
  unfold pretty, pretty_nat, pretty, pretty_N.
  case_decide; [reflexivity|]. by apply pretty_N_go_digits.
Qed.

(** * The character classes *)

Lemma kept_then_safe (c : ascii) :
  kept_char c = true ->
  safe_char (if Ascii.eqb c " " then "_"%char else c) = true.
Proof.
  unfold kept_char, safe_char.
  destruct (Ascii.eqb_spec c " ") as [->|Hc]; [reflexivity|].
  destruct (PyStr.between "a" "z" c), (PyStr.between "A" "Z" c),
    (PyStr.between "0" "9" c), (Ascii.eqb c "_"), (Ascii.eqb c ".");
    simpl; intros; solve [reflexivity | discriminate].
Qed.

Lemma sanitized_safe (file : string) : PyStr.all safe_char (sanitized file) = true.
Proof.
  unfold sanitized, PyStr.replace.
  induction file as [|c file IH]; simpl; [done|].
  destruct (kept_char c) eqn:Hc; simpl; [|done].
  by rewrite (kept_then_safe _ Hc), IH.
Qed.

Lemma digit_safe (c : ascii) : PyStr.isdigit c = true -> safe_char c = true.
Proof.
  unfold PyStr.isdigit, safe_char. intros ->. by rewrite !orb_true_r.
Qed.

Lemma unsafe_not_safe (c : ascii) :
  PyStr.mem c unsafe_chars = true -> safe_char c = false.
Proof.
  unfold PyStr.mem, unsafe_chars. simpl.
  rewrite !orb_true_iff.
  intros H. repeat destruct H as [H|H]; try discriminate;
    apply Ascii.eqb_eq in H; subst c; reflexivity.
Qed.

Lemma safe_name_no_unsafe (s : string) :
  PyStr.all safe_char s = true -> has_unsafe_char s = false.
Proof.
  unfold has_unsafe_char. apply all_any_false. intros c Hc.
  destruct (PyStr.mem c unsafe_chars) eqn:Hm; [|done].
  apply unsafe_not_safe in Hm. congruence.
Qed.

Lemma safe_name_no_space (s : string) :
  PyStr.all safe_char s = true -> PyStr.mem " " s = false.
Proof.
  unfold PyStr.mem. apply all_any_false. intros c Hc.
  destruct (Ascii.eqb_spec " " c) as [<-|]; [discriminate | done].
Qed.

Lemma numbered_safe (p e : string) (k : nat) :
  PyStr.all safe_char p = true -> PyStr.all safe_char e = true ->
  PyStr.all safe_char (numbered p k e) = true.
Proof.
  intros Hp He. unfold numbered. rewrite !all_app, Hp, He. simpl.
  rewrite (all_weaken _ _ _ digit_safe (pretty_nat_digits k)). reflexivity.
Qed.

(** * Names that denote the directory *)

Lemma underscore_not_directory (s : string) :
  PyStr.mem "_" s = true -> names_directory s = false.
Proof.
  intros H. unfold names_directory. apply bool_decide_eq_false.
  rewrite !elem_of_cons, elem_of_nil.
  intros [->|[->|[->|[]]]]; discriminate.
Qed.

Lemma numbered_not_directory (p e : string) (k : nat) :
  names_directory (numbered p k e) = false.
Proof.
  apply underscore_not_directory. unfold numbered, PyStr.mem.
  rewrite !any_app. simpl. by rewrite orb_true_r.
Qed.

Lemma output_candidate_not_directory (p : string) (k : nat) :
  names_directory (output_candidate p k) = false.
Proof.
  apply underscore_not_directory.
  destruct k; unfold output_candidate, converted_numbered, PyStr.mem;
    rewrite !any_app; simpl; by rewrite orb_true_r.
Qed.

Lemma path_exists_lookup (d : folder) (name : string) :
  names_directory name = false ->
  path_exists d name = true <-> is_Some (d !! name).
Proof.
  intros H. unfold path_exists. rewrite H. simpl. apply bool_decide_eq_true.
Qed.

(** * Candidate names are pairwise distinct *)

Global Instance numbered_inj (p e : string) : Inj (=) (=) (fun k => numbered p k e).
Proof.
  intros j k H. unfold numbered in H.
  apply String.app_inj in H. apply String.app_inj in H.
  apply string_app_inv_tail in H. by apply pretty_nat_inj in H.
Qed.

Global Instance output_candidate_inj (p : string) : Inj (=) (=) (output_candidate p).
Proof.
  assert (Hne : forall k, p ++ "_converted.mp4" <> converted_numbered p (S k)).
  { intros k H. unfold converted_numbered in H. apply String.app_inj in H.
    discriminate H. }
  intros [|j] [|k] H; unfold output_candidate in H.
  - done.
  - by apply Hne in H.
  - symmetry in H. by apply Hne in H.
  - unfold converted_numbered in H.
    apply String.app_inj in H. apply String.app_inj in H.
    apply string_app_inv_tail in H. by apply pretty_nat_inj in H.
Qed.

(** * A finite directory cannot hold every candidate *)

Lemma candidates_fit (d : folder) (f : nat -> string) (c fuel : nat) :
  Inj (=) (=) f ->
  (forall k, c <= k < c + fuel -> is_Some (d !! f k)) ->
  fuel <= size d.
Proof.
  intros Hinj Hall.
  set (l := f <$> seq c fuel).
  assert (Hnd : NoDup l) by (apply NoDup_fmap_2; [done | apply NoDup_seq]).
  assert (Hsub : (list_to_set l : gset string) ⊆ dom d).
  { intros x Hx. apply elem_of_list_to_set in Hx.
    apply list_elem_of_fmap in Hx as (k & -> & Hk).
    apply elem_of_seq in Hk. apply elem_of_dom. apply Hall. lia. }
  apply subseteq_size in Hsub.
  rewrite size_list_to_set in Hsub by done.
  rewrite size_dom in Hsub.
  unfold l in Hsub. by rewrite length_fmap, length_seq in Hsub.
Qed.

(** * The loop of the sanitizer *)

Lemma counter_loop_None (fuel : nat) (d : folder) (p e n : string) (c : nat) :
  counter_loop fuel d p e n c = None ->
  forall k, c <= k < c + fuel -> path_exists d (numbered p k e) = true.
Proof.
  revert n c. induction fuel as [|fuel IH]; intros n c H k Hk; [lia|].
  simpl in H. destruct (path_exists d (numbered p c e)) eqn:Hc; [|done].
  destruct (decide (k = c)) as [->|Hne]; [done|].
  apply (IH _ _ H). lia.
Qed.

Lemma counter_loop_total (fuel : nat) (d : folder) (p e n : string) (c : nat) :
  size d < fuel -> is_Some (counter_loop fuel d p e n c).
Proof.
  intros Hfuel.
  destruct (counter_loop fuel d p e n c) eqn:H; [by eexists|].
  assert (fuel <= size d); [|lia].
  apply (candidates_fit d (fun k => numbered p k e) c); [apply _|].
  intros k Hk. apply path_exists_lookup; [apply numbered_not_directory|].
  by apply (counter_loop_None _ _ _ _ _ _ H).
Qed.

(** What the loop returns: the name it was given if the first numbered
    name is free, and otherwise the last numbered name that exists. *)
Lemma counter_loop_Some (fuel : nat) (d : folder) (p e n : string) (c : nat) (r : string) :
  counter_loop fuel d p e n c = Some r ->
  (r = n /\ path_exists d (numbered p c e) = false) \/
  (exists k, c <= k /\ r = numbered p k e /\
             path_exists d (numbered p k e) = true /\
             path_exists d (numbered p (S k) e) = false).
Proof.
  revert n c. induction fuel as [|fuel IH]; intros n c H; [done|].
  simpl in H. destruct (path_exists d (numbered p c e)) eqn:Hc.
  - right. apply IH in H as [[-> H]|(k & Hk & -> & H1 & H2)].
    + exists c. done.
    + exists k. split; [lia | done].
  - left. by injection H as ->.
Qed.

Lemma new_file_name_total (d : folder) (file : string) (fuel : nat) :
  size d < fuel -> is_Some (new_file_name fuel d file).
Proof.
  intros H. unfold new_file_name. destruct (splitext (sanitized file)).
  by apply counter_loop_total.
Qed.

Lemma new_file_name_shape (fuel : nat) (d : folder) (file name : string) :
  new_file_name fuel d file = Some name ->
  let s := sanitized file in
  (name = s /\ path_exists d (numbered (splitext s).1 1 (splitext s).2) = false) \/
  (exists k, 1 <= k /\ name = numbered (splitext s).1 k (splitext s).2 /\
             path_exists d name = true).
Proof.
  unfold new_file_name. destruct (splitext (sanitized file)) as [p e] eqn:Hs.
  intros H. apply counter_loop_Some in H as [[-> H]|(k & Hk & -> & H1 & H2)]; simpl.
  - by left.
  - right. by exists k.
Qed.

Lemma new_file_name_safe (fuel : nat) (d : folder) (file name : string) :
  new_file_name fuel d file = Some name -> PyStr.all safe_char name = true.
Proof.
  intros H. apply new_file_name_shape in H. simpl in H.
  pose proof (sanitized_safe file) as Hs.
  destruct (splitext_all _ _ Hs) as [Hp He].
  destruct H as [[-> _]|(k & _ & -> & _)]; [done|].
  by apply numbered_safe.
Qed.

(** Where [prepare_file] renames: a name with an unsafe character always
    differs from the new name, so the test before [os.rename] passes. *)
Lemma prepare_file_unsafe (file : string) (w : world) :
  has_unsafe_char file = true ->
  exists name,
    new_file_name (S (size (convert_media w))) (convert_media w) file = Some name /\
    name <> file /\
    prepare_file file w =
      (rename_in_convert_media file name >>
       logging_info [Lit "Renamed file: "; Lit q; Lit file; Lit q; Lit " to ";
                     Lit q; Lit name; Lit q]) w.
Proof.
  intros Hu.
  destruct (new_file_name_total (convert_media w) file (S (size (convert_media w))))
    as [name Hname]; [lia|].
  exists name. split; [done|].
  assert (Hne : name <> file).
  { intros ->. apply new_file_name_safe, safe_name_no_unsafe in Hname. congruence. }
  split; [done|].
  unfold prepare_file. rewrite Hu. unfold bind at 1, get. rewrite Hname.
  rewrite bool_decide_eq_true_2; [done | congruence].
Qed.

Lemma prepare_file_safe (file : string) (w : world) :
  has_unsafe_char file = false -> prepare_file file w = (Ok tt, w).
Proof. intros H. unfold prepare_file. by rewrite H. Qed.

(** * The loop of the path allocator *)

Lemma output_loop_None (fuel : nat) (d : folder) (p : string) (c : nat) :
  output_loop fuel d p (output_candidate p c) (S c) = None ->
  forall k, c <= k < c + fuel -> path_exists d (output_candidate p k) = true.
Proof.
  revert c. induction fuel as [|fuel IH]; intros c H k Hk; [lia|].
  simpl in H. destruct (path_exists d (output_candidate p c)) eqn:Hc; [|done].
  destruct (decide (k = c)) as [->|Hne]; [done|].
  apply (IH (S c)); [done | lia].
Qed.

Lemma output_loop_Some (fuel : nat) (d : folder) (p : string) (c : nat) (r : string) :
  output_loop fuel d p (output_candidate p c) (S c) = Some r ->
  exists k, c <= k /\ r = output_candidate p k /\ path_exists d r = false /\
            forall j, c <= j < k -> path_exists d (output_candidate p j) = true.
Proof.
  revert c. induction fuel as [|fuel IH]; intros c H; [done|].
  simpl in H. destruct (path_exists d (output_candidate p c)) eqn:Hc.
  - apply (IH (S c)) in H as (k & Hk & -> & Hfree & Hbusy).
    exists k. split; [lia|]. split; [done|]. split; [done|].
    intros j Hj. destruct (decide (j = c)) as [->|]; [done|]. apply Hbusy. lia.
  - injection H as <-. exists c. split; [lia|]. split; [done|]. split; [done|].
    intros j Hj. lia.
Qed.

Lemma get_output_file_name_total (d : folder) (file : string) (fuel : nat) :
  size d < fuel -> is_Some (get_output_file_name fuel d file).
Proof.
  intros Hfuel. unfold get_output_file_name. destruct (splitext file) as [p e].
  change (p ++ "_converted.mp4") with (output_candidate p 0).
  destruct (output_loop fuel d p (output_candidate p 0) 1) eqn:H; [by eexists|].
  assert (fuel <= size d); [|lia].
  apply (candidates_fit d (output_candidate p) 0); [apply _|].
  intros k Hk. apply path_exists_lookup; [apply output_candidate_not_directory|].
  by apply (output_loop_None _ _ _ _ H).
Qed.

Lemma get_output_file_name_spec (d : folder) (file name : string) (fuel : nat) :
  get_output_file_name fuel d file = Some name ->
  exists k, name = output_candidate (splitext file).1 k /\ path_exists d name = false /\
            forall j, j < k -> path_exists d (output_candidate (splitext file).1 j) = true.
Proof.
  unfold get_output_file_name. destruct (splitext file) as [p e]. simpl.
  change (p ++ "_converted.mp4") with (output_candidate p 0).
  intros H. apply output_loop_Some in H as (k & _ & -> & Hfree & Hbusy).
  exists k. split; [done|]. split; [done|]. intros j Hj. apply Hbusy. lia.
Qed.

(** * The monad *)

Lemma for_each_app {A} (l1 l2 : list A) (body : A -> M unit) (w w1 : world) :
  for_each l1 body w = (Ok tt, w1) ->
  for_each (l1 ++ l2)%list body w = for_each l2 body w1.
Proof.
  revert w. induction l1 as [|x l1 IH]; intros w H; simpl in *.
  - by injection H as ->.
  - unfold bind in *. destruct (body x w) as [[[]| | |] w'] eqn:Hx; try done.
    by apply IH.
Qed.

Lemma for_each_raise {A} (x : A) (l : list A) (body : A -> M unit) (w w' : world) (e : exn) :
  body x w = (Raise e, w') -> for_each (x :: l) body w = (Raise e, w').
Proof. intros H. simpl. unfold bind. by rewrite H. Qed.

(** * Renaming *)

Lemma new_file_name_free (n : nat) (d : folder) (file : string) :
  let s := sanitized file in
  path_exists d (numbered (splitext s).1 1 (splitext s).2) = false ->
  new_file_name (S n) d file = Some s.
Proof.
  unfold new_file_name. destruct (splitext (sanitized file)) as [p e]. simpl.
  by intros ->.
Qed.

(** The rename that [prepare_file] performs when the first numbered name
    is free: the file takes the sanitized name, whatever that name is and
    whether or not a regular file already has it. *)
Lemma prepare_file_renames (file content : string) (w : world) :
  has_unsafe_char file = true ->
  convert_media w !! file = Some (File content) ->
  let s := sanitized file in
  names_directory s = false ->
  (forall e, convert_media w !! s <> Some (Dir e)) ->
  path_exists (convert_media w) (numbered (splitext s).1 1 (splitext s).2) = false ->
  prepare_file file w =
    logging_info [Lit "Renamed file: "; Lit q; Lit file; Lit q; Lit " to ";
                  Lit q; Lit s; Lit q]
      (set_convert_media (<[s := File content]> (delete file (convert_media w))) w).
Proof.
  intros Hu Hfile s Hdir Hnodir Hfree.
  destruct (prepare_file_unsafe file w Hu) as (name & Hname & Hne & ->).
  rewrite new_file_name_free in Hname by done. injection Hname as <-. fold s.
  unfold bind, rename_in_convert_media, os_rename. rewrite Hfile, Hdir.
  destruct (convert_media w !! s) as [[c|e]|] eqn:Hs; try done.
  by destruct (Hnodir e).
Qed.

(** A failed rename leaves [prepare_file] as an [OSError]; the state is
    as it was and nothing is logged. *)
Lemma prepare_file_rename_fails (file name : string) (w : world) :
  has_unsafe_char file = true ->
  new_file_name (S (size (convert_media w))) (convert_media w) file = Some name ->
  os_rename (convert_media w) file name = None ->
  prepare_file file w = (Raise OSError, w).
Proof.
  intros Hu Hname Hfail.
  destruct (prepare_file_unsafe file w Hu) as (name' & Hname' & _ & ->).
  assert (name' = name) as -> by congruence.
  unfold bind, rename_in_convert_media. by rewrite Hfail.
Qed.

(** A rename only happens towards a different name. *)
Lemma prepare_file_changes (file : string) (w w' : world) :
  prepare_file file w = (Ok tt, w') ->
  convert_media w' <> convert_media w ->
  exists name, name <> file /\
    new_file_name (S (size (convert_media w))) (convert_media w) file = Some name /\
    os_rename (convert_media w) file name = Some (convert_media w').
Proof.
  intros H Hchg.
  destruct (has_unsafe_char file) eqn:Hu.
  - destruct (prepare_file_unsafe file w Hu) as (name & Hname & Hne & Heq).
    exists name. split; [done|]. split; [done|].
    rewrite Heq in H. unfold bind, rename_in_convert_media in H.
    destruct (os_rename (convert_media w) file name) as [d'|]; [|done].
    unfold logging_info in H. simpl in H.
    destruct (handlers_ready w); injection H as <-; done.
  - rewrite prepare_file_safe in H by done. injection H as <-. done.
Qed.


(** * The path allocator *)

(** C5. For a source name with stem [stem], [get_output_file_path] returns
    the path of [stem_converted.mp4] in converted_media/ if that entry does
    not exist, and otherwise the path of [stem_converted_n.mp4] for the
    least [n >= 1] whose entry does not exist; the name always ends in
    [.mp4]; for [clip.mov] with [clip_converted.mp4] present and
    [clip_converted_1.mp4] absent it returns [clip_converted_1.mp4]. *)
Theorem C5_get_output_file_path (d : folder) (file : string) (fuel : nat) :
  size d < fuel ->
  let stem := (splitext file).1 in
  exists name,
    get_output_file_path fuel d file = Some (os_path_join CONVERTED_MEDIA_FOLDER name) /\
    path_exists d name = false /\
    (path_exists d (stem ++ "_converted.mp4") = false ->
     name = stem ++ "_converted.mp4") /\
    (path_exists d (stem ++ "_converted.mp4") = true ->
     exists n, 1 <= n /\ name = stem ++ "_converted_" ++ pretty n ++ ".mp4" /\
       forall k, 1 <= k < n ->
         path_exists d (stem ++ "_converted_" ++ pretty k ++ ".mp4") = true) /\
    (exists base, name = base ++ ".mp4") /\
    (file = "clip.mov" ->
     path_exists d "clip_converted.mp4" = true ->
     path_exists d "clip_converted_1.mp4" = false ->
     get_output_file_path fuel d file = Some "converted_media/clip_converted_1.mp4").
Proof.
  intros Hfuel stem.
  destruct (get_output_file_name_total d file fuel Hfuel) as [name Hname].
  destruct (get_output_file_name_spec _ _ _ _ Hname) as (k & Hk & Hfree & Hbusy).
  fold stem in Hk, Hbusy.
  assert (Hpath : get_output_file_path fuel d file
                  = Some (os_path_join CONVERTED_MEDIA_FOLDER name)).
  { unfold get_output_file_path. by rewrite Hname. }
  exists name. split; [done|]. split; [done|].
  assert (Hshape : (path_exists d (stem ++ "_converted.mp4") = true ->
     exists n, 1 <= n /\ name = stem ++ "_converted_" ++ pretty n ++ ".mp4" /\
       forall j, 1 <= j < n ->
         path_exists d (stem ++ "_converted_" ++ pretty j ++ ".mp4") = true)).
  { intros Hbase. destruct k as [|k].
    - subst name. simpl in Hfree. congruence.
    - exists (S k). split; [lia|]. split; [done|].
      intros j Hj. specialize (Hbusy j ltac:(lia)).
      destruct j as [|j]; [lia | done]. }
  split; [|split; [done|split]].
  - intros Hbase. destruct k as [|k]; [done|].
    specialize (Hbusy 0 ltac:(lia)). simpl in Hbusy. congruence.
  - destruct k as [|k]; subst name; simpl; unfold converted_numbered.
    + exists (stem ++ "_converted"). by rewrite string_app_assoc.
    + exists (stem ++ "_converted_" ++ pretty (S k)).
      by rewrite !string_app_assoc.
  - intros -> Hbase Hone. rewrite Hpath. f_equal.
    destruct (Hshape Hbase) as (n & Hn & -> & Hbelow).
    destruct (decide (n = 1)) as [->|Hne]; [reflexivity|].
    specialize (Hbelow 1 ltac:(lia)).
    change (path_exists d "clip_converted_1.mp4" = true) in Hbelow. congruence.
Qed.

(** C5, at the directory left by an earlier run. *)
Lemma C5_witness :
  size taken_output < 2 /\
  get_output_file_path 2 taken_output "clip.mov"
    = Some "converted_media/clip_converted_1.mp4".
Proof.
  split; [vm_compute; lia|].
  destruct (C5_get_output_file_path taken_output "clip.mov" 2) as (name & _ & _ & _ & _ & _ & H).
  - vm_compute; lia.
  - apply H; reflexivity.
Defined.

(** * The sanitizer *)

(** C1 (the code departs from it). A name that sanitizes to the name of an
    existing file, on disk or made earlier in the same pass, takes that
    name: [os.rename] replaces the other file and one file is left. *)
Theorem C1_clash_overwrites :
  (prepare_files good_engine (logging_world clash_on_disk ∅)).1 = Ok tt /\
  convert_media (prepare_files good_engine (logging_world clash_on_disk ∅)).2
    = {[ "a_b.mov" := File "first" ]} /\
  (prepare_files good_engine (logging_world clash_in_pass ∅)).1 = Ok tt /\
  convert_media (prepare_files good_engine (logging_world clash_in_pass ∅)).2
    = {[ "a_b.mov" := File "second" ]}.
Proof. repeat split; vm_compute; reflexivity. Qed.

(** C2 (as amended). For a name with at least one of the eleven unsafe
    characters, the new name is the name stripped of every character
    outside [[a-zA-Z0-9_ .]] with its spaces replaced by underscores, or
    that name with a number before its extension; it has only characters
    of [[A-Za-z0-9_.]] and no space, and the file is renamed to it.  A
    name with none of the eleven characters is left as it is, whatever
    other characters it has: its step of the loop does nothing, and a loop
    over such names changes nothing. *)
Theorem C2_unsafe_name_is_sanitized (file : string) (w : world) :
  (has_unsafe_char file = true ->
   exists name,
     new_file_name (S (size (convert_media w))) (convert_media w) file = Some name /\
     (name = PyStr.replace " " "_" (PyStr.filter kept_char file) \/
      exists n, 1 <= n /\
        name = numbered (splitext (sanitized file)).1 n (splitext (sanitized file)).2) /\
     PyStr.all safe_char name = true /\
     PyStr.mem " " name = false /\
     prepare_file file w =
       (rename_in_convert_media file name >>
        logging_info [Lit "Renamed file: "; Lit q; Lit file; Lit q; Lit " to ";
                      Lit q; Lit name; Lit q]) w) /\
  (has_unsafe_char file = false -> prepare_file file w = (Ok tt, w)) /\
  (forall files : list string,
     (forall f, f ∈ files -> has_unsafe_char f = false) ->
     for_each files prepare_file w = (Ok tt, w)).
Proof.
  split; [|split; [apply prepare_file_safe|]].
  2: { intros files. induction files as [|f files IH]; intros Hsafe; [done|].
       simpl. unfold bind. rewrite prepare_file_safe by (apply Hsafe; by left).
       apply IH. intros g Hg. apply Hsafe. by right. }
  intros Hu.
  destruct (prepare_file_unsafe file w Hu) as (name & Hname & Hne & Heq).
  exists name. split; [done|].
  pose proof (new_file_name_safe _ _ _ _ Hname) as Hsafe.
  split; [|split; [done|split; [by apply safe_name_no_space | done]]].
  apply new_file_name_shape in Hname. simpl in Hname.
  destruct Hname as [[-> _]|(k & Hk & -> & _)]; [by left|].
  right. by exists k.
Qed.

(** C2, at [My Clip?.mov], which is renamed, and at [a#b.mov], which is
    not. *)
Lemma C2_witness :
  has_unsafe_char "My Clip?.mov" = true /\
  new_file_name 2 spaced_name "My Clip?.mov" = Some "My_Clip.mov" /\
  convert_media (prepare_file "My Clip?.mov" (logging_world spaced_name ∅)).2
    = {[ "My_Clip.mov" := File "m" ]} /\
  has_unsafe_char "a#b.mov" = false /\
  prepare_file "a#b.mov" (logging_world hash_name ∅) = (Ok tt, logging_world hash_name ∅).
Proof.
  split; [reflexivity|].
  destruct (C2_unsafe_name_is_sanitized "My Clip?.mov" (logging_world spaced_name ∅))
    as [Hrenamed _].
  destruct Hrenamed as (name & H1 & _ & _ & _ & H2); [reflexivity|].
  vm_compute in H1. injection H1 as <-.
  split; [reflexivity|]. split; [rewrite H2; vm_compute; reflexivity|].
  split; [reflexivity|].
  apply (proj1 (proj2 (C2_unsafe_name_is_sanitized "a#b.mov" (logging_world hash_name ∅)))).
  reflexivity.
Defined.

(** C2 fails as stated: [a#b.mov] has a character outside
    [[A-Za-z0-9_. ]], and the sanitizer leaves the name as it is. *)
Lemma C2_counterexample :
  PyStr.all kept_char "a#b.mov" = false /\
  prepare_files good_engine (logging_world hash_name ∅)
    = (logging_info [Lit "Checking filenames for non-standard characters:"] >>
       logging_info [Lit "Filenames prepared for processing."])
        (logging_world hash_name ∅) /\
  convert_media (prepare_files good_engine (logging_world hash_name ∅)).2
    = {[ "a#b.mov" := File "x" ]} /\
  PyStr.all safe_char "a#b.mov" = false.
Proof. repeat split; vm_compute; reflexivity. Qed.

(** C7 (as amended). When [os.rename] fails for an entry, [prepare_files]
    ends with the [OSError] in the state reached before that entry:
    nothing is logged about it and no later entry is looked at.  And an
    entry is only ever renamed to a name that differs from its own. *)
Theorem C7_rename_failure_aborts (E : engine) (w w1 : world)
    (before rest : list string) (file name : string) :
  List.filter (path_isfile (convert_media w)) (os_listdir E (convert_media w))
    = (before ++ file :: rest)%list ->
  (logging_info [Lit "Checking filenames for non-standard characters:"] >>
   for_each before prepare_file) w = (Ok tt, w1) ->
  has_unsafe_char file = true ->
  new_file_name (S (size (convert_media w1))) (convert_media w1) file = Some name ->
  os_rename (convert_media w1) file name = None ->
  prepare_files E w = (Raise OSError, w1) /\
  (forall f v v', prepare_file f v = (Ok tt, v') ->
     convert_media v' <> convert_media v ->
     exists n, n <> f /\ os_rename (convert_media v) f n = Some (convert_media v')).
Proof.
  intros Hfiles Hbefore Hu Hname Hfail. split.
  - unfold prepare_files.
    unfold bind at 1. unfold bind at 1 in Hbefore.
    destruct (logging_info _ w) as [[[]| | |] w0] eqn:Hlog; try done.
    assert (Hcm : convert_media w0 = convert_media w).
    { unfold logging_info in Hlog. destruct (handlers_ready w);
        injection Hlog as <-; done. }
    unfold bind at 1, get. rewrite Hcm, Hfiles.
    unfold bind at 1.
    rewrite (for_each_app _ _ _ _ _ Hbefore).
    rewrite (for_each_raise _ _ _ _ w1 OSError); [done|].
    by apply (prepare_file_rename_fails file name).
  - intros f v v' Hf Hchg.
    destruct (prepare_file_changes f v v' Hf Hchg) as (n & Hn & _ & Hren).
    by exists n.
Qed.

(** C7, at a name that sanitizes to the name of a directory. *)
Lemma C7_witness :
  prepare_files good_engine (logging_world blocked ∅)
    = (Raise OSError,
       add_log {| levelname := INFO;
                  message := [Lit "Checking filenames for non-standard characters:"] |}
               (logging_world blocked ∅)).
Proof.
  refine (proj1 (C7_rename_failure_aborts good_engine (logging_world blocked ∅) _
                   [] ["c d"] "a b" "a_b" _ _ _ _ _)); vm_compute; reflexivity.
Defined.

(** C7 fails as stated: the rename of [a b] onto the directory [a_b]
    fails, the failure is not logged, [c d] is not renamed and the error
    ends the script. *)
Lemma C7_counterexample :
  (prepare_files good_engine (logging_world blocked ∅)).1 = Raise OSError /\
  List.map message (log (prepare_files good_engine (logging_world blocked ∅)).2)
    = [[Lit "Checking filenames for non-standard characters:"]] /\
  convert_media (prepare_files good_engine (logging_world blocked ∅)).2 = blocked /\
  (main good_engine (initial_world blocked ∅)).1 = Raise OSError /\
  convert_media (main good_engine (initial_world blocked ∅)).2 !! "c_d" = None.
Proof. repeat split; vm_compute; reflexivity. Qed.

(** C8 (as amended). A file whose name has an unsafe character and
    sanitizes to a name that starts with its dot is not rejected: unless
    its first numbered name exists or the dot name is a directory, it is
    renamed to the dot name.  A file whose name has none of the unsafe
    characters is left as it is. *)
Theorem C8_dot_name_is_taken (file content : string) (w : world) :
  has_unsafe_char file = true ->
  convert_media w !! file = Some (File content) ->
  PyStr.startswith "." (sanitized file) = true ->
  names_directory (sanitized file) = false ->
  (forall e, convert_media w !! sanitized file <> Some (Dir e)) ->
  path_exists (convert_media w)
    (numbered (splitext (sanitized file)).1 1 (splitext (sanitized file)).2) = false ->
  prepare_file file w =
    logging_info [Lit "Renamed file: "; Lit q; Lit file; Lit q; Lit " to ";
                  Lit q; Lit (sanitized file); Lit q]
      (set_convert_media
         (<[sanitized file := File content]> (delete file (convert_media w))) w) /\
  (forall other v, has_unsafe_char other = false -> prepare_file other v = (Ok tt, v)).
Proof.
  intros Hu Hfile _ Hdir Hnodir Hfree. split.
  - by apply prepare_file_renames.
  - intros other v. apply prepare_file_safe.
Qed.

(** C8, at [???.mov]. *)
Lemma C8_witness :
  convert_media (prepare_file "???.mov" (logging_world dot_name ∅)).2
    = {[ ".mov" := File "v" ]}.
Proof.
  rewrite (proj1 (C8_dot_name_is_taken "???.mov" "v" (logging_world dot_name ∅)
                    eq_refl eq_refl eq_refl eq_refl
                    ltac:(intros e; vm_compute; discriminate) eq_refl)).
  vm_compute. reflexivity.
Defined.

(** C8 fails as stated: [???.mov] is not rejected, it becomes [.mov]. *)
Lemma C8_counterexample :
  (prepare_files good_engine (logging_world dot_name ∅)).1 = Ok tt /\
  convert_media (prepare_files good_engine (logging_world dot_name ∅)).2
    = {[ ".mov" := File "v" ]} /\
  splitext ".mov" = (".mov", "").
Proof. repeat split; vm_compute; reflexivity. Qed.

(** * The duration of the inspector *)

(** C3 (the code departs from it). The hours and the minutes are padded
    to two digits, the seconds are not: 3725.4 seconds, which [float]
    reads as [seconds_3725_4], are formatted as [01:02:5.40].  From ten
    seconds on the field has its two digits. *)
Theorem C3_seconds_not_padded :
  float_of_str "3725.4" = Ok seconds_3725_4 /\
  F64.floordiv seconds_3725_4 (F64.of_Z 3600) = Ok (F64.of_Z 1) /\
  format_duration seconds_3725_4 = Ok "01:02:5.40" /\
  format_duration (F64.div (F64.of_Z 119) (F64.of_Z 2)) = Ok "00:00:59.50".
Proof. repeat split; vm_compute; reflexivity. Qed.

(** * The script after validation *)

(** C9 (the code departs from it). With an empty validated set the script
    goes straight to its last record: no inspector and no transcode runs,
    and the notice of [inspect_files] for an empty set, which only
    [inspect_files] writes, is not written.  On an empty input folder the
    whole log has five records, none of them the notice. *)
Theorem C9_empty_set_no_notice :
  (forall (E : engine) (batch_id : string) (w : world),
     after_validation E batch_id [] w =
       logging_info [Lit "Processing complete for batch ID "; Lit batch_id;
                     Lit "."; Lit newline] w) /\
  (forall (E : engine) (w : world),
     inspect_files E [] w =
       logging_info [Lit "No valid video files found in the convert_media folder."] w) /\
  (main good_engine (initial_world ∅ ∅)).1 = Ok tt /\
  List.map message (log (main good_engine (initial_world ∅ ∅)).2) =
    [ [Lit "Logging initiated."];
      [Lit "Begin processing conversion batch ID: "; Lit "20240101_120000_0f8fad5b"];
      [Lit "Checking filenames for non-standard characters:"];
      [Lit "Filenames prepared for processing."];
      [Lit "Processing complete for batch ID "; Lit "20240101_120000_0f8fad5b";
       Lit "."; Lit newline] ] /\
  trace (main good_engine (initial_world ∅ ∅)).2 = [Argv ["ffmpeg"; "-version"]].
Proof.
  split; [|split].
  - intros E batch_id w. unfold after_validation, bind, ret. reflexivity.
  - reflexivity.
  - repeat split; vm_compute; reflexivity.
Qed.

(** * Runs only add to the log and to the trace *)

Section growth.

Lemma grows_refl (w : world) : grows w w.
Proof.
  split; [done|]. split; [exists [] | exists []]; by rewrite app_nil_r.
Qed.

Lemma grows_trans (w1 w2 w3 : world) : grows w1 w2 -> grows w2 w3 -> grows w1 w3.
Proof.
  intros (Hr1 & [l1 Hl1] & [t1 Ht1]) (Hr2 & [l2 Hl2] & [t2 Ht2]).
  split; [congruence|]. split.
  - exists (l1 ++ l2)%list. by rewrite Hl2, Hl1, app_assoc.
  - exists (t1 ++ t2)%list. by rewrite Ht2, Ht1, app_assoc.
Qed.

Lemma grows_log (w w' : world) (r : record) :
  grows w w' -> r ∈ log w -> r ∈ log w'.
Proof. intros (_ & [l ->] & _) H. apply elem_of_app. by left. Qed.


Lemma grows_add_log (w : world) (r : record) : grows w (add_log r w).
Proof. split; [done|]. split; [by exists [r] | exists []; simpl; by rewrite app_nil_r]. Qed.

Lemma grows_add_trace (w : world) (c : command) : grows w (add_trace c w).
Proof. split; [done|]. split; [exists []; simpl; by rewrite app_nil_r | by exists [c]]. Qed.

Lemma Grows_ret {A} (a : A) : Grows (ret a).
Proof. intros w r w' [= <- <-]. apply grows_refl. Qed.

Lemma Grows_lift {A} (o : outcome A) : Grows (lift o).
Proof. intros w r w' [= <- <-]. apply grows_refl. Qed.

Lemma Grows_get : Grows get.
Proof. intros w r w' [= <- <-]. apply grows_refl. Qed.

Lemma Grows_out_of_fuel {A} : Grows (@out_of_fuel A).
Proof. intros w r w' [= <- <-]. apply grows_refl. Qed.

Lemma Grows_logging_info (m : list piece) : Grows (logging_info m).
Proof.
  intros w r w'. unfold logging_info.
  destruct (handlers_ready w); intros [= <- <-];
    [apply grows_add_log | apply grows_refl].
Qed.

Lemma Grows_logging_error (m : list piece) : Grows (logging_error m).
Proof.
  intros w r w'. unfold logging_error.
  destruct (handlers_ready w); intros [= <- <-]; [apply grows_add_log|].
  split; [done|]. split; exists []; simpl; by rewrite app_nil_r.
Qed.

Lemma Grows_bind {A B} (m : M A) (k : A -> M B) :
  Grows m -> (forall a, Grows (k a)) -> Grows (bind m k).
Proof.
  intros Hm Hk w r w'. unfold bind.
  destruct (m w) as [[a|e|c|] w1] eqn:H1.
  - intros H2. eapply grows_trans; [by eapply Hm | by eapply Hk].
  - intros [= <- <-]. by eapply Hm.
  - intros [= <- <-]. by eapply Hm.
  - intros [= <- <-]. by eapply Hm.
Qed.

Lemma Grows_try_except {A} (m : M A) (handler : exn -> option (M A)) :
  Grows m -> (forall e h, handler e = Some h -> Grows h) ->
  Grows (try_except m handler).
Proof.
  intros Hm Hh w r w'. unfold try_except.
  destruct (m w) as [[a|e|c|] w1] eqn:H1.
  - intros [= <- <-]. by eapply Hm.
  - destruct (handler e) as [h|] eqn:He.
    + intros H2. eapply grows_trans; [by eapply Hm | by eapply Hh].
    + intros [= <- <-]. by eapply Hm.
  - intros [= <- <-]. by eapply Hm.
  - intros [= <- <-]. by eapply Hm.
Qed.

Lemma Grows_for_each {A} (l : list A) (body : A -> M unit) :
  (forall x, Grows (body x)) -> Grows (for_each l body).
Proof.
  intros Hb. induction l as [|x l IH]; simpl.
  - apply Grows_ret.
  - apply Grows_bind; [apply Hb | intros _; apply IH].
Qed.

Lemma Grows_if {A} (b : bool) (m1 m2 : M A) :
  Grows m1 -> Grows m2 -> Grows (if b then m1 else m2).
Proof. by destruct b. Qed.

End growth.

Ltac grows_step :=
  first
    [ apply Grows_ret | apply Grows_lift | apply Grows_get
    | apply Grows_logging_info | apply Grows_logging_error
    | apply Grows_out_of_fuel
    | apply Grows_bind; [|intros ?]
    | apply Grows_if
    | apply Grows_for_each; intros ? ].

Ltac grows_auto := repeat grows_step.

Lemma Grows_check_output {A} (text : A -> string) (cmd : command) (r : Z * captured A) :
  Grows (check_output text cmd r).
Proof.
  intros w o w'. unfold check_output.
  destruct r.2; [destruct (r.1 =? 0)%Z|]; intros [= <- <-]; apply grows_add_trace.
Qed.

Lemma Grows_run_shell (E : engine) (file_path : string) : Grows (run_shell E file_path).
Proof.
  intros w o w'. unfold run_shell.
  destruct (shell_literal file_path); intros [= <- <-]; [apply grows_refl|].
  split; [done|]. split; exists []; simpl; by rewrite app_nil_r.
Qed.

Lemma Grows_report_stream (stream : pyval) : Grows (report_stream stream).
Proof. unfold report_stream. grows_auto. Qed.

Lemma Grows_report (heading file : string) (result : json_text) :
  Grows (report heading file result).
Proof. unfold report. grows_auto. Qed.

Lemma Grows_inspect_file (E : engine) (folder_name heading where_ file : string) :
  Grows (inspect_file E folder_name heading where_ file).
Proof.
  unfold inspect_file. apply Grows_try_except.
  - apply Grows_bind; [apply Grows_run_shell|intros r].
    apply Grows_bind; [apply Grows_check_output|intros result; apply Grows_report].
  - intros e h. destruct e; intros [= <-]. apply Grows_logging_error.
Qed.

(** * The listing of the examples *)

Lemma listdir_sorted_ok (d : folder) : listdir_sorted d ≡ₚ (map_to_list d).*1.
Proof. unfold listdir_sorted. apply merge_sort_Permutation. Qed.

Lemma good_engine_listdir_ok : listdir_ok good_engine.
Proof. intros d. apply listdir_sorted_ok. Qed.

Lemma listed_files (E : engine) (d : folder) (file content : string) :
  listdir_ok E -> d !! file = Some (File content) ->
  file ∈ List.filter (path_isfile d) (os_listdir E d).
Proof.
  intros HE Hfile. apply list_elem_of_In, filter_In. split.
  - apply list_elem_of_In. rewrite (HE d).
    apply list_elem_of_fmap. exists (file, File content). split; [done|].
    by apply elem_of_map_to_list.
  - unfold path_isfile. by rewrite Hfile.
Qed.

(** * Loops that end normally ran every body *)

Lemma for_each_ok_inv {A} (l : list A) (body : A -> M unit) (w w' : world) (x : A) :
  (forall y, Grows (body y)) ->
  for_each l body w = (Ok tt, w') -> x ∈ l ->
  exists v v', grows w v /\ body x v = (Ok tt, v') /\ grows v' w'.
Proof.
  intros Hb. revert w. induction l as [|y l IH]; intros w H Hx.
  - by apply elem_of_nil in Hx.
  - simpl in H. unfold bind in H.
    destruct (body y w) as [[[]| | |] w1] eqn:Hy; try done.
    apply elem_of_cons in Hx as [->|Hx].
    + exists w, w1. split; [apply grows_refl|]. split; [done|].
      by eapply (Grows_for_each l body Hb).
    + destruct (IH _ H Hx) as (v & v' & H1 & H2 & H3).
      exists v, v'. split; [|done].
      eapply grows_trans; [by eapply Hb | done].
Qed.

(** * The validator and the transcoder *)

Lemma extend_extend (r1 r2 : list record) (c1 c2 : list command) (w : world) :
  extend r2 c2 (extend r1 c1 w) = extend (r1 ++ r2) (c1 ++ c2) w.
Proof. unfold extend. simpl. by rewrite !app_assoc. Qed.

Lemma add_trace_extend (c : command) (w : world) : add_trace c w = extend [] [c] w.
Proof. unfold add_trace, extend. by rewrite app_nil_r. Qed.

Lemma add_log_extend (r : record) (w : world) : add_log r w = extend [r] [] w.
Proof. unfold add_log, extend. by rewrite app_nil_r. Qed.

Lemma extend_nil (w : world) : extend [] [] w = w.
Proof. destruct w. unfold extend. simpl. by rewrite !app_nil_r. Qed.

Lemma logging_error_ready (m : list piece) (w : world) :
  handlers_ready w = true ->
  logging_error m w = (Ok tt, extend [ {| levelname := ERROR; message := m |} ] [] w).
Proof. intros H. unfold logging_error. by rewrite H, add_log_extend. Qed.

Lemma logging_info_ready (m : list piece) (w : world) :
  handlers_ready w = true ->
  logging_info m w = (Ok tt, extend [ {| levelname := INFO; message := m |} ] [] w).
Proof. intros H. unfold logging_info. by rewrite H, add_log_extend. Qed.

(** * Exceptions of the report *)

Lemma quiet_ok {A} (a : A) : quiet (Ok a).
Proof. intros e H. discriminate H. Qed.

Lemma quiet_raise {A} (e : exn) : not_process_error e -> quiet (@Raise A e).
Proof. intros He e' [= <-]. exact He. Qed.

Lemma quiet_obind {A B} (o : outcome A) (k : A -> outcome B) :
  quiet o -> (forall a, quiet (k a)) -> quiet (obind o k).
Proof.
  intros Ho Hk e. destruct o as [a|e'| |]; simpl; try done.
  - apply Hk.
  - intros [= <-]. by apply Ho.
Qed.

Lemma quiet_getitem (v : pyval) (key : string) : quiet (getitem v key).
Proof.
  destruct v; simpl; try (by apply quiet_raise).
  destruct (assoc key items); [apply quiet_ok | by apply quiet_raise].
Qed.

Lemma quiet_float_of_str (s : string) : quiet (float_of_str s).
Proof.
  unfold float_of_str.
  destruct (if PyStr.mem "_" s then _ else _) as [s1|]; [|by apply quiet_raise].
  destruct (split_sign _) as [neg body].
  destruct (_ || _)%bool; [apply quiet_ok|].
  destruct (String.eqb _ "nan"); [apply quiet_ok|].
  destruct (parse_number _ _); [apply quiet_ok | by apply quiet_raise].
Qed.

Lemma quiet_py_float (v : pyval) : quiet (py_float v).
Proof.
  destruct v; simpl; try (by apply quiet_raise); try apply quiet_ok.
  - unfold F64.of_int. destruct (F64.of_Z z); try apply quiet_ok. by apply quiet_raise.
  - apply quiet_float_of_str.
Qed.

Lemma quiet_truediv (x y : spec_float) : quiet (F64.truediv x y).
Proof.
  unfold F64.truediv. destruct (F64.is_zero y); [by apply quiet_raise | apply quiet_ok].
Qed.

Lemma quiet_rem (x y : spec_float) : quiet (F64.rem x y).
Proof.
  unfold F64.rem. destruct (F64.is_zero y); [by apply quiet_raise|].
  cbn zeta. destruct (negb _); [destruct (xorb _ _)|]; apply quiet_ok.
Qed.

Lemma quiet_floordiv (x y : spec_float) : quiet (F64.floordiv x y).
Proof.
  unfold F64.floordiv. destruct (F64.is_zero y); [by apply quiet_raise|].
  cbn zeta. destruct (negb (F64.is_zero _)); [destruct (SFltb _ _)|]; apply quiet_ok.
Qed.

Lemma quiet_to_int (x : spec_float) : quiet (F64.to_int x).
Proof. destruct x; simpl; try apply quiet_ok; by apply quiet_raise. Qed.

Lemma quiet_format_duration (x : spec_float) : quiet (format_duration x).
Proof.
  unfold format_duration.
  repeat (apply quiet_obind;
          [first [apply quiet_floordiv | apply quiet_to_int | apply quiet_rem]|intros ?]).
  apply quiet_ok.
Qed.

Lemma quiet_format_report (data : pyval) : quiet (format_report data).
Proof.
  unfold format_report.
  repeat (apply quiet_obind;
          [first [apply quiet_getitem | apply quiet_py_float | apply quiet_format_duration
                 | apply quiet_truediv]|intros ?]).
  apply quiet_ok.
Qed.

Lemma quiet_iterate (v : pyval) : quiet (iterate v).
Proof. destruct v; simpl; try apply quiet_ok; by apply quiet_raise. Qed.

Lemma quiet_contains_key (key : string) (v : pyval) : quiet (contains_key key v).
Proof. destruct v; simpl; try apply quiet_ok; by apply quiet_raise. Qed.

Lemma Quiet_ret {A} (a : A) : Quiet (ret a).
Proof. intros w e w' H. discriminate H. Qed.

Lemma Quiet_lift {A} (o : outcome A) : quiet o -> Quiet (lift o).
Proof. intros Ho w e w' [= H _]. by apply Ho. Qed.

Lemma Quiet_logging_info (m : list piece) : Quiet (logging_info m).
Proof. intros w e w'. unfold logging_info. by destruct (handlers_ready w). Qed.

Lemma Quiet_bind {A B} (m : M A) (k : A -> M B) :
  Quiet m -> (forall a, Quiet (k a)) -> Quiet (bind m k).
Proof.
  intros Hm Hk w e w'. unfold bind.
  destruct (m w) as [[a|e'|c|] w1] eqn:H1; try done.
  - apply Hk.
  - intros [= <- <-]. by eapply Hm.
Qed.

Lemma Quiet_for_each {A} (l : list A) (body : A -> M unit) :
  (forall x, Quiet (body x)) -> Quiet (for_each l body).
Proof.
  intros Hb. induction l as [|x l IH]; simpl.
  - apply Quiet_ret.
  - apply Quiet_bind; [apply Hb | intros _; apply IH].
Qed.

Lemma Quiet_if {A} (b : bool) (m1 m2 : M A) :
  Quiet m1 -> Quiet m2 -> Quiet (if b then m1 else m2).
Proof. by destruct b. Qed.

Ltac quiet_step :=
  first
    [ apply Quiet_ret | apply Quiet_logging_info
    | apply Quiet_lift;
      first [ apply quiet_getitem | apply quiet_contains_key | apply quiet_format_report
            | apply quiet_iterate ]
    | apply Quiet_bind; [|intros ?]
    | apply Quiet_if
    | apply Quiet_for_each; intros ? ].

Lemma Quiet_report_stream (stream : pyval) : Quiet (report_stream stream).
Proof. unfold report_stream. repeat quiet_step. Qed.

(** A report raises only what reading the document raises. *)
Lemma Quiet_report (heading file : string) (result : json_text) :
  Quiet (report heading file result).
Proof.
  unfold report.
  apply Quiet_bind; [apply Quiet_lift; destruct result; [by apply quiet_raise|apply quiet_ok]|].
  intros data. apply Quiet_bind; [apply Quiet_lift, quiet_format_report|intros formatted].
  repeat (apply Quiet_bind; [apply Quiet_logging_info|intros _]).
  apply Quiet_bind.
  - apply Quiet_lift, quiet_obind; [apply quiet_getitem|intros s; apply quiet_iterate].
  - intros streams. apply Quiet_for_each. intros stream. apply Quiet_report_stream.
Qed.

(** * The inspectors *)

(** The shell leaves the logging as it is. *)
Lemma run_shell_ready (E : engine) (file_path : string) (w u : world)
    (r : Z * captured json_text) :
  run_shell E file_path w = (Ok r, u) ->
  handlers_ready u = handlers_ready w /\ log u = log w /\ trace u = trace w.
Proof.
  unfold run_shell. destruct (shell_literal file_path); intros [= <- <-]; done.
Qed.

Lemma run_shell_returns (E : engine) (file_path : string) (w : world) :
  exists r u, run_shell E file_path w = (Ok r, u).
Proof. unfold run_shell. destruct (shell_literal file_path); eauto. Qed.

(** A report that ends normally wrote its four first records and then
    ran the loop over the streams. *)
Lemma report_ok_inv (heading file : string) (result : json_text) (w w' : world) :
  handlers_ready w = true ->
  report heading file result w = (Ok tt, w') ->
  exists raw data formatted streams,
    result = Document raw data /\
    format_report data = Ok formatted /\
    (let? streams := getitem data "streams" in iterate streams) = Ok streams /\
    for_each streams report_stream (extend (report_header heading file formatted) [] w)
      = (Ok tt, w').
Proof.
  intros Hready H. unfold report in H.
  unfold bind at 1, lift at 1 in H. destruct result as [raw|raw data]; [done|].
  cbn [json_loads] in H.
  unfold bind at 1, lift at 1 in H. destruct (format_report data) as [f| | |] eqn:Hf; try done.
  do 4 (unfold bind at 1 in H; rewrite logging_info_ready in H
          by (cbn [handlers_ready extend]; exact Hready)).
  rewrite !extend_extend in H. cbn [app] in H.
  unfold bind at 1, lift at 1 in H.
  destruct (let? streams := getitem data "streams" in iterate streams)
    as [streams| | |] eqn:Hs; try done.
  exists raw, data, f, streams. done.
Qed.

(** An inspection of a file that ends normally either recorded the
    failed exit status of its probe, or reported the file. *)
Lemma inspect_file_ok (E : engine) (folder_name heading where_ file : string) (v v' : world) :
  handlers_ready v = true ->
  inspect_file E folder_name heading where_ file v = (Ok tt, v') ->
  let file_path := os_path_join folder_name file in
  let cmd := Shell (ffprobe_format_command file_path) in
  exists r u,
    run_shell E file_path v = (Ok r, u) /\
    ((exists output,
        r.2 = Decoded output /\ r.1 <> 0%Z /\
        v' = add_log (probe_error where_ file
                        (CalledProcessError cmd r.1 (text_of output) ""))
                     (add_trace cmd u)) \/
     (exists raw data formatted streams,
        r = (0%Z, Decoded (Document raw data)) /\
        format_report data = Ok formatted /\
        (let? streams := getitem data "streams" in iterate streams) = Ok streams /\
        for_each streams report_stream
          (extend (report_header heading file formatted) [] (add_trace cmd u))
          = (Ok tt, v'))).
Proof.
  intros Hready H file_path cmd.
  destruct (run_shell_returns E file_path v) as (r & u & Hsh).
  exists r, u. split; [done|].
  destruct (run_shell_ready _ _ _ _ _ Hsh) as (Hu & _ & _).
  unfold inspect_file, try_except in H. fold file_path cmd in H.
  unfold bind at 1 in H. rewrite Hsh in H.
  unfold bind at 1, check_output in H.
  destruct r as [rc [output|]]; cbn [fst snd] in *; [|done].
  destruct (rc =? 0)%Z eqn:Hrc.
  - apply Z.eqb_eq in Hrc as ->. right.
    destruct (report heading file output (add_trace cmd u)) as [[[]|e|c|] w1] eqn:Hr; try done.
    + injection H as <-.
      apply report_ok_inv in Hr as (raw & data & f & streams & -> & Hf & Hs & Hloop);
        [|cbn [handlers_ready add_trace]; congruence].
      exists raw, data, f, streams. done.
    + apply Quiet_report in Hr. by destruct e.
  - left. exists output. split; [done|]. split; [by apply Z.eqb_neq|].
    unfold logging_error in H. cbn [handlers_ready add_trace] in H.
    rewrite Hu, Hready in H. by injection H as <-.
Qed.

(** * Computations that launch nothing *)

Lemma Silent_ret {A} (a : A) : Silent (ret a).
Proof. by intros w r w' [= <- <-]. Qed.

Lemma Silent_lift {A} (o : outcome A) : Silent (lift o).
Proof. by intros w r w' [= <- <-]. Qed.

Lemma Silent_logging_info (m : list piece) : Silent (logging_info m).
Proof.
  intros w r w'. unfold logging_info. by destruct (handlers_ready w); intros [= <- <-].
Qed.

Lemma Silent_logging_error (m : list piece) : Silent (logging_error m).
Proof.
  intros w r w'. unfold logging_error. by destruct (handlers_ready w); intros [= <- <-].
Qed.

Lemma Silent_bind {A B} (m : M A) (k : A -> M B) :
  Silent m -> (forall a, Silent (k a)) -> Silent (bind m k).
Proof.
  intros Hm Hk w r w'. unfold bind.
  destruct (m w) as [[a|e|c|] w1] eqn:H1.
  - intros H2. rewrite (Hk _ _ _ _ H2). by eapply Hm.
  - intros [= <- <-]. by eapply Hm.
  - intros [= <- <-]. by eapply Hm.
  - intros [= <- <-]. by eapply Hm.
Qed.

Lemma Silent_for_each {A} (l : list A) (body : A -> M unit) :
  (forall x, Silent (body x)) -> Silent (for_each l body).
Proof.
  intros Hb. induction l as [|x l IH]; simpl.
  - apply Silent_ret.
  - apply Silent_bind; [apply Hb | intros _; apply IH].
Qed.

Lemma Silent_if {A} (b : bool) (m1 m2 : M A) :
  Silent m1 -> Silent m2 -> Silent (if b then m1 else m2).
Proof. by destruct b. Qed.

Ltac silent_step :=
  first
    [ apply Silent_ret | apply Silent_lift
    | apply Silent_logging_info | apply Silent_logging_error
    | apply Silent_bind; [|intros ?]
    | apply Silent_if
    | apply Silent_for_each; intros ? ].

Lemma Silent_report (heading file : string) (result : json_text) :
  Silent (report heading file result).
Proof. unfold report, report_stream. repeat silent_step. Qed.

(** * What one inspection does *)

(** Every inspection launches its probe, and nothing else. *)
Lemma inspect_file_trace (E : engine) (folder_name heading where_ file : string)
    (v v' : world) (r : outcome unit) :
  inspect_file E folder_name heading where_ file v = (r, v') ->
  trace v' = (trace v ++ [Shell (ffprobe_format_command (os_path_join folder_name file))])%list.
Proof.
  unfold inspect_file, try_except.
  set (file_path := os_path_join folder_name file). set (cmd := Shell _).
  destruct (run_shell_returns E file_path v) as (p & u & Hsh).
  destruct (run_shell_ready _ _ _ _ _ Hsh) as (_ & _ & Hu).
  unfold bind at 1. rewrite Hsh. unfold bind at 1, check_output.
  destruct p as [rc [output|]]; cbn [fst snd].
  - destruct (rc =? 0)%Z.
    + destruct (report heading file output (add_trace cmd u)) as [o w1] eqn:Hr.
      apply Silent_report in Hr as Ht. cbn [trace add_trace] in Ht. rewrite Hu in Ht.
      destruct o as [[]|e|c|]; try (by intros [= <- <-]).
      destruct e; try (by intros [= <- <-]).
      intros H. apply Silent_logging_error in H. congruence.
    + intros H. apply Silent_logging_error in H. rewrite H. simpl. by rewrite Hu.
  - intros [= <- <-]. simpl. by rewrite Hu.
Qed.

(** A loop of inspections that ends normally probed every file of its
    list once, in order. *)
Lemma inspect_loop_trace (E : engine) (folder_name heading where_ : string)
    (files : list string) (w w' : world) :
  for_each files (inspect_file E folder_name heading where_) w = (Ok tt, w') ->
  trace w' =
    (trace w ++
     List.map (fun f => Shell (ffprobe_format_command (os_path_join folder_name f)))
              files)%list.
Proof.
  revert w. induction files as [|file files IH]; intros w H.
  - injection H as <-. by rewrite app_nil_r.
  - simpl in H. unfold bind in H.
    destruct (inspect_file _ _ _ _ file w) as [[[]| | |] w1] eqn:Hf; try done.
    rewrite (IH _ H), (inspect_file_trace _ _ _ _ _ _ _ _ Hf). simpl.
    by rewrite <- app_assoc.
Qed.

Lemma inspect_file_unparsable (E : engine) (folder_name heading where_ file raw : string)
    (w u : world) :
  run_shell E (os_path_join folder_name file) w = (Ok (0%Z, Decoded (Unparsable raw)), u) ->
  inspect_file E folder_name heading where_ file w =
    (Raise JSONDecodeError,
     add_trace (Shell (ffprobe_format_command (os_path_join folder_name file))) u).
Proof.
  intros H. unfold inspect_file, try_except. unfold bind at 1. rewrite H. reflexivity.
Qed.

Lemma inspect_file_no_format (E : engine) (folder_name heading where_ file raw : string)
    (items : list (string * pyval)) (w u : world) :
  run_shell E (os_path_join folder_name file) w
    = (Ok (0%Z, Decoded (Document raw (PDict items))), u) ->
  assoc "format" items = None ->
  inspect_file E folder_name heading where_ file w =
    (Raise (KeyError "format"),
     add_trace (Shell (ffprobe_format_command (os_path_join folder_name file))) u).
Proof.
  intros H Hnone. unfold inspect_file, try_except. unfold bind at 1. rewrite H.
  unfold bind at 1, check_output. cbn [fst snd Z.eqb].
  unfold report, bind, lift, format_report. simpl. rewrite Hnone. reflexivity.
Qed.

Lemma inspect_file_undecodable (E : engine) (folder_name heading where_ file : string)
    (rc : Z) (w u : world) :
  run_shell E (os_path_join folder_name file) w = (Ok (rc, Undecodable), u) ->
  inspect_file E folder_name heading where_ file w =
    (Raise UnicodeDecodeError,
     add_trace (Shell (ffprobe_format_command (os_path_join folder_name file))) u).
Proof.
  intros H. unfold inspect_file, try_except. unfold bind at 1. rewrite H. reflexivity.
Qed.

Lemma inspect_file_probe_fails (E : engine) (folder_name heading where_ file : string)
    (rc : Z) (output : json_text) (w u : world) :
  run_shell E (os_path_join folder_name file) w = (Ok (rc, Decoded output), u) ->
  rc <> 0%Z ->
  inspect_file E folder_name heading where_ file w =
    logging_error
      [Lit "Error in `"; Lit where_; Lit "` function running ffprobe for file ";
       Lit q; Lit file; Lit q; Lit ": ";
       StrOfExn (CalledProcessError
                   (Shell (ffprobe_format_command (os_path_join folder_name file)))
                   rc (text_of output) "")]
      (add_trace (Shell (ffprobe_format_command (os_path_join folder_name file))) u).
Proof.
  intros H Hrc. unfold inspect_file, try_except. unfold bind at 1. rewrite H.
  unfold bind at 1, check_output. cbn [fst snd].
  apply Z.eqb_neq in Hrc. rewrite Hrc. reflexivity.
Qed.

(** C6 (as amended). Of the failures of a probe, only a non-zero exit
    status with output that decodes is contained: the inspector logs it
    and the loop goes on with the remaining files.  When the probe exits
    with zero and its output is not JSON, or is a document without the
    [format] field, or when its output does not decode, the exception
    ([JSONDecodeError], [KeyError], [UnicodeDecodeError]) leaves
    [inspect_files] at that file: nothing is logged for it and no later
    file is probed. *)
Theorem C6_only_exit_status_is_contained (E : engine) (before rest : list string)
    (file : string) (w w1 : world) :
  (logging_info [Lit "Inspecting validated files:"] >>
   for_each before (inspect_file E CONVERT_MEDIA_FOLDER "File: " "inspect_file")) w
    = (Ok tt, w1) ->
  let file_path := os_path_join CONVERT_MEDIA_FOLDER file in
  let cmd := Shell (ffprobe_format_command file_path) in
  (forall raw u,
     run_shell E file_path w1 = (Ok (0%Z, Decoded (Unparsable raw)), u) ->
     inspect_files E (before ++ file :: rest)%list w
       = (Raise JSONDecodeError, add_trace cmd u)) /\
  (forall raw items u,
     run_shell E file_path w1 = (Ok (0%Z, Decoded (Document raw (PDict items))), u) ->
     assoc "format" items = None ->
     inspect_files E (before ++ file :: rest)%list w
       = (Raise (KeyError "format"), add_trace cmd u)) /\
  (forall rc u,
     run_shell E file_path w1 = (Ok (rc, Undecodable), u) ->
     inspect_files E (before ++ file :: rest)%list w
       = (Raise UnicodeDecodeError, add_trace cmd u)) /\
  (forall rc output u,
     handlers_ready w = true ->
     run_shell E file_path w1 = (Ok (rc, Decoded output), u) -> rc <> 0%Z ->
     inspect_files E (before ++ file :: rest)%list w =
       (for_each rest (inspect_file E CONVERT_MEDIA_FOLDER "File: " "inspect_file") >>
        logging_info [Lit "File inspection completed."])
         (add_log (probe_error "inspect_file" file
                     (CalledProcessError cmd rc (text_of output) ""))
                  (add_trace cmd u))).
Proof.
  intros Hbefore file_path cmd.
  assert (Hstart :
    inspect_files E (before ++ file :: rest)%list w =
      (for_each (file :: rest) (inspect_file E CONVERT_MEDIA_FOLDER "File: " "inspect_file") >>
       logging_info [Lit "File inspection completed."]) w1).
  { assert (Hne : exists x l, (before ++ file :: rest)%list = x :: l).
    { destruct before; simpl; eauto. }
    destruct Hne as (x & l & Hxl). unfold inspect_files. rewrite Hxl, <- Hxl.
    unfold bind at 1. unfold bind at 1 in Hbefore.
    destruct (logging_info _ w) as [[[]| | |] w0]; try done.
    unfold bind at 1. rewrite (for_each_app _ _ _ _ _ Hbefore). reflexivity. }
  assert (Hloop : forall e v,
    inspect_file E CONVERT_MEDIA_FOLDER "File: " "inspect_file" file w1 = (Raise e, v) ->
    inspect_files E (before ++ file :: rest)%list w = (Raise e, v)).
  { intros e v He. rewrite Hstart. unfold bind at 1.
    by rewrite (for_each_raise _ _ _ _ _ _ He). }
  split; [|split; [|split]].
  - intros raw u H. apply Hloop. by eapply inspect_file_unparsable.
  - intros raw items u H Hnone. apply Hloop. by eapply inspect_file_no_format.
  - intros rc u H. apply Hloop. by eapply inspect_file_undecodable.
  - intros rc output u Hready H Hrc. rewrite Hstart.
    assert (Hready1 : handlers_ready w1 = true).
    { assert (Hg : Grows (logging_info [Lit "Inspecting validated files:"] >>
                          for_each before
                            (inspect_file E CONVERT_MEDIA_FOLDER "File: " "inspect_file"))).
      { apply Grows_bind; [apply Grows_logging_info|intros _].
        apply Grows_for_each. intros f. apply Grows_inspect_file. }
      apply Hg in Hbefore as [-> _]. exact Hready. }
    destruct (run_shell_ready _ _ _ _ _ H) as (Hu & _ & _).
    cbn [for_each]. unfold bind at 1. unfold bind at 1.
    rewrite (inspect_file_probe_fails _ _ _ _ _ _ _ _ _ H Hrc).
    unfold logging_error. cbn [handlers_ready add_trace]. rewrite Hu, Hready1.
    reflexivity.
Qed.

(** C6, at a probe that prints no JSON for the first of two files. *)
Lemma C6_witness :
  inspect_files garbled_engine ["a.mp4"; "b.mp4"] (logging_world two_clips ∅)
  = (Raise JSONDecodeError,
     add_trace (Shell (ffprobe_format_command "convert_media/a.mp4"))
       (add_log {| levelname := INFO; message := [Lit "Inspecting validated files:"] |}
                (logging_world two_clips ∅))).
Proof.
  refine (proj1 (C6_only_exit_status_is_contained garbled_engine [] ["b.mp4"] "a.mp4"
                   (logging_world two_clips ∅) _ _) "not json" _ _);
    vm_compute; reflexivity.
Defined.

(** C6 fails as stated: output that is not JSON, or that lacks [format],
    is not recorded and ends the script; the second file is neither
    inspected nor converted. *)
Lemma C6_counterexample :
  (main garbled_engine (initial_world two_clips ∅)).1 = Raise JSONDecodeError /\
  (main fieldless_engine (initial_world two_clips ∅)).1 = Raise (KeyError "format") /\
  List.filter (fun r => match levelname r with ERROR => true | INFO => false end)
    (log (main garbled_engine (initial_world two_clips ∅)).2) = [] /\
  omap transcode_input (trace (main garbled_engine (initial_world two_clips ∅)).2) = [] /\
  Shell (ffprobe_format_command "convert_media/b.mp4")
    ∉ trace (main garbled_engine (initial_world two_clips ∅)).2.
Proof.
  repeat split; try (vm_compute; reflexivity).
  vm_compute. intros H. repeat (apply elem_of_cons in H as [H|H]; [discriminate H|]).
  by apply elem_of_nil in H.
Qed.

(** * The inspection after the conversion *)

(** C10 (as amended). The inspection after the conversion lists
    converted_media/ itself, so every regular file that the folder holds
    when it starts is in its list, whichever run made it.  When the
    inspection ends normally, every listed file was probed once, in
    order, in a later state of the run, and has in the log either the
    record of the failed exit status of its probe, or its report: the
    four records of the heading, size, duration and bitrate, followed by
    the records of the loop over its streams.  But the inspection ends at the first file whose inspection
    raises: the exception leaves [inspect_converted_files] in the state
    of the raise, and of the files listed after it none was probed. *)
Theorem C10_inspection_goes_until_it_raises (E : engine) (w : world) :
  listdir_ok E ->
  handlers_ready w = true ->
  let files :=
    List.filter (path_isfile (converted_media w)) (os_listdir E (converted_media w)) in
  let inspect :=
    inspect_file E CONVERTED_MEDIA_FOLDER "Converted File: " "inspect_converted_files" in
  let path := os_path_join CONVERTED_MEDIA_FOLDER in
  let cmd := fun file => Shell (ffprobe_format_command (path file)) in
  (forall file content, converted_media w !! file = Some (File content) -> file ∈ files) /\
  (forall w',
     inspect_converted_files E w = (Ok tt, w') ->
     trace w' = (trace w ++ List.map cmd files)%list /\
     forall file, file ∈ files ->
       exists v r u,
         grows w v /\
         run_shell E (path file) v = (Ok r, u) /\
         ((exists output,
             r.2 = Decoded output /\ r.1 <> 0%Z /\
             probe_error "inspect_converted_files" file
               (CalledProcessError (cmd file) r.1 (text_of output) "") ∈ log w') \/
          (exists raw data formatted streams u',
             r = (0%Z, Decoded (Document raw data)) /\
             format_report data = Ok formatted /\
             (let? streams := getitem data "streams" in iterate streams) = Ok streams /\
             for_each streams report_stream
               (extend (report_header "Converted File: " file formatted) []
                       (add_trace (cmd file) u)) = (Ok tt, u') /\
             grows u' w' /\
             exists pre post : list record,
               log w' =
                 (pre ++ report_header "Converted File: " file formatted ++ post)%list))) /\
  (forall (before after : list string) (file : string) (e : exn) (w1 w2 : world),
     files = (before ++ file :: after)%list ->
     (logging_info [Lit "Inspecting converted files:"] >> for_each before inspect) w
       = (Ok tt, w1) ->
     inspect file w1 = (Raise e, w2) ->
     inspect_converted_files E w = (Raise e, w2) /\
     trace w2 = (trace w ++ List.map cmd (before ++ [file]))%list).
Proof.
  intros HE Hready files inspect path cmd. split; [|split].
  - intros file content Hfile. by eapply listed_files.
  - intros w' H.
    unfold inspect_converted_files in H. unfold bind at 1, get in H.
    fold files in H.
    destruct files as [|x l] eqn:Hl.
    { unfold logging_info in H. rewrite Hready in H. injection H as <-.
      split; [simpl; by rewrite app_nil_r|]. intros file Hin. by apply elem_of_nil in Hin. }
    rewrite <- Hl in *. clear Hl x l.
    unfold bind at 1, logging_info at 1 in H. rewrite Hready in H.
    unfold bind at 1 in H. fold inspect in H.
    destruct (for_each files inspect _) as [[[]| | |] w2] eqn:Hloop; try done.
    apply Grows_logging_info in H as Hlast.
    apply Silent_logging_info in H as Htrace.
    split.
    { rewrite Htrace. by rewrite (inspect_loop_trace _ _ _ _ _ _ _ Hloop). }
    intros file Hin.
    apply for_each_ok_inv with (x := file) in Hloop as (v & v' & Hv & Hbody & Hv');
      [|intros y; apply Grows_inspect_file|done].
    assert (Hrv : handlers_ready v = true) by (destruct Hv as [-> _]; exact Hready).
    assert (Hg : grows v' w') by (by eapply grows_trans).
    apply inspect_file_ok in Hbody as (r & u & Hsh & Hcases); [|exact Hrv].
    exists v, r, u.
    split; [eapply grows_trans; [apply grows_add_log | exact Hv]|].
    split; [exact Hsh|].
    destruct Hcases as [(output & Hout & Hrc & ->)|
                        (raw & data & f & streams & -> & Hf & Hs & Hstreams)].
    + left. exists output. split; [done|]. split; [done|].
      eapply grows_log; [exact Hg|]. simpl. apply elem_of_app. right.
      by apply list_elem_of_singleton.
    + right. exists raw, data, f, streams, v'.
      split; [done|]. split; [done|]. split; [done|]. split; [done|]. split; [done|].
      assert (Hgs : Grows (for_each streams report_stream)).
      { apply Grows_for_each. intros s. apply Grows_report_stream. }
      apply Hgs in Hstreams as (_ & [recs Hrecs] & _).
      destruct Hg as (_ & [more Hmore] & _).
      exists (log u), (recs ++ more)%list.
      rewrite Hmore, Hrecs. simpl. by rewrite <- !app_assoc.
  - intros before after file e w1 w2 Hfiles Hbefore Hraise.
    assert (Ht1 : trace w1 = (trace w ++ List.map cmd before)%list).
    { unfold bind in Hbefore.
      destruct (logging_info _ w) as [[[]| | |] w0] eqn:Hlog; try done.
      apply Silent_logging_info in Hlog. rewrite <- Hlog.
      by apply inspect_loop_trace in Hbefore. }
    split.
    + unfold inspect_converted_files. unfold bind at 1, get. fold files.
      rewrite Hfiles.
      assert (Hne : exists x l, (before ++ file :: after)%list = x :: l).
      { destruct before; simpl; eauto. }
      destruct Hne as (x & l & Hxl). rewrite Hxl, <- Hxl.
      unfold bind at 1. unfold bind at 1 in Hbefore.
      destruct (logging_info _ w) as [[[]| | |] w0]; try done.
      unfold bind at 1. fold inspect. rewrite (for_each_app _ _ _ _ _ Hbefore).
      by rewrite (for_each_raise _ _ _ _ _ _ Hraise).
    + rewrite (inspect_file_trace _ _ _ _ _ _ _ _ Hraise), Ht1, map_app.
      by rewrite <- app_assoc.
Qed.

(** C10, at an output folder that holds the file of an earlier run and
    probes that succeed: both files are listed, probed and reported. *)
Lemma C10_witness :
  "old_converted.mp4"
    ∈ List.filter (path_isfile old_and_new) (os_listdir good_engine old_and_new) /\
  trace (inspect_converted_files good_engine (logging_world ∅ old_and_new)).2 =
    [ Shell (ffprobe_format_command "converted_media/new_converted.mp4");
      Shell (ffprobe_format_command "converted_media/old_converted.mp4") ] /\
  report_header "Converted File: " "old_converted.mp4" ("1.00 MB", "01:02:5.40", "128.00 kb/s")
    ⊆ log (inspect_converted_files good_engine (logging_world ∅ old_and_new)).2.
Proof.
  destruct (C10_inspection_goes_until_it_raises good_engine (logging_world ∅ old_and_new)
              good_engine_listdir_ok eq_refl) as (Hlisted & Hnormal & _).
  split; [apply (Hlisted "old_converted.mp4" "o"); vm_compute; reflexivity|].
  destruct (Hnormal (inspect_converted_files good_engine (logging_world ∅ old_and_new)).2)
    as [Htrace _]; [vm_compute; reflexivity|].
  split; [rewrite Htrace; vm_compute; reflexivity|].
  intros r Hr. apply list_elem_of_In. apply list_elem_of_In in Hr.
  vm_compute in Hr. vm_compute.
  repeat (destruct Hr as [<-|Hr]; [tauto|]). destruct Hr.
Defined.

(** C10 fails as stated: when the probe of the first listed file reports
    no usable duration, [ValueError] leaves the inspector; the other
    regular file of the folder, left by an earlier run, is neither probed
    nor reported. *)
Lemma C10_counterexample :
  old_and_new !! "old_converted.mp4" = Some (File "o") /\
  (inspect_converted_files stray_engine (logging_world ∅ old_and_new)).1
    = Raise ValueError /\
  trace (inspect_converted_files stray_engine (logging_world ∅ old_and_new)).2 =
    [ Shell (ffprobe_format_command "converted_media/new_converted.mp4") ] /\
  log (inspect_converted_files stray_engine (logging_world ∅ old_and_new)).2 =
    [ {| levelname := INFO; message := [Lit "Inspecting converted files:"] |} ].
Proof. repeat split; vm_compute; reflexivity. Qed.

(** * Failures that do not abort the batch *)

Lemma validate_file_spec (E : engine) (acc : list string) (file : string) (w : world) :
  handlers_ready w = true ->
  streams_decode E file = true ->
  validate_file E acc file w =
    (Ok (if has_video E file then (acc ++ [file])%list else acc),
     extend (validation_records E file)
            [Argv (ffprobe_command (os_path_join CONVERT_MEDIA_FOLDER file))] w).
Proof.
  intros Hready Hdec.
  unfold validate_file, try_except, has_video, validation_records.
  unfold streams_decode in Hdec.
  unfold bind at 1, check_output.
  destruct (ffprobe_streams E _) as [rc [out|]]; [|done]. cbn [fst snd id].
  destruct (rc =? 0)%Z; simpl.
  - destruct (PyStr.contains _ _).
    + unfold ret. by rewrite add_trace_extend.
    + unfold bind.
      rewrite add_trace_extend, logging_error_ready, logging_error_ready by done.
      unfold ret. by rewrite !extend_extend.
  - unfold bind.
    rewrite add_trace_extend, logging_error_ready, logging_error_ready by done.
    unfold ret. by rewrite !extend_extend.
Qed.

(** A probe whose output does not decode ends the validation of its
    file with [UnicodeDecodeError], whatever its exit status is. *)
Lemma validate_file_undecodable (E : engine) (acc : list string) (file : string) (w : world) :
  streams_decode E file = false ->
  validate_file E acc file w =
    (Raise UnicodeDecodeError,
     add_trace (Argv (ffprobe_command (os_path_join CONVERT_MEDIA_FOLDER file))) w).
Proof.
  intros Hdec. unfold validate_file, try_except. unfold streams_decode in Hdec.
  unfold bind at 1, check_output.
  by destruct (ffprobe_streams E _) as [rc [out|]].
Qed.

Lemma validate_loop_spec (E : engine) (files acc : list string) (w : world) :
  handlers_ready w = true ->
  (forall f, f ∈ files -> streams_decode E f = true) ->
  validate_loop E acc files w =
    (Ok (acc ++ List.filter (has_video E) files)%list,
     extend (concat (List.map (validation_records E) files))
            (List.map (fun f => Argv (ffprobe_command (os_path_join CONVERT_MEDIA_FOLDER f)))
                      files) w).
Proof.
  revert acc w. induction files as [|file files IH]; intros acc w Hready Hdec; simpl.
  - unfold ret. by rewrite app_nil_r, extend_nil.
  - unfold bind. rewrite validate_file_spec by (done || apply Hdec; by left).
    rewrite IH by (done || intros f Hf; apply Hdec; by right).
    rewrite extend_extend. f_equal.
    destruct (has_video E file); [by rewrite <- app_assoc | done].
Qed.


(** A validation that returns decoded the output of every probe. *)
Lemma validate_loop_ok_decodes (E : engine) (files acc valid : list string) (w w' : world) :
  validate_loop E acc files w = (Ok valid, w') ->
  forall f, f ∈ files -> streams_decode E f = true.
Proof.
  revert acc w. induction files as [|file files IH]; intros acc w H f Hf.
  - by apply elem_of_nil in Hf.
  - simpl in H. unfold bind in H.
    destruct (streams_decode E file) eqn:Hdec.
    + apply elem_of_cons in Hf as [->|Hf]; [done|].
      destruct (validate_file E acc file w) as [[a| | |] w1]; try done.
      by eapply IH.
    + by rewrite validate_file_undecodable in H.
Qed.

Lemma path_exists_false_lookup (d : folder) (name : string) :
  path_exists d name = false -> d !! name = None.
Proof.
  unfold path_exists. intros [_ H]%orb_false_iff.
  apply bool_decide_eq_false in H. by apply eq_None_not_Some.
Qed.

Lemma transcode_input_ffmpeg (file_path output_file : string) :
  transcode_input (Argv (ffmpeg_command file_path output_file)) = Some file_path.
Proof. reflexivity. Qed.







(** * Runs that leave the folders alone *)

Section keeping.

Lemma same_folders_refl (w : world) : same_folders w w.
Proof. by split. Qed.

Lemma same_folders_trans (w1 w2 w3 : world) :
  same_folders w1 w2 -> same_folders w2 w3 -> same_folders w1 w3.
Proof. intros [H1 H2] [H3 H4]. split; congruence. Qed.

Lemma Keeps_ret {A} (a : A) : Keeps (ret a).
Proof. intros w r w' [= <- <-]. apply same_folders_refl. Qed.

Lemma Keeps_lift {A} (o : outcome A) : Keeps (lift o).
Proof. intros w r w' [= <- <-]. apply same_folders_refl. Qed.

Lemma Keeps_get : Keeps get.
Proof. intros w r w' [= <- <-]. apply same_folders_refl. Qed.

Lemma Keeps_logging_info (m : list piece) : Keeps (logging_info m).
Proof.
  intros w r w'. unfold logging_info.
  destruct (handlers_ready w); intros [= <- <-]; by split.
Qed.

Lemma Keeps_logging_error (m : list piece) : Keeps (logging_error m).
Proof.
  intros w r w'. unfold logging_error.
  destruct (handlers_ready w); intros [= <- <-]; by split.
Qed.

Lemma Keeps_check_output {A} (text : A -> string) (cmd : command) (r : Z * captured A) :
  Keeps (check_output text cmd r).
Proof.
  intros w o w'. unfold check_output.
  destruct r.2; [destruct (r.1 =? 0)%Z|]; intros [= <- <-]; by split.
Qed.

Lemma Keeps_bind {A B} (m : M A) (k : A -> M B) :
  Keeps m -> (forall a, Keeps (k a)) -> Keeps (bind m k).
Proof.
  intros Hm Hk w r w'. unfold bind.
  destruct (m w) as [[a|e|c|] w1] eqn:H1.
  - intros H2. eapply same_folders_trans; [by eapply Hm | by eapply Hk].
  - intros [= <- <-]. by eapply Hm.
  - intros [= <- <-]. by eapply Hm.
  - intros [= <- <-]. by eapply Hm.
Qed.

Lemma Keeps_try_except {A} (m : M A) (handler : exn -> option (M A)) :
  Keeps m -> (forall e h, handler e = Some h -> Keeps h) ->
  Keeps (try_except m handler).
Proof.
  intros Hm Hh w r w'. unfold try_except.
  destruct (m w) as [[a|e|c|] w1] eqn:H1.
  - intros [= <- <-]. by eapply Hm.
  - destruct (handler e) as [h|] eqn:He.
    + intros H2. eapply same_folders_trans; [by eapply Hm | by eapply Hh].
    + intros [= <- <-]. by eapply Hm.
  - intros [= <- <-]. by eapply Hm.
  - intros [= <- <-]. by eapply Hm.
Qed.

Lemma Keeps_for_each {A} (l : list A) (body : A -> M unit) :
  (forall x, Keeps (body x)) -> Keeps (for_each l body).
Proof.
  intros Hb. induction l as [|x l IH]; simpl.
  - apply Keeps_ret.
  - apply Keeps_bind; [apply Hb | intros _; apply IH].
Qed.

Lemma Keeps_if {A} (b : bool) (m1 m2 : M A) :
  Keeps m1 -> Keeps m2 -> Keeps (if b then m1 else m2).
Proof. by destruct b. Qed.

End keeping.

Ltac keeps_step :=
  first
    [ apply Keeps_ret | apply Keeps_lift | apply Keeps_get
    | apply Keeps_logging_info | apply Keeps_logging_error
    | apply Keeps_check_output
    | apply Keeps_bind; [|intros ?]
    | apply Keeps_if
    | apply Keeps_for_each; intros ? ].

Ltac keeps_auto := repeat keeps_step.

Lemma Keeps_validate_file (E : engine) (acc : list string) (file : string) :
  Keeps (validate_file E acc file).
Proof.
  unfold validate_file. apply Keeps_try_except.
  - keeps_auto.
  - intros e h. destruct e; intros [= <-]. keeps_auto.
Qed.

Lemma Keeps_validate_loop (E : engine) (files acc : list string) :
  Keeps (validate_loop E acc files).
Proof.
  revert acc. induction files as [|file files IH]; intros acc; simpl.
  - apply Keeps_ret.
  - apply Keeps_bind; [apply Keeps_validate_file | intros a; apply IH].
Qed.

(** * Names that the shell takes literally *)

Lemma shell_literal_app (a b : string) :
  shell_literal (a ++ b) = (shell_literal a && shell_literal b)%bool.
Proof. unfold shell_literal. by rewrite any_app, negb_orb. Qed.

Lemma safe_not_special (c : ascii) :
  safe_char c = true -> PyStr.mem c shell_special = false.
Proof.
  intros Hc. destruct (PyStr.mem c shell_special) eqn:Hm; [|done].
  unfold PyStr.mem, shell_special in Hm. simpl in Hm.
  rewrite !orb_true_iff in Hm.
  repeat destruct Hm as [Hm|Hm]; try discriminate;
    apply Ascii.eqb_eq in Hm; subst c; discriminate.
Qed.

Lemma safe_literal (s : string) : PyStr.all safe_char s = true -> shell_literal s = true.
Proof.
  intros H. unfold shell_literal.
  by rewrite (all_any_false _ _ _ safe_not_special H).
Qed.

(** The path of a literal name in one of the two folders is literal. *)
Lemma literal_path (folder_name file : string) :
  shell_literal folder_name = true -> shell_literal file = true ->
  shell_literal (os_path_join folder_name file) = true.
Proof.
  intros Ha Hb. unfold os_path_join.
  destruct (PyStr.startswith "/" file); [done|].
  destruct (_ || _)%bool; rewrite ?shell_literal_app, Ha, Hb; reflexivity.
Qed.

Lemma literal_in_convert_media (file : string) :
  shell_literal file = true ->
  shell_literal (os_path_join CONVERT_MEDIA_FOLDER file) = true.
Proof. by apply literal_path. Qed.

Lemma literal_in_converted_media (file : string) :
  shell_literal file = true ->
  shell_literal (os_path_join CONVERTED_MEDIA_FOLDER file) = true.
Proof. by apply literal_path. Qed.

(** * The probes leave the folders alone *)

Lemma Keeps_run_shell (E : engine) (file_path : string) :
  shell_literal file_path = true -> Keeps (run_shell E file_path).
Proof.
  intros Hlit w r w'. unfold run_shell. rewrite Hlit. intros [= <- <-]. by split.
Qed.

Lemma Keeps_inspect_file (E : engine) (folder_name heading where_ file : string) :
  shell_literal (os_path_join folder_name file) = true ->
  Keeps (inspect_file E folder_name heading where_ file).
Proof.
  intros Hlit. unfold inspect_file. apply Keeps_try_except.
  - apply Keeps_bind; [by apply Keeps_run_shell|intros r].
    apply Keeps_bind; [apply Keeps_check_output|intros result].
    unfold report. keeps_auto.
  - intros e h. destruct e; intros [= <-]. apply Keeps_logging_error.
Qed.

Lemma Keeps_inspect_loop (E : engine) (folder_name heading where_ : string)
    (files : list string) :
  shell_literal folder_name = true ->
  (forall f, f ∈ files -> shell_literal f = true) ->
  Keeps (for_each files (inspect_file E folder_name heading where_)).
Proof.
  intros Hfolder. induction files as [|file files IH]; intros Hlit; simpl.
  - apply Keeps_ret.
  - apply Keeps_bind.
    + apply Keeps_inspect_file, literal_path; [done|]. apply Hlit. by left.
    + intros _. apply IH. intros f Hf. apply Hlit. by right.
Qed.

Lemma Keeps_inspect_files (E : engine) (files : list string) :
  (forall f, f ∈ files -> shell_literal f = true) ->
  Keeps (inspect_files E files).
Proof.
  intros Hlit. unfold inspect_files. destruct files as [|x l]; [apply Keeps_logging_info|].
  apply Keeps_bind; [apply Keeps_logging_info|intros _].
  apply Keeps_bind; [|intros _; apply Keeps_logging_info].
  by apply Keeps_inspect_loop.
Qed.

Lemma inspect_converted_files_keeps (E : engine) (w w' : world) (r : outcome unit) :
  (forall name content,
     converted_media w !! name = Some (File content) -> shell_literal name = true) ->
  inspect_converted_files E w = (r, w') -> same_folders w w'.
Proof.
  intros Hlit. unfold inspect_converted_files. unfold bind at 1, get.
  assert (Hfiles : forall f,
    f ∈ List.filter (path_isfile (converted_media w)) (os_listdir E (converted_media w)) ->
    shell_literal f = true).
  { intros f [_ Hf]%list_elem_of_In%filter_In. unfold path_isfile in Hf.
    destruct (converted_media w !! f) as [[content|e]|] eqn:Hlookup; try done.
    by eapply Hlit. }
  destruct (List.filter _ _) as [|x l]; [apply Keeps_logging_info|].
  apply Keeps_bind; [apply Keeps_logging_info|intros _].
  apply Keeps_bind; [|intros _; apply Keeps_logging_info].
  by apply Keeps_inspect_loop.
Qed.

(** X4. Validation and both inspections only look.  Whatever the probes
    return and however the call ends, [validate_files] leaves
    convert_media/ and converted_media/ as they were; so does
    [inspect_files] when the names of its files have no character that
    the shell expands inside double quotes, and so does
    [inspect_converted_files] when the regular files of converted_media/
    have such names. *)
Theorem X4_probing_keeps_folders (E : engine) (files : list string) (w : world) :
  same_folders w (validate_files E files w).2 /\
  ((forall f, f ∈ files -> shell_literal f = true) ->
   same_folders w (inspect_files E files w).2) /\
  ((forall name content,
      converted_media w !! name = Some (File content) -> shell_literal name = true) ->
   same_folders w (inspect_converted_files E w).2).
Proof.
  split; [|split].
  - apply (Keeps_validate_loop E files [] w (validate_files E files w).1).
    unfold validate_files. by destruct (validate_loop E [] files w).
  - intros Hlit.
    apply (Keeps_inspect_files E files Hlit w (inspect_files E files w).1).
    by destruct (inspect_files E files w).
  - intros Hlit.
    apply (inspect_converted_files_keeps E w _ (inspect_converted_files E w).1 Hlit).
    by destruct (inspect_converted_files E w).
Qed.

(** X4, at a shell that would remove converted_media/ in a command
    substitution, and literal names. *)
Lemma X4_witness :
  converted_media
    (inspect_files rogue_shell_engine ["My_Clip.mov"] (logging_world ∅ taken_output)).2
  = taken_output /\
  converted_media
    (inspect_converted_files rogue_shell_engine (logging_world ∅ taken_output)).2
  = taken_output.
Proof.
  destruct (X4_probing_keeps_folders rogue_shell_engine ["My_Clip.mov"]
              (logging_world ∅ taken_output)) as (_ & Hfiles & Hconverted).
  split.
  - apply Hfiles. intros f ->%list_elem_of_singleton. reflexivity.
  - apply Hconverted. intros name content.
    unfold logging_world, taken_output. simpl.
    intros [<- _]%lookup_singleton_Some. reflexivity.
Defined.

(** The hypothesis on the names is needed: a name with a command
    substitution has none of the eleven unsafe characters, so it is not
    renamed, and with it the shell line of [inspect_files] can remove
    converted_media/. *)
Example shell_line_is_expanded :
  has_unsafe_char "$(rm${IFS}-r${IFS}converted_media).mp4" = false /\
  convert_media (prepare_files rogue_shell_engine (logging_world dollar_name taken_output)).2
    = dollar_name /\
  converted_media
    (inspect_files rogue_shell_engine ["$(rm${IFS}-r${IFS}converted_media).mp4"]
       (logging_world dollar_name taken_output)).2 = ∅.
Proof. repeat split; vm_compute; reflexivity. Qed.

(** * What a conversion does to the folders *)

(** One conversion, whether or not logging is set up: it returns
    normally or is left by [UnicodeDecodeError]; either way it leaves
    convert_media/ alone, and in converted_media/ it at most adds the
    entry of its output name, which was free. *)
Lemma convert_video_run (E : engine) (file : string) (w : world) :
  exists output_name,
    get_output_file_name (S (size (converted_media w))) (converted_media w) file
      = Some output_name /\
    converted_media w !! output_name = None /\
    let w' := (convert_video E file w).2 in
    convert_media w' = convert_media w /\
    converted_media w' =
      match t_written (ffmpeg E (os_path_join CONVERT_MEDIA_FOLDER file)
                              (os_path_join CONVERTED_MEDIA_FOLDER output_name)) with
      | Some content => <[output_name := File content]> (converted_media w)
      | None => converted_media w
      end /\
    ((convert_video E file w).1 = Ok tt \/
     (convert_video E file w).1 = Raise UnicodeDecodeError).
Proof.
  destruct (get_output_file_name_total (converted_media w) file
              (S (size (converted_media w)))) as [name Hname]; [lia|].
  exists name.
  destruct (get_output_file_name_spec _ _ _ _ Hname) as (k & _ & Hfree & _).
  apply path_exists_false_lookup in Hfree.
  split; [done|]. split; [done|]. cbn zeta.
  destruct (convert_video E file w) as [o W] eqn:Hcv. cbn [fst snd].
  unfold convert_video in Hcv. unfold bind at 1, logging_info at 1 in Hcv.
  destruct (handlers_ready w) eqn:Hready;
    unfold try_except, bind, get in Hcv; cbn [converted_media add_log] in Hcv;
    rewrite Hname in Hcv;
    unfold run_ffmpeg in Hcv; cbn zeta in Hcv;
    (destruct (t_stdout (ffmpeg E _ _)) as [out|];
     [destruct (t_stderr (ffmpeg E _ _)) as [err|]|]);
    cbn [returncode stderr_text] in Hcv;
    try destruct (t_returncode (ffmpeg E _ _) =? 0)%Z;
    destruct (t_written (ffmpeg E _ _)) as [content|];
    unfold logging_info, logging_error in Hcv;
    cbn [handlers_ready add_log add_trace set_converted_media] in Hcv;
    rewrite ?Hready in Hcv; injection Hcv as <- <-; cbn;
    (split; [done|]); (split; [done|]); auto.
Qed.

(** X5. However the conversion loop ends, with logging set up or not and
    whatever ffmpeg does, it leaves convert_media/ as it was, and every
    entry that converted_media/ had before is there unchanged afterwards:
    an existing output is never overwritten.  The loop returns normally
    or is left by [UnicodeDecodeError]. *)
Theorem X5_conversion_keeps_what_exists (E : engine) (files : list string) (w : world) :
  convert_media (for_each files (convert_video E) w).2 = convert_media w /\
  converted_media w ⊆ converted_media (for_each files (convert_video E) w).2 /\
  ((for_each files (convert_video E) w).1 = Ok tt \/
   (for_each files (convert_video E) w).1 = Raise UnicodeDecodeError).
Proof.
  revert w. induction files as [|file files IH]; intros w; [by auto|].
  destruct (convert_video_run E file w) as (name & _ & Hfree & Hin & Hout & Hend).
  cbn zeta in *.
  assert (Hsub : converted_media w ⊆ converted_media (convert_video E file w).2).
  { rewrite Hout. destruct (t_written _); [by apply insert_subseteq | done]. }
  simpl. unfold bind.
  destruct (convert_video E file w) as [o w1]. cbn [fst snd] in *.
  destruct Hend as [-> | ->]; [|by auto].
  destruct (IH w1) as (H1 & H2 & H3).
  split; [congruence|]. split; [by etrans | done].
Qed.

(** X6. If every run of ffmpeg writes its output file and the conversion
    loop returns normally, it has added exactly one new entry per file to
    converted_media/, also when two sources share a stem or an output of
    that name was there before. *)
Theorem X6_outputs_are_new (E : engine) (files : list string) (w : world) :
  (forall file_path output_file, t_written (ffmpeg E file_path output_file) <> None) ->
  (for_each files (convert_video E) w).1 = Ok tt ->
  size (converted_media (for_each files (convert_video E) w).2)
    = size (converted_media w) + length files.
Proof.
  intros Hwrites. revert w. induction files as [|file files IH]; intros w Hok.
  - simpl. lia.
  - destruct (convert_video_run E file w) as (name & _ & Hfree & _ & Hout & _).
    cbn zeta in *. simpl in *. unfold bind in *.
    destruct (convert_video E file w) as [[[]| | |] w1]; try done. cbn [snd] in Hout.
    rewrite IH by done. rewrite Hout.
    destruct (t_written _) as [content|] eqn:Hw; [|by apply Hwrites in Hw].
    rewrite map_size_insert_None by done. lia.
Qed.

(** X6, at two sources with the stem [a]. *)
Lemma X6_witness :
  converted_media
    (for_each ["a.avi"; "a.mov"] (convert_video good_engine) (logging_world same_stem ∅)).2
  = {[ "a_converted.mp4" := File "mp4"; "a_converted_1.mp4" := File "mp4" ]} /\
  size (converted_media
    (for_each ["a.avi"; "a.mov"] (convert_video good_engine) (logging_world same_stem ∅)).2)
  = 2.
Proof.
  split; [vm_compute; reflexivity|].
  rewrite (X6_outputs_are_new good_engine ["a.avi"; "a.mov"] (logging_world same_stem ∅)).
  - reflexivity.
  - intros file_path output_file. discriminate.
  - vm_compute. reflexivity.
Defined.

(** * More on the sanitizer *)

Lemma safe_then_kept (c : ascii) : safe_char c = true -> kept_char c = true.
Proof.
  unfold kept_char, safe_char.
  destruct (PyStr.between "a" "z" c), (PyStr.between "A" "Z" c),
    (PyStr.between "0" "9" c), (Ascii.eqb c "_"), (Ascii.eqb c " "), (Ascii.eqb c ".");
    simpl; intros; solve [reflexivity | discriminate].
Qed.

Lemma safe_not_space (c : ascii) : safe_char c = true -> Ascii.eqb c " " = false.
Proof.
  destruct (Ascii.eqb_spec c " ") as [->|]; [discriminate | done].
Qed.

Lemma sanitized_fixes_safe (s : string) :
  PyStr.all safe_char s = true -> sanitized s = s.
Proof.
  unfold sanitized, PyStr.replace.
  induction s as [|c s IH]; simpl; [done|].
  intros [Hc Hs]%andb_true_iff.
  rewrite (safe_then_kept _ Hc). simpl. rewrite (safe_not_space _ Hc).
  by rewrite IH.
Qed.

Lemma string_filter_length (p : ascii -> bool) (s : string) :
  String.length (PyStr.filter p s) <= String.length s.
Proof.
  induction s as [|c s IH]; simpl; [lia|]. destruct (p c); simpl; lia.
Qed.

Lemma string_map_length (f : ascii -> ascii) (s : string) :
  String.length (PyStr.map f s) = String.length s.
Proof. induction s as [|c s IH]; simpl; [done | by rewrite IH]. Qed.

(** X10. The sanitization of a name is idempotent, never lengthens the
    name, leaves none of the eleven unsafe characters, and is the
    identity on a name made only of letters, digits, underscore and
    dot. *)
Theorem X10_sanitized_idempotent (file : string) :
  sanitized (sanitized file) = sanitized file /\
  String.length (sanitized file) <= String.length file /\
  has_unsafe_char (sanitized file) = false /\
  (PyStr.all safe_char file = true -> sanitized file = file).
Proof.
  split; [apply sanitized_fixes_safe, sanitized_safe|].
  split; [unfold sanitized, PyStr.replace; rewrite string_map_length; apply string_filter_length|].
  split; [apply safe_name_no_unsafe, sanitized_safe|].
  apply sanitized_fixes_safe.
Qed.

(** When the loop leaves with a numbered name, every numbered name up to
    it exists and the next one does not. *)
Lemma counter_loop_run (fuel : nat) (d : folder) (p e n : string) (c : nat) (r : string) :
  counter_loop fuel d p e n c = Some r ->
  (r = n /\ path_exists d (numbered p c e) = false) \/
  (exists k, c <= k /\ r = numbered p k e /\
             (forall j, c <= j <= k -> path_exists d (numbered p j e) = true) /\
             path_exists d (numbered p (S k) e) = false).
Proof.
  revert n c. induction fuel as [|fuel IH]; intros n c H; [done|].
  simpl in H. destruct (path_exists d (numbered p c e)) eqn:Hc.
  - right. apply IH in H as [[-> H]|(k & Hk & -> & H1 & H2)].
    + exists c. split; [lia|]. split; [done|]. split; [|done].
      intros j Hj. by replace j with c by lia.
    + exists k. split; [lia|]. split; [done|]. split; [|done].
      intros j Hj. destruct (decide (j = c)) as [->|]; [done|]. apply H1. lia.
  - left. by injection H as ->.
Qed.

(** X11. When the name chosen by the loop of [prepare_files] is not the
    sanitized name itself, it is a numbered name [<prefix>_<n><ext>]
    with [n >= 1] that exists in the folder, as do all numbered names
    below it, while the next one does not: the loop stops at the last
    taken name, not at the first free one. *)
Theorem X11_numbered_name_exists (fuel : nat) (d : folder) (file name : string) :
  new_file_name fuel d file = Some name ->
  name <> sanitized file ->
  exists n, 1 <= n /\
    name = numbered (splitext (sanitized file)).1 n (splitext (sanitized file)).2 /\
    path_exists d name = true /\
    (forall j, 1 <= j <= n ->
       path_exists d (numbered (splitext (sanitized file)).1 j
                               (splitext (sanitized file)).2) = true) /\
    path_exists d (numbered (splitext (sanitized file)).1 (S n)
                            (splitext (sanitized file)).2) = false.
Proof.
  unfold new_file_name. destruct (splitext (sanitized file)) as [p e]. simpl.
  intros H Hne. apply counter_loop_run in H as [[-> _]|(k & Hk & -> & H1 & H2)]; [done|].
  exists k. split; [done|]. split; [done|]. split; [apply H1; lia|]. by split.
Qed.

(** X11, at a folder in which [a_b_1.mov] and [a_b_2.mov] exist: the
    name chosen for [a b.mov] is [a_b_2.mov], whose content is replaced. *)
Lemma X11_witness :
  new_file_name 5 numbered_taken "a b.mov" = Some "a_b_2.mov" /\
  path_exists numbered_taken "a_b_2.mov" = true /\
  convert_media (prepare_file "a b.mov" (logging_world numbered_taken ∅)).2
    = {[ "a_b.mov" := File "0"; "a_b_1.mov" := File "1"; "a_b_2.mov" := File "new" ]}.
Proof.
  destruct (X11_numbered_name_exists 5 numbered_taken "a b.mov" "a_b_2.mov")
    as (n & _ & _ & H & _).
  - vm_compute. reflexivity.
  - discriminate.
  - split; [vm_compute; reflexivity|]. split; [exact H|]. vm_compute. reflexivity.
Defined.

(** * What one rename does *)



(** * The whole pass of the sanitizer *)

(** What [prepare_files] is around its loop: the first record does not
    touch the folders, and neither does the last. *)
Lemma prepare_files_loop (E : engine) (w : world) :
  exists w0,
    same_folders w w0 /\
    prepare_files E w =
      (for_each (List.filter (path_isfile (convert_media w)) (os_listdir E (convert_media w)))
                prepare_file >>
       logging_info [Lit "Filenames prepared for processing."]) w0.
Proof.
  unfold prepare_files. unfold bind at 1.
  destruct (logging_info _ w) as [r0 w0] eqn:Hlog.
  assert (H0 : r0 = Ok tt /\ same_folders w w0).
  { unfold logging_info in Hlog. destruct (handlers_ready w);
      injection Hlog as <- <-; split; done. }
  destruct H0 as [-> Hsame]. exists w0. split; [done|].
  unfold bind at 1, get. destruct Hsame as [-> _]. reflexivity.
Qed.

Lemma then_logging_info (m : M unit) (msg : list piece) (w : world) :
  convert_media ((m >> logging_info msg) w).2 = convert_media (m w).2 /\
  (forall w', (m >> logging_info msg) w = (Ok tt, w') -> exists w1, m w = (Ok tt, w1) /\
     convert_media w' = convert_media w1).
Proof.
  unfold bind. destruct (m w) as [[[]|e|c|] w1]; simpl; try done.
  unfold logging_info. destruct (handlers_ready w1); simpl; split; try done;
    intros w' [= <-]; eauto.
Qed.

(** One step of the loop on a name that is not a directory neither makes
    nor removes a directory. *)
Lemma prepare_file_dirs (file : string) (w : world) :
  (forall e, convert_media w !! file <> Some (Dir e)) ->
  forall name e,
    convert_media (prepare_file file w).2 !! name = Some (Dir e) <->
    convert_media w !! name = Some (Dir e).
Proof.
  intros Hfile name e.
  destruct (has_unsafe_char file) eqn:Hu; [|by rewrite prepare_file_safe].
  destruct (prepare_file_unsafe file w Hu) as (new & _ & _ & ->).
  unfold bind, rename_in_convert_media, os_rename.
  destruct (convert_media w !! file) as [[c|e0]|] eqn:Hsrc; [| by destruct (Hfile e0) | done].
  destruct (names_directory new); [done|].
  assert (Hmoved :
    (forall e', convert_media w !! new <> Some (Dir e')) ->
    <[new := File c]> (delete file (convert_media w)) !! name = Some (Dir e) <->
    convert_media w !! name = Some (Dir e)).
  { intros Hnew. destruct (decide (name = new)) as [->|Hn].
    - rewrite lookup_insert_eq. split; [done|]. intros H. by destruct (Hnew e).
    - rewrite lookup_insert_ne by done. destruct (decide (name = file)) as [->|Hf].
      + rewrite lookup_delete_eq, Hsrc. split; done.
      + by rewrite lookup_delete_ne. }
  destruct (convert_media w !! new) as [[c'|e']|] eqn:Hdst; [| done |];
    unfold logging_info; simpl; destruct (handlers_ready w); simpl;
    apply Hmoved; done.
Qed.

Lemma prepare_loop_dirs (l : list string) (w : world) :
  (forall f, f ∈ l -> forall e, convert_media w !! f <> Some (Dir e)) ->
  forall name e,
    convert_media (for_each l prepare_file w).2 !! name = Some (Dir e) <->
    convert_media w !! name = Some (Dir e).
Proof.
  revert w. induction l as [|f l IH]; intros w Hl name e; [done|].
  pose proof (prepare_file_dirs f w (Hl f ltac:(by left))) as Hstep.
  simpl. unfold bind.
  destruct (prepare_file f w) as [[[]|x|c|] w1] eqn:Hf; simpl in *; try apply Hstep.
  rewrite IH; [apply Hstep|].
  intros g Hg e' Hd. apply Hstep in Hd. by eapply (Hl g); [right|].
Qed.

(** X8. [prepare_files] neither creates nor removes nor renames a
    directory of convert_media/: however the pass ends, the folder has
    the same directories after it as before. *)
Theorem X8_directories_are_left_alone (E : engine) (w : world) (name : string) (e : bool) :
  convert_media (prepare_files E w).2 !! name = Some (Dir e) <->
  convert_media w !! name = Some (Dir e).
Proof.
  destruct (prepare_files_loop E w) as (w0 & [Hcm _] & ->).
  rewrite (proj1 (then_logging_info _ _ _)).
  rewrite prepare_loop_dirs, Hcm; [done|].
  intros f [_ Hf]%list_elem_of_In%filter_In e' Hd.
  rewrite Hcm in Hd. unfold path_isfile in Hf. by rewrite Hd in Hf.
Qed.




(** * The script as a whole *)

Lemma bind_ok_inv {A B} (m : M A) (k : A -> M B) (w w' : world) (b : B) :
  bind m k w = (Ok b, w') -> exists a w1, m w = (Ok a, w1) /\ k a w1 = (Ok b, w').
Proof.
  unfold bind. destruct (m w) as [[a|e|c|] w1]; try done. eauto.
Qed.

Lemma Grows_rename (src dst : string) : Grows (rename_in_convert_media src dst).
Proof.
  intros w r w'. unfold rename_in_convert_media.
  destruct (os_rename _ _ _); intros [= <- <-]; [|apply grows_refl].
  split; [done|]. split; exists []; simpl; by rewrite app_nil_r.
Qed.

Lemma Grows_prepare_file (file : string) : Grows (prepare_file file).
Proof.
  unfold prepare_file. destruct (has_unsafe_char file); [|apply Grows_ret].
  apply Grows_bind; [apply Grows_get|intros w].
  destruct (new_file_name _ _ _); [|apply Grows_out_of_fuel].
  apply Grows_if; [|apply Grows_ret].
  apply Grows_bind; [apply Grows_rename | intros _; apply Grows_logging_info].
Qed.

Lemma Grows_prepare_files (E : engine) : Grows (prepare_files E).
Proof.
  unfold prepare_files.
  apply Grows_bind; [apply Grows_logging_info|intros _].
  apply Grows_bind; [apply Grows_get|intros w].
  apply Grows_bind; [|intros _; apply Grows_logging_info].
  apply Grows_for_each. intros f. apply Grows_prepare_file.
Qed.

Lemma Grows_validate_loop (E : engine) (files acc : list string) :
  Grows (validate_loop E acc files).
Proof.
  revert acc. induction files as [|file files IH]; intros acc; simpl.
  - apply Grows_ret.
  - apply Grows_bind; [|intros a; apply IH].
    unfold validate_file. apply Grows_try_except.
    + apply Grows_bind; [apply Grows_check_output|intros out]. grows_auto.
    + intros e h. destruct e; intros [= <-]. grows_auto.
Qed.

Lemma Grows_run_ffmpeg (E : engine) (file_path output_file output_name : string) :
  Grows (run_ffmpeg E file_path output_file output_name).
Proof.
  intros u r u'. unfold run_ffmpeg. cbn zeta.
  destruct (t_stdout (ffmpeg E file_path output_file)),
    (t_stderr (ffmpeg E file_path output_file)),
    (t_written (ffmpeg E file_path output_file));
    intros [= <- <-];
    first [ apply grows_add_trace
          | split; [done|]; split; [exists []; simpl; by rewrite app_nil_r | by eexists] ].
Qed.

Lemma Grows_convert_video (E : engine) (file : string) : Grows (convert_video E file).
Proof.
  unfold convert_video.
  apply Grows_bind; [apply Grows_logging_info|intros _].
  apply Grows_try_except.
  - apply Grows_bind; [apply Grows_get|intros w].
    destruct (get_output_file_name _ _ _); [|apply Grows_out_of_fuel].
    apply Grows_bind; [|intros result; grows_auto].
    apply Grows_run_ffmpeg.
  - intros e h. destruct e; intros [= <-]. apply Grows_logging_error.
Qed.

Lemma Grows_inspect_files (E : engine) (files : list string) : Grows (inspect_files E files).
Proof.
  unfold inspect_files. destruct files; [apply Grows_logging_info|].
  apply Grows_bind; [apply Grows_logging_info|intros _].
  apply Grows_bind; [|intros _; apply Grows_logging_info].
  apply Grows_for_each. intros f. apply Grows_inspect_file.
Qed.

Lemma Grows_inspect_converted_files (E : engine) : Grows (inspect_converted_files E).
Proof.
  unfold inspect_converted_files.
  apply Grows_bind; [apply Grows_get|intros w].
  destruct (List.filter _ _); [apply Grows_logging_info|].
  apply Grows_bind; [apply Grows_logging_info|intros _].
  apply Grows_bind; [|intros _; apply Grows_logging_info].
  apply Grows_for_each. intros f. apply Grows_inspect_file.
Qed.

Lemma Grows_stages (E : engine) (valid : list string) :
  Grows (match valid with
         | _ :: _ =>
             inspect_files E valid >>
             for_each valid (convert_video E) >>
             inspect_converted_files E
         | [] => ret tt
         end).
Proof.
  destruct valid; [apply Grows_ret|].
  apply Grows_bind; [apply Grows_inspect_files|intros _].
  apply Grows_bind; [|intros _; apply Grows_inspect_converted_files].
  apply Grows_for_each. intros f. apply Grows_convert_video.
Qed.

(** What [main] is once [ffmpeg -version] has succeeded in a process
    whose logging is not yet set up: the version record is dropped, and
    the two records of [setup_logging] and [generate_batch_id] open the
    log. *)
Lemma main_started (E : engine) (w : world) :
  handlers_ready w = false ->
  returncode (ffmpeg_version E) = 0%Z ->
  let batch_id := now E ++ "_" ++ PyStr.take 8 (uuid4 E) in
  let w2 :=
    add_log {| levelname := INFO;
               message := [Lit "Begin processing conversion batch ID: "; Lit batch_id] |}
      (add_log {| levelname := INFO; message := [Lit "Logging initiated."] |}
         (set_handlers_ready true (add_trace (Argv ["ffmpeg"; "-version"]) w))) in
  main E w =
    (prepare_files E >>
     let! u := get in
     let files :=
       List.filter (path_isfile (convert_media u)) (os_listdir E (convert_media u)) in
     let! valid_video_files := validate_files E files in
     after_validation E batch_id valid_video_files) w2.
Proof.
  intros Hready Hrc. simpl.
  unfold main. unfold bind at 1. unfold check_ffmpeg, try_except.
  unfold bind at 1, run_checked. rewrite Hrc. simpl.
  unfold bind at 1, logging_info at 1. simpl. rewrite Hready.
  unfold ret at 1. cbn iota beta.
  unfold bind at 1, setup_directories, ret at 1.
  unfold bind at 1, setup_logging. unfold bind at 1, modify.
  unfold bind at 1, logging_info at 1. simpl handlers_ready. cbn iota.
  unfold ret at 1.
  unfold bind at 1, generate_batch_id. unfold bind at 1, logging_info at 1.
  simpl handlers_ready. cbn iota. unfold ret at 1. reflexivity.
Qed.

(** [check_ffmpeg] when the version command fails before logging is set
    up. *)
Lemma check_ffmpeg_missing (E : engine) (w : world) :
  handlers_ready w = false ->
  (returncode (ffmpeg_version E) =? 0)%Z = false ->
  check_ffmpeg E w =
    (SysExit 1,
     add_stdout [Lit "Command output (stderr): ";
                 Lit (PyStr.strip (stderr_text (ffmpeg_version E)))]
       (add_stdout [Lit "Error: FFmpeg is not installed or not in the system PATH."]
          (add_stderr {| levelname := ERROR;
                         message := [Lit "Command output (stderr): ";
                                     Lit (PyStr.strip (stderr_text (ffmpeg_version E)))] |}
             (add_stderr {| levelname := ERROR;
                            message := [Lit "Error: FFmpeg is not installed or not in the system PATH."] |}
                (add_trace (Argv ["ffmpeg"; "-version"]) w))))).
Proof.
  intros Hready Hrc. unfold check_ffmpeg, try_except.
  unfold bind at 1, run_checked. rewrite Hrc.
  unfold bind, logging_error, print, modify, sys_exit.
  repeat (cbn [handlers_ready add_trace add_stderr]; rewrite Hready). reflexivity.
Qed.

(** X1. A run in which [ffmpeg -version] exits with a non-zero status
    stops with [sys.exit(1)] straight after that one command: logging is
    not set up yet, so the two error messages go to the standard error
    stream and, printed, to the standard output; the log stays as it
    was, no other program is launched and neither folder is touched. *)
Theorem X1_failed_version_check_stops_the_run (E : engine) (w : world) :
  handlers_ready w = false ->
  returncode (ffmpeg_version E) <> 0%Z ->
  exists w',
    main E w = (SysExit 1, w') /\
    same_folders w w' /\
    log w' = log w /\
    trace w' = (trace w ++ [Argv ["ffmpeg"; "-version"]])%list /\
    stderr w' =
      (stderr w ++
       [ {| levelname := ERROR;
            message := [Lit "Error: FFmpeg is not installed or not in the system PATH."] |};
         {| levelname := ERROR;
            message := [Lit "Command output (stderr): ";
                        Lit (PyStr.strip (stderr_text (ffmpeg_version E)))] |} ])%list /\
    stdout w' =
      (stdout w ++
       [ [Lit "Error: FFmpeg is not installed or not in the system PATH."];
         [Lit "Command output (stderr): ";
          Lit (PyStr.strip (stderr_text (ffmpeg_version E)))] ])%list.
Proof.
  intros Hready Hrc. apply Z.eqb_neq in Hrc.
  eexists. split.
  - unfold main. unfold bind at 1. rewrite (check_ffmpeg_missing E w Hready Hrc).
    reflexivity.
  - simpl. rewrite <- !app_assoc. simpl. repeat split.
Qed.

(** X1, at [no_ffmpeg_engine] and a folder with one file. *)
Lemma X1_witness :
  handlers_ready (initial_world spaced_name ∅) = false /\
  returncode (ffmpeg_version no_ffmpeg_engine) <> 0%Z /\
  exists w',
    main no_ffmpeg_engine (initial_world spaced_name ∅) = (SysExit 1, w') /\
    convert_media w' = spaced_name /\
    log w' = [] /\
    trace w' = [Argv ["ffmpeg"; "-version"]].
Proof.
  split; [reflexivity|]. split; [discriminate|].
  destruct (X1_failed_version_check_stops_the_run no_ffmpeg_engine (initial_world spaced_name ∅))
    as (w' & Hmain & [Hin _] & Hlog & Htrace & _); [reflexivity|discriminate|].
  exists w'. split; [exact Hmain|]. split; [exact Hin|]. split; [exact Hlog|exact Htrace].
Defined.

(** X2. In a run that starts with logging not set up and finds ffmpeg,
    the log is continued first by the record [Logging initiated.] and
    second by the record that names the batch (the version line of
    [check_ffmpeg] is logged before [setup_logging] and is dropped), the
    first command launched is [ffmpeg -version], and when the script
    reaches its end, the last record is the completion record of the
    same batch. *)
Theorem X2_log_opens_and_closes_with_the_batch (E : engine) (w w' : world) (r : outcome unit) :
  handlers_ready w = false ->
  returncode (ffmpeg_version E) = 0%Z ->
  main E w = (r, w') ->
  let batch_id := now E ++ "_" ++ PyStr.take 8 (uuid4 E) in
  (exists rest : list record,
     log w' =
       (log w ++
        {| levelname := INFO; message := [Lit "Logging initiated."] |} ::
        {| levelname := INFO;
           message := [Lit "Begin processing conversion batch ID: "; Lit batch_id] |} ::
        rest)%list) /\
  (exists cmds : list command,
     trace w' = (trace w ++ Argv ["ffmpeg"; "-version"] :: cmds)%list) /\
  (r = Ok tt ->
   last (log w') =
     Some {| levelname := INFO;
             message := [Lit "Processing complete for batch ID "; Lit batch_id;
                         Lit "."; Lit newline] |}).
Proof.
  intros Hready Hrc Hmain batch_id.
  rewrite (main_started E w Hready Hrc) in Hmain. fold batch_id in Hmain.
  set (w2 := add_log _ (add_log _ _)) in Hmain.
  assert (Hrest :
    Grows (prepare_files E >>
           let! u := get in
           let files :=
             List.filter (path_isfile (convert_media u)) (os_listdir E (convert_media u)) in
           let! valid_video_files := validate_files E files in
           after_validation E batch_id valid_video_files)).
  { apply Grows_bind; [apply Grows_prepare_files|intros _].
    apply Grows_bind; [apply Grows_get|intros u]. cbn zeta.
    apply Grows_bind; [apply Grows_validate_loop|intros valid].
    unfold after_validation.
    apply Grows_bind; [apply Grows_stages|intros _; apply Grows_logging_info]. }
  destruct (Hrest _ _ _ Hmain) as (_ & [recs Hlog] & [cmds Htrace]).
  split; [|split].
  - exists recs. rewrite Hlog. subst w2. simpl. rewrite <- !app_assoc. reflexivity.
  - exists cmds. rewrite Htrace. subst w2. simpl. rewrite <- !app_assoc. reflexivity.
  - intros ->.
    apply bind_ok_inv in Hmain as (? & w3 & Hprep & Hmain).
    apply bind_ok_inv in Hmain as (u & w4 & Hget & Hmain). cbn zeta in Hmain.
    apply bind_ok_inv in Hmain as (valid & w5 & Hval & Hmain).
    unfold after_validation in Hmain.
    apply bind_ok_inv in Hmain as ([] & w6 & Hstages & Hmain).
    assert (Hr : handlers_ready w6 = true).
    { injection Hget as _ <-.
      rewrite (proj1 (Grows_stages E valid _ _ _ Hstages)).
      rewrite (proj1 (Grows_validate_loop E _ _ _ _ _ Hval)).
      rewrite (proj1 (Grows_prepare_files E _ _ _ Hprep)). reflexivity. }
    unfold logging_info in Hmain. rewrite Hr in Hmain. injection Hmain as <-.
    simpl. apply last_snoc.
Qed.

(** X2, at a run of [good_engine] over a folder with one file. *)
Lemma X2_witness :
  exists w',
    main good_engine (initial_world spaced_name ∅) = (Ok tt, w') /\
    hd_error (log w') = Some {| levelname := INFO; message := [Lit "Logging initiated."] |} /\
    hd_error (trace w') = Some (Argv ["ffmpeg"; "-version"]) /\
    last (log w') =
      Some {| levelname := INFO;
              message := [Lit "Processing complete for batch ID ";
                          Lit (now good_engine ++ "_" ++ PyStr.take 8 (uuid4 good_engine));
                          Lit "."; Lit newline] |}.
Proof.
  exists (main good_engine (initial_world spaced_name ∅)).2.
  assert (Hmain : main good_engine (initial_world spaced_name ∅) =
                  (Ok tt, (main good_engine (initial_world spaced_name ∅)).2))
    by (vm_compute; reflexivity).
  split; [exact Hmain|].
  destruct (X2_log_opens_and_closes_with_the_batch good_engine
              (initial_world spaced_name ∅) _ _ eq_refl eq_refl Hmain)
    as ([rest Hlog] & [cmds Htrace] & Hlast).
  split; [rewrite Hlog; reflexivity|].
  split; [rewrite Htrace; reflexivity|].
  apply Hlast. reflexivity.
Defined.

(** * Validation and the reports of the inspectors *)

Lemma validation_records_length (E : engine) (files : list string) :
  (forall f, f ∈ files -> streams_decode E f = true) ->
  length (concat (List.map (validation_records E) files))
  + 2 * length (List.filter (has_video E) files) = 2 * length files.
Proof.
  induction files as [|file files IH]; intros Hdec; [reflexivity|].
  cbn [List.map concat List.filter]. rewrite length_app.
  assert (Hrest : forall f, f ∈ files -> streams_decode E f = true)
    by (intros f Hf; apply Hdec; by right).
  specialize (IH Hrest).
  assert (Hfile : streams_decode E file = true) by (apply Hdec; by left).
  clear Hdec Hrest. rename Hfile into Hdec.
  unfold streams_decode in Hdec.
  unfold validation_records at 1, has_video at 1.
  destruct (ffprobe_streams E _) as [rc [out|]]; [|done]. cbn [fst snd].
  destruct (rc =? 0)%Z; cbn [andb]; [destruct (PyStr.contains _ _)|]; simpl in *; lia.
Qed.

Lemma validation_records_errors (E : engine) (files : list string) :
  Forall (fun r => levelname r = ERROR) (concat (List.map (validation_records E) files)).
Proof.
  induction files as [|file files IH]; [constructor|].
  cbn [List.map concat]. apply Forall_app. split; [|exact IH].
  unfold validation_records.
  destruct (ffprobe_streams E _) as [rc [out|]]; [|constructor]. cbn [fst snd].
  destruct (rc =? 0)%Z; [destruct (PyStr.contains _ _)|]; repeat constructor.
Qed.

Lemma filter_sublist {A} (P : A -> bool) (l : list A) : List.filter P l `sublist_of` l.
Proof.
  induction l as [|x l IH]; simpl; [constructor|].
  destruct (P x); by constructor.
Qed.

(** X3. With logging set up, when [validate_files] returns, its result is
    a sublist of the files it was given, in their order; it has written
    two ERROR records for each file it left out and nothing else; and a
    file whose probe exits with 0 but does not mention [video] is left
    out, with the record that it has no valid video stream. *)
Theorem X3_validation_accounts_for_every_file (E : engine) (files valid : list string)
    (w w' : world) :
  handlers_ready w = true ->
  validate_files E files w = (Ok valid, w') ->
  exists recs : list record,
    log w' = (log w ++ recs)%list /\
    valid `sublist_of` files /\
    length recs + 2 * length valid = 2 * length files /\
    Forall (fun r => levelname r = ERROR) recs /\
    forall file output,
      file ∈ files ->
      ffprobe_streams E (os_path_join CONVERT_MEDIA_FOLDER file) = (0%Z, Decoded output) ->
      PyStr.contains "video" (PyStr.lower output) = false ->
      (file ∉ valid) /\
      {| levelname := ERROR;
         message := [Lit "File "; Lit q; Lit file; Lit q;
                     Lit " does not contain a valid video stream."] |} ∈ recs.
Proof.
  intros Hready Hrun. unfold validate_files in Hrun.
  pose proof (validate_loop_ok_decodes _ _ _ _ _ _ Hrun) as Hdec.
  rewrite validate_loop_spec in Hrun by done. cbn [app] in Hrun.
  injection Hrun as <- <-.
  eexists. split; [reflexivity|].
  split; [apply filter_sublist|].
  split; [by apply validation_records_length|].
  split; [apply validation_records_errors|].
  intros file output Hin Hprobe Hvideo. split.
  - intros [_ Hv]%list_elem_of_In%filter_In.
    unfold has_video in Hv. rewrite Hprobe in Hv. cbn [fst snd] in Hv.
    by rewrite Hvideo, andb_false_r in Hv.
  - apply list_elem_of_In, in_concat. exists (validation_records E file). split.
    + apply in_map. by apply list_elem_of_In.
    + unfold validation_records. rewrite Hprobe. cbn [fst snd Z.eqb].
      rewrite Hvideo. by left.
Qed.

(** X3, at three files the second of which has no video stream. *)
Lemma X3_witness :
  exists w',
    validate_files audio_only_engine ["a.mov"; "song.mp3"; "b.mov"] (logging_world ∅ ∅)
      = (Ok ["a.mov"; "b.mov"], w') /\
    exists recs : list record,
      log w' = recs /\ length recs = 2 /\
      {| levelname := ERROR;
         message := [Lit "File "; Lit q; Lit "song.mp3"; Lit q;
                     Lit " does not contain a valid video stream."] |} ∈ recs.
Proof.
  destruct (X3_validation_accounts_for_every_file audio_only_engine
              ["a.mov"; "song.mp3"; "b.mov"] ["a.mov"; "b.mov"] (logging_world ∅ ∅)
              (validate_files audio_only_engine ["a.mov"; "song.mp3"; "b.mov"]
                 (logging_world ∅ ∅)).2 eq_refl)
    as (recs & Hlog & _ & Hlen & _ & Hsong); [vm_compute; reflexivity|].
  eexists. split; [vm_compute; reflexivity|].
  exists recs. split; [exact Hlog|]. split; [simpl in Hlen; lia|].
  apply (Hsong "song.mp3" ""); [|reflexivity|reflexivity].
  apply elem_of_cons. right. by left.
Defined.

(** ** Durations that are not numbers *)

Lemma float_of_str_cases (s : string) :
  float_of_str s = Raise ValueError \/ exists f, float_of_str s = Ok f.
Proof.
  unfold float_of_str.
  destruct (if PyStr.mem "_" s then _ else _) as [s1|]; [|by left].
  destruct (split_sign _) as [neg body].
  destruct (_ || _)%bool; [right; eauto|].
  destruct (String.eqb _ "nan"); [right; eauto|].
  destruct (parse_number _ _); [right; eauto | by left].
Qed.

Lemma format_duration_not_finite (f : spec_float) :
  is_finite f = false -> format_duration f = Raise ValueError.
Proof.
  destruct f as [s|s| |s m e]; try discriminate; intros _.
  - destruct s; vm_compute; reflexivity.
  - vm_compute; reflexivity.
Qed.

(** X12. When the format probe, run through the shell, exits with 0 and
    reports a duration that [float] rejects (such as [N/A]) or reads as
    [nan] or an infinity, the inspector does not contain the error:
    [ValueError] leaves it at that file, after the probe and before any
    record is written. *)
Theorem X12_unusable_duration_ends_inspection (E : engine)
    (folder_name heading where_ file raw : string)
    (items fitems : list (string * pyval)) (s : string) (w u : world) :
  run_shell E (os_path_join folder_name file) w
    = (Ok (0%Z, Decoded (Document raw (PDict items))), u) ->
  assoc "format" items = Some (PDict fitems) ->
  assoc "duration" fitems = Some (PStr s) ->
  (forall f, float_of_str s = Ok f -> is_finite f = false) ->
  inspect_file E folder_name heading where_ file w =
    (Raise ValueError,
     add_trace (Shell (ffprobe_format_command (os_path_join folder_name file))) u).
Proof.
  intros Hprobe Hformat Hduration Hbad.
  unfold inspect_file, try_except. unfold bind at 1. rewrite Hprobe.
  unfold bind at 1, check_output. cbn [fst snd Z.eqb].
  unfold report. unfold bind at 1, lift at 1, json_loads.
  unfold bind at 1, lift at 1.
  assert (Hrep : format_report (PDict items) = Raise ValueError).
  { unfold format_report, obind. cbn [getitem]. rewrite Hformat. cbn [getitem].
    rewrite Hduration. cbn [py_float].
    destruct (float_of_str_cases s) as [->|[f Hf]]; [reflexivity|].
    rewrite Hf, (format_duration_not_finite f (Hbad f Hf)). reflexivity. }
  rewrite Hrep. reflexivity.
Qed.

(** X12, at a probe that reports the duration [N/A]. *)
Lemma X12_witness :
  float_of_str "N/A" = Raise ValueError /\
  inspect_file no_duration_engine CONVERT_MEDIA_FOLDER "File: " "inspect_file" "a.mp4"
    (logging_world two_clips ∅) =
  (Raise ValueError,
   add_trace (Shell (ffprobe_format_command "convert_media/a.mp4"))
     (logging_world two_clips ∅)).
Proof.
  split; [vm_compute; reflexivity|].
  apply (X12_unusable_duration_ends_inspection no_duration_engine CONVERT_MEDIA_FOLDER
           "File: " "inspect_file" "a.mp4" "{...}"
           [("streams", PList []);
            ("format", PDict [("duration", PStr "N/A"); ("size", PStr "1048576");
                              ("bit_rate", PStr "128000")])]
           [("duration", PStr "N/A"); ("size", PStr "1048576"); ("bit_rate", PStr "128000")]
           "N/A" (logging_world two_clips ∅) (logging_world two_clips ∅)).
  - reflexivity.
  - reflexivity.
  - reflexivity.
  - intros f Hf. vm_compute in Hf. discriminate.
Defined.

(** ** The records of a stream *)

(** X13. What an inspector writes for one stream of a report, with
    logging set up.  A video stream gives the record of its codec only
    if it names one, then its resolution, then its aspect ratio or the
    words [Not available]; a video stream without a width is not
    reported: [KeyError] leaves the inspector.  A stream that is neither
    video nor audio gives no record. *)
Theorem X13_stream_records (items : list (string * pyval)) (w : world) :
  handlers_ready w = true ->
  (assoc "codec_type" items = Some (PStr "video") ->
   forall width height,
     assoc "width" items = Some width ->
     assoc "height" items = Some height ->
     report_stream (PDict items) w =
       (Ok tt,
        extend
          (match assoc "codec_name" items with
           | Some codec_name =>
               [ {| levelname := INFO;
                    message := [Lit "Video Codec: "; StrOf codec_name] |} ]
           | None => []
           end ++
           [ {| levelname := INFO;
                message := [Lit "Resolution: "; StrOf width; Lit "x"; StrOf height] |};
             {| levelname := INFO;
                message :=
                  match assoc "display_aspect_ratio" items with
                  | Some dar => [Lit "Display Aspect Ratio: "; StrOf dar]
                  | None => [Lit "Display Aspect Ratio: Not available"]
                  end |} ])%list
          [] w)) /\
  (assoc "codec_type" items = Some (PStr "video") ->
   assoc "width" items = None ->
   (report_stream (PDict items) w).1 = Raise (KeyError "width")) /\
  (forall t,
     assoc "codec_type" items = Some (PStr t) ->
     t <> "video" -> t <> "audio" ->
     report_stream (PDict items) w = (Ok tt, w)).
Proof.
  intros Hready. split; [|split].
  - intros Htype width height Hwidth Hheight.
    unfold report_stream, bind, lift. cbn [getitem contains_key].
    rewrite Htype, Hwidth, Hheight.
    change (eq_str (PStr "video") "video") with true. cbn iota.
    destruct (assoc "codec_name" items) as [codec_name|];
      destruct (assoc "display_aspect_ratio" items) as [dar|];
      unfold ret;
      repeat (rewrite logging_info_ready by exact Hready; cbn iota);
      rewrite ?extend_extend; try reflexivity.
    all: rewrite logging_info_ready by exact Hready; cbn iota;
      rewrite ?extend_extend; reflexivity.
  - intros Htype Hwidth.
    unfold report_stream, bind, lift. cbn [getitem contains_key].
    rewrite Htype, Hwidth.
    change (eq_str (PStr "video") "video") with true. cbn iota.
    destruct (assoc "codec_name" items) as [codec_name|]; unfold ret, logging_info;
      rewrite ?Hready; reflexivity.
  - intros t Htype Hvideo Haudio.
    unfold report_stream, bind, lift. cbn [getitem contains_key].
    rewrite Htype. cbn [eq_str].
    apply String.eqb_neq in Hvideo, Haudio. rewrite Hvideo, Haudio. reflexivity.
Qed.

(** X13, at a video stream with a width and a height only. *)
Lemma X13_witness :
  (report_stream bare_video_stream (logging_world ∅ ∅)).1 = Ok tt /\
  log (report_stream bare_video_stream (logging_world ∅ ∅)).2 =
    [ {| levelname := INFO;
         message := [Lit "Resolution: "; StrOf (PInt 640); Lit "x"; StrOf (PInt 480)] |};
      {| levelname := INFO; message := [Lit "Display Aspect Ratio: Not available"] |} ].
Proof.
  destruct (X13_stream_records
              [("codec_type", PStr "video"); ("width", PInt 640); ("height", PInt 480)]
              (logging_world ∅ ∅) eq_refl) as [Hvideo _].
  unfold bare_video_stream.
  rewrite (Hvideo eq_refl (PInt 640) (PInt 480) eq_refl eq_refl).
  split; reflexivity.
Defined.

(** ** A folder without regular files *)

Lemma filter_isfile_nil (d : folder) (names : list string) :
  (forall name content, d !! name <> Some (File content)) ->
  List.filter (path_isfile d) names = [].
Proof.
  intros Hnone. induction names as [|name names IH]; [reflexivity|].
  simpl. rewrite IH. unfold path_isfile.
  destruct (d !! name) as [[content|e]|] eqn:Hname; try reflexivity.
  by destruct (Hnone name content).
Qed.

(** X14. When converted_media/ holds no regular file (it is empty or has
    only directories), [inspect_converted_files] writes the one notice
    that no converted file was found: it launches no probe, and the
    headings of an inspection are not written. *)
Theorem X14_nothing_converted_one_notice (E : engine) (w : world) :
  handlers_ready w = true ->
  (forall name content, converted_media w !! name <> Some (File content)) ->
  inspect_converted_files E w =
    (Ok tt,
     add_log {| levelname := INFO;
                message :=
                  [Lit "No converted video files found in the converted_media folder."] |}
             w).
Proof.
  intros Hready Hnone. unfold inspect_converted_files, bind, get.
  rewrite (filter_isfile_nil _ _ Hnone). unfold logging_info. rewrite Hready. reflexivity.
Qed.

(** X14, at a converted_media/ that holds one directory. *)
Lemma X14_witness :
  log (inspect_converted_files good_engine (logging_world ∅ only_subdir)).2 =
    [ {| levelname := INFO;
         message :=
           [Lit "No converted video files found in the converted_media folder."] |} ] /\
  trace (inspect_converted_files good_engine (logging_world ∅ only_subdir)).2 = [].
Proof.
  rewrite (X14_nothing_converted_one_notice good_engine (logging_world ∅ only_subdir) eq_refl).
  - split; reflexivity.
  - intros name content. unfold logging_world, only_subdir. simpl.
    intros [[= <-] Hd]%lookup_singleton_Some. discriminate.
Defined.

(** * What a whole run does to the folders *)

Section care.

Lemma careful_refl (w : world) : careful w w.
Proof. split; [done|]. intros name content H. by exists name. Qed.

Lemma careful_trans (w1 w2 w3 : world) : careful w1 w2 -> careful w2 w3 -> careful w1 w3.
Proof.
  intros [H1 H2] [H3 H4]. split; [by etrans|].
  intros name content H. destruct (H4 _ _ H) as [name1 H']. by apply H2 in H'.
Qed.

Lemma same_folders_careful (w w' : world) : same_folders w w' -> careful w w'.
Proof.
  intros [H1 H2]. split; [by rewrite H2|].
  intros name content H. rewrite H1 in H. by exists name.
Qed.

End care.

Lemma Careful_rename (src dst : string) : Careful (rename_in_convert_media src dst).
Proof.
  intros w r w'. unfold rename_in_convert_media.
  destruct (os_rename _ _ _) as [d'|] eqn:Hrename; intros [= <- <-]; [|apply careful_refl].
  split; [done|]. intros name content. simpl.
  unfold os_rename in Hrename.
  destruct (convert_media w !! src) as [[c|e]|] eqn:Hsrc; [| |done];
    (destruct (names_directory dst); [done|]).
  - destruct (convert_media w !! dst) as [[c'|e']|]; [|done|];
      injection Hrename as <-;
      (destruct (decide (name = dst)) as [->|Hn];
       [rewrite lookup_insert_eq; intros [= <-]; by exists src
       |rewrite lookup_insert_ne by done;
        intros [_ H]%lookup_delete_Some; by exists name]).
  - destruct (convert_media w !! dst) as [[c'|[]]|]; try done;
      injection Hrename as <-;
      (destruct (decide (name = dst)) as [->|Hn];
       [rewrite lookup_insert_eq; done
       |rewrite lookup_insert_ne by done;
        intros [_ H]%lookup_delete_Some; by exists name]).
Qed.

(** * Runs from a tidy state *)

Lemma same_folders_tidy (w w' : world) : same_folders w w' -> tidy w -> tidy w'.
Proof. intros [H1 H2] Ht name content. rewrite H1, H2. apply Ht. Qed.

Lemma Keeps_Steady {A} (m : M A) : Keeps m -> Steady m.
Proof.
  intros Hm w r w' Ht H. apply Hm in H.
  split; [by apply same_folders_careful | by eapply same_folders_tidy].
Qed.

Lemma Steady_bind_ok {A B} (P : A -> Prop) (m : M A) (k : A -> M B) :
  Steady m ->
  (forall w a w', m w = (Ok a, w') -> P a) ->
  (forall a, P a -> Steady (k a)) ->
  Steady (bind m k).
Proof.
  intros Hm HP Hk w r w' Ht. unfold bind.
  destruct (m w) as [[a|e|c|] w1] eqn:H1.
  - intros H2. destruct (Hm _ _ _ Ht H1) as [Hc1 Ht1].
    destruct (Hk a (HP _ _ _ H1) _ _ _ Ht1 H2) as [Hc2 Ht2].
    split; [by eapply careful_trans | done].
  - intros [= <- <-]. by eapply Hm.
  - intros [= <- <-]. by eapply Hm.
  - intros [= <- <-]. by eapply Hm.
Qed.

Lemma Steady_bind {A B} (m : M A) (k : A -> M B) :
  Steady m -> (forall a, Steady (k a)) -> Steady (bind m k).
Proof.
  intros Hm Hk. apply (Steady_bind_ok (fun _ => True)); [done|done|]. intros a _. apply Hk.
Qed.

(** What follows a [get] may rely on the state being tidy. *)
Lemma Steady_get_bind {B} (k : world -> M B) :
  (forall u, tidy u -> Steady (k u)) -> Steady (bind get k).
Proof. intros Hk w r w' Ht. unfold bind, get. by apply Hk. Qed.

Lemma Steady_for_each {A} (l : list A) (body : A -> M unit) :
  (forall x, x ∈ l -> Steady (body x)) -> Steady (for_each l body).
Proof.
  induction l as [|x l IH]; intros Hb; simpl.
  - apply Keeps_Steady, Keeps_ret.
  - apply Steady_bind; [apply Hb; by left | intros _; apply IH].
    intros y Hy. apply Hb. by right.
Qed.

(** A rename to a literal name. *)
Lemma Steady_rename (src dst : string) :
  shell_literal dst = true -> Steady (rename_in_convert_media src dst).
Proof.
  intros Hdst w r w' Ht H. split; [by eapply Careful_rename|].
  unfold rename_in_convert_media in H.
  destruct (os_rename _ _ _) as [d'|] eqn:Hrename; injection H as <- <-; [|done].
  intros name content. simpl.
  destruct (decide (name = dst)) as [->|Hn]; [done|].
  intros [H|H]; [|by eapply Ht; right].
  assert (Hold : d' !! name = Some (File content) ->
                 convert_media w !! name = Some (File content)).
  { unfold os_rename in Hrename.
    destruct (convert_media w !! src) as [[c|e]|]; [| |done];
      (destruct (names_directory dst); [done|]).
    - destruct (convert_media w !! dst) as [[c'|e']|]; [|done|];
        injection Hrename as <-; rewrite lookup_insert_ne by done;
        by intros [_ H']%lookup_delete_Some.
    - destruct (convert_media w !! dst) as [[c'|[]]|]; try done;
        injection Hrename as <-; rewrite lookup_insert_ne by done;
        by intros [_ H']%lookup_delete_Some. }
  eapply Ht. left. by apply Hold.
Qed.

Lemma Steady_prepare_files (E : engine) : Steady (prepare_files E).
Proof.
  unfold prepare_files.
  apply Steady_bind; [apply Keeps_Steady, Keeps_logging_info|intros _].
  apply Steady_bind; [apply Keeps_Steady, Keeps_get|intros w].
  apply Steady_bind; [|intros _; apply Keeps_Steady, Keeps_logging_info].
  apply Steady_for_each. intros file _. unfold prepare_file.
  destruct (has_unsafe_char file); [|apply Keeps_Steady, Keeps_ret].
  apply Steady_bind; [apply Keeps_Steady, Keeps_get|intros u].
  destruct (new_file_name _ _ _) as [new_name|] eqn:Hnew;
    [|intros ? ? ? ? [= <- <-]; split; [apply careful_refl | done]].
  destruct (bool_decide _); [|apply Keeps_Steady, Keeps_ret].
  apply Steady_bind; [|intros _; apply Keeps_Steady, Keeps_logging_info].
  apply Steady_rename, safe_literal. by eapply new_file_name_safe.
Qed.

(** The output name of a literal name is literal. *)
Lemma output_name_literal (fuel : nat) (d : folder) (file name : string) :
  shell_literal file = true ->
  get_output_file_name fuel d file = Some name -> shell_literal name = true.
Proof.
  intros Hfile Hname.
  apply get_output_file_name_spec in Hname as (k & -> & _).
  assert (Hp : shell_literal (splitext file).1 = true).
  { rewrite <- (splitext_app file), shell_literal_app in Hfile.
    by apply andb_true_iff in Hfile as [? _]. }
  destruct k as [|k]; simpl.
  - by rewrite shell_literal_app, Hp.
  - unfold converted_numbered. rewrite !shell_literal_app, Hp. simpl.
    rewrite (safe_literal (pretty (S k))); [reflexivity|].
    apply (all_weaken _ _ _ digit_safe), pretty_nat_digits.
Qed.

Lemma Steady_convert_video (E : engine) (file : string) :
  shell_literal file = true -> Steady (convert_video E file).
Proof.
  intros Hfile w r w' Ht Hrun.
  destruct (convert_video_run E file w) as (name & Hname & Hfree & Hin & Hout & _).
  cbn zeta in *. rewrite Hrun in *. cbn [snd] in *.
  apply (output_name_literal _ _ _ _ Hfile) in Hname.
  split; [split|].
  - rewrite Hout. destruct (t_written _); [by apply insert_subseteq | done].
  - intros n c H. rewrite Hin in H. by exists n.
  - intros n c. rewrite Hin, Hout. intros [H|H]; [by eapply Ht; left|].
    destruct (t_written _) as [content|]; [|by eapply Ht; right].
    destruct (decide (n = name)) as [->|Hn]; [done|].
    rewrite lookup_insert_ne in H by done. by eapply Ht; right.
Qed.

(** The valid files are among the files given. *)
Lemma validate_loop_subset (E : engine) (files acc valid : list string) (w w' : world) :
  validate_loop E acc files w = (Ok valid, w') ->
  forall f, f ∈ valid -> f ∈ acc \/ f ∈ files.
Proof.
  revert acc w. induction files as [|file files IH]; intros acc w H f Hf.
  - injection H as <- <-. by left.
  - simpl in H. unfold bind in H.
    destruct (validate_file E acc file w) as [[a| | |] w1] eqn:Hfile; try done.
    assert (Ha : a = (acc ++ [file])%list \/ a = acc).
    { unfold validate_file, try_except in Hfile. unfold bind at 1, check_output in Hfile.
      destruct (ffprobe_streams E _) as [rc [out|]]; cbn [fst snd id] in Hfile; [|done].
      destruct (rc =? 0)%Z.
      - destruct (PyStr.contains _ _); [injection Hfile as <- _; by left|].
        unfold bind, logging_error, ret in Hfile.
        repeat (destruct (handlers_ready _) in Hfile; cbn in Hfile);
          injection Hfile as <- _; by right.
      - unfold bind, logging_error, ret in Hfile.
        repeat (destruct (handlers_ready _) in Hfile; cbn in Hfile);
          injection Hfile as <- _; by right. }
    destruct (IH _ _ H f Hf) as [Hin|Hin]; [|right; by right].
    destruct Ha as [-> | ->]; [|by left].
    apply elem_of_app in Hin as [Hin|Hin%list_elem_of_singleton]; [by left|].
    right. subst. by left.
Qed.

(** The regular files of a folder of a tidy state have literal names. *)
Lemma tidy_files (E : engine) (w : world) :
  tidy w ->
  (forall f,
     f ∈ List.filter (path_isfile (convert_media w)) (os_listdir E (convert_media w)) ->
     shell_literal f = true) /\
  (forall name content,
     converted_media w !! name = Some (File content) -> shell_literal name = true).
Proof.
  intros Ht. split.
  - intros f [_ Hf]%list_elem_of_In%filter_In. unfold path_isfile in Hf.
    destruct (convert_media w !! f) as [[content|e]|] eqn:Hlookup; try done.
    eapply Ht. by left.
  - intros name content H. eapply Ht. by right.
Qed.

Lemma Steady_inspect_converted_files (E : engine) : Steady (inspect_converted_files E).
Proof.
  intros w r w' Ht H.
  apply inspect_converted_files_keeps in H; [|by apply (tidy_files E)].
  split; [by apply same_folders_careful | by eapply same_folders_tidy].
Qed.

Lemma Keeps_check_ffmpeg (E : engine) : Keeps (check_ffmpeg E).
Proof.
  unfold check_ffmpeg. apply Keeps_try_except.
  - apply Keeps_bind; [|intros result; keeps_auto].
    intros w r w'. unfold run_checked.
    destruct (_ =? 0)%Z; intros [= <- <-]; by split.
  - intros e h. destruct e; intros [= <-].
    assert (Hprint : forall m, Keeps (print m)).
    { intros m w r w' [= <- <-]. by split. }
    apply Keeps_bind; [apply Keeps_logging_error|intros _].
    apply Keeps_bind; [apply Keeps_logging_error|intros _].
    apply Keeps_bind; [apply Hprint|intros _].
    apply Keeps_bind; [apply Hprint|intros _].
    intros w r w' [= <- <-]. by split.
Qed.

Lemma Keeps_setup_logging (log_directory : string) : Keeps (setup_logging log_directory).
Proof.
  unfold setup_logging.
  apply Keeps_bind; [intros w r w' [= <- <-]; by split|intros _]. keeps_auto.
Qed.

Lemma Keeps_generate_batch_id (E : engine) : Keeps (generate_batch_id E).
Proof. unfold generate_batch_id. keeps_auto. Qed.

Lemma Steady_main (E : engine) : Steady (main E).
Proof.
  unfold main.
  apply Steady_bind; [apply Keeps_Steady, Keeps_check_ffmpeg|intros _].
  apply Steady_bind; [apply Keeps_Steady, Keeps_ret|intros _].
  apply Steady_bind; [apply Keeps_Steady, Keeps_setup_logging|intros _].
  apply Steady_bind; [apply Keeps_Steady, Keeps_generate_batch_id|intros batch_id].
  apply Steady_bind; [apply Steady_prepare_files|intros _].
  apply Steady_get_bind. intros u Hu. cbn zeta.
  apply (Steady_bind_ok (fun valid => forall f, f ∈ valid -> shell_literal f = true)).
  - apply Keeps_Steady, Keeps_validate_loop.
  - intros w valid w' Hvalid f Hf.
    destruct (validate_loop_subset _ _ _ _ _ _ Hvalid f Hf) as [Hin|Hin];
      [by apply elem_of_nil in Hin|].
    by apply (tidy_files E u).
  - intros valid Hlit. unfold after_validation.
    apply Steady_bind; [|intros _; apply Keeps_Steady, Keeps_logging_info].
    destruct valid as [|file valid]; [apply Keeps_Steady, Keeps_ret|].
    apply Steady_bind; [by apply Keeps_Steady, Keeps_inspect_files|intros _].
    apply Steady_bind; [|intros _; apply Steady_inspect_converted_files].
    apply Steady_for_each. intros f Hf. by apply Steady_convert_video, Hlit.
Qed.

(** X15. When the names of the regular files of both folders have no
    character that the shell expands inside double quotes (dollar sign,
    backquote, backslash, double quote), then whatever the programs and
    the listing do, and however the run ends, a run of the script removes
    or changes no entry that converted_media/ had when it started, and
    every regular file that convert_media/ holds at the end has the
    content of a regular file that it held at the start: the input folder
    only sees renames, and outputs are only added. *)
Theorem X15_run_loses_no_output (E : engine) (w : world) :
  (forall name content,
     convert_media w !! name = Some (File content) \/
     converted_media w !! name = Some (File content) ->
     shell_literal name = true) ->
  converted_media w ⊆ converted_media (main E w).2 /\
  forall name content,
    convert_media (main E w).2 !! name = Some (File content) ->
    exists name0, convert_media w !! name0 = Some (File content).
Proof.
  intros Ht. apply (Steady_main E w (main E w).1 (main E w).2 Ht).
  by destruct (main E w).
Qed.

(** X15, at a run with a rogue shell over a file to rename and an output
    of an earlier run. *)
Lemma X15_witness :
  taken_output ⊆ converted_media
    (main rogue_shell_engine (initial_world spaced_name taken_output)).2.
Proof.
  apply (X15_run_loses_no_output rogue_shell_engine (initial_world spaced_name taken_output)).
  intros name content. unfold initial_world, spaced_name, taken_output. simpl.
  intros [[<- _]%lookup_singleton_Some | [<- _]%lookup_singleton_Some]; reflexivity.
Defined.
